(** * A shallow embedding of src/api/bot.js (confession bot and idea bot)

    The source file holds two Telegram bots sharing one Firestore database:
    the confession bot (node-telegram-bot-api, first half of the file) and
    the idea bot (Telegraf, second half).  Both are modelled here over one
    world: the Firestore collections as a map from (collection, document id)
    to documents, the in-memory globals [confessionCounter] and
    [ideaCounter], the Telegraf session of the user being served, the clock
    read by [Date.now()], the environment, and the log of Bot API calls.

    JS strings are lists of UTF-16 code units, JS numbers are [Z].  The
    texts of the Bot API messages and the reply markup are not modelled;
    a message is a kind and its interpolated values.  (The file as
    published writes [callback_ '...'] where [callback_data: '...'] is
    meant, inside the markup only.)  Every
    handler is a computation in a state-and-exception monad [M]: a thrown
    JS error is [inl e], and [try/catch] is [try_catch]. *)

From Stdlib Require Import ZArith String Ascii List Lia.
From stdpp Require Import base gmap strings list.

Open Scope Z_scope.

(** ** JS strings *)

Abbreviation jsstr := (list Z).

(** A JS string literal written with ASCII characters only. *)
Definition js (s : string) : jsstr :=
  map (fun a => Z.of_nat (nat_of_ascii a)) (list_ascii_of_string s).

(** Decimal digits of a non-negative number; [fuel] bounds the digit count. *)
Fixpoint dec_digits (fuel : nat) (n : Z) (acc : jsstr) : jsstr :=
  match fuel with
  | O => acc
  | S f =>
      let acc' := (48 + n mod 10) :: acc in
      if n <? 10 then acc' else dec_digits f (n / 10) acc'
  end.

(** [n.toString()] for an integral JS number. *)
Definition Z_to_js (n : Z) : jsstr :=
  if n <? 0 then 45 :: dec_digits (S (Pos.size_nat (Z.to_pos (- n)))) (- n) []
  else dec_digits (S (Pos.size_nat (Z.to_pos n))) n [].

(** The characters removed by [String.prototype.trim]: WhiteSpace and
    LineTerminator of ECMA-262. *)
Definition is_js_space (c : Z) : bool :=
  (9 <=? c) && (c <=? 13) || (c =? 32) || (c =? 160) || (c =? 5760)
  || (8192 <=? c) && (c <=? 8202) || (c =? 8232) || (c =? 8233)
  || (c =? 8239) || (c =? 8287) || (c =? 12288) || (c =? 65279).

Fixpoint drop_space (s : jsstr) : jsstr :=
  match s with
  | c :: r => if is_js_space c then drop_space r else s
  | [] => []
  end.

(** [s.trim()] *)
Definition js_trim (s : jsstr) : jsstr := rev (drop_space (rev (drop_space s))).

(** [s.startsWith(p)] *)
Fixpoint starts_with (p s : jsstr) : bool :=
  match p, s with
  | [], _ => true
  | a :: p', b :: s' => (a =? b) && starts_with p' s'
  | _ :: _, [] => false
  end.

(** [s.split(sep)] for a one-code-unit separator. *)
Fixpoint split_on (sep : Z) (s : jsstr) : list jsstr :=
  match s with
  | [] => [[]]
  | c :: r =>
      if c =? sep then [] :: split_on sep r
      else match split_on sep r with
           | w :: ws => (c :: w) :: ws
           | [] => [[c]]
           end
  end.

(** [s.replace(pat, '')] with a string pattern: only the first occurrence
    is removed. *)
Fixpoint replace_first_empty (pat s : jsstr) : jsstr :=
  if starts_with pat s then drop (length pat) s
  else match s with
       | [] => []
       | c :: r => c :: replace_first_empty pat r
       end.

(** [parseInt(s)] without a radix: leading white space, an optional
    sign, then either [0x] or [0X] and the longest run of hexadecimal
    digits, or the longest run of decimal digits; [None] is [NaN].  The
    value is exact (JS rounds beyond 2^53). *)
Fixpoint digits_prefix (s : jsstr) (acc : option Z) : option Z :=
  match s with
  | c :: r =>
      if (48 <=? c) && (c <=? 57)
      then digits_prefix r (Some (10 * default 0 acc + (c - 48)))
      else acc
  | [] => acc
  end.

(** The value of a hexadecimal digit. *)
Definition hex_value (c : Z) : option Z :=
  if (48 <=? c) && (c <=? 57) then Some (c - 48)
  else if (97 <=? c) && (c <=? 102) then Some (c - 87)
  else if (65 <=? c) && (c <=? 70) then Some (c - 55)
  else None.

Fixpoint hex_prefix (s : jsstr) (acc : option Z) : option Z :=
  match s with
  | c :: r =>
      match hex_value c with
      | Some v => hex_prefix r (Some (16 * default 0 acc + v))
      | None => acc
      end
  | [] => acc
  end.

(** The digits after the sign: [0x]/[0X] selects radix 16. *)
Definition parse_unsigned (r : jsstr) : option Z :=
  match r with
  | 48 :: x :: t => if (x =? 120) || (x =? 88) then hex_prefix t None else digits_prefix r None
  | _ => digits_prefix r None
  end.

Definition parseInt (s : jsstr) : option Z :=
  match drop_space s with
  | 45 :: r => option_map Z.opp (parse_unsigned r)
  | 43 :: r => parse_unsigned r
  | r => parse_unsigned r
  end.

(** ** Firestore documents *)

Inductive value :=
  | VNum (n : Z)
  | VStr (s : jsstr)
  | VBool (b : bool)
  | VNull
  | VDate (ms : Z)            (** [new Date(ms).toISOString()] *)
  | VNums (l : list Z)        (** an array of numbers *)
  | VStrs (l : list jsstr).   (** an array of strings *)

Abbreviation doc := (gmap jsstr value).

(** The value written for a field: a plain value, or one of the sentinels
    [FieldValue.increment(n)] and [FieldValue.arrayUnion(n)]. *)
Inductive fop :=
  | Put (v : value)
  | Increment (n : Z)
  | ArrayUnion (n : Z).

Definition apply_fop (old : option value) (o : fop) : value :=
  match o with
  | Put v => v
  | Increment n =>
      match old with Some (VNum m) => VNum (m + n) | _ => VNum n end
  | ArrayUnion n =>
      match old with
      | Some (VNums l) => VNums (if decide (n ∈ l) then l else l ++ [n])
      | _ => VNums [n]
      end
  end.

Definition apply_fops (d : doc) (ops : list (jsstr * fop)) : doc :=
  fold_left (fun d fo => <[fo.1 := apply_fop (d !! fo.1) fo.2]> d) ops d.

Definition num_field (d : doc) (f : jsstr) : option Z :=
  match d !! f with Some (VNum n) => Some n | _ => None end.

Definition str_field (d : doc) (f : jsstr) : option jsstr :=
  match d !! f with Some (VStr s) => Some s | _ => None end.

(** ** Telegraf session (idea bot) of the user being served *)

Record Session := mkSession {
  waitingForIdea : bool;
  waitingForComment : bool;
  commentIdeaId : option jsstr;
  rejectingIdea : option jsstr;
  messagingUser : option jsstr
}.

Definition empty_session : Session := mkSession false false None None None.

(** JS truthiness of an optional string ([null]/[undefined]/[''] are falsy). *)
Definition truthy (o : option jsstr) : bool :=
  match o with Some (_ :: _) => true | _ => false end.

(** ** Bot API messages; the formatting of texts is abstracted to a kind
    and its interpolated values. *)

Inductive msg := Msg (kind : string) (args : list value).

(** ** The world *)

Record World := mkWorld {
  db : gmap (jsstr * jsstr) doc;
  confessionCounter : Z;
  ideaCounter : Z;
  session : Session;
  clock : Z;
  env_ADMIN_IDS : jsstr;
  env_CHANNEL_ID : jsstr;
  undeliverable : jsstr -> bool;        (** the Bot API refuses this chat *)
  transport : list (jsstr * msg * bool); (** every Bot API call and whether it went through *)
  next_message_id : Z
}.

Definition with_db (w : World) (d : gmap (jsstr * jsstr) doc) : World :=
  mkWorld d (confessionCounter w) (ideaCounter w) (session w) (clock w)
    (env_ADMIN_IDS w) (env_CHANNEL_ID w) (undeliverable w) (transport w)
    (next_message_id w).

Definition with_confessionCounter (w : World) (n : Z) : World :=
  mkWorld (db w) n (ideaCounter w) (session w) (clock w)
    (env_ADMIN_IDS w) (env_CHANNEL_ID w) (undeliverable w) (transport w)
    (next_message_id w).

Definition with_ideaCounter (w : World) (n : Z) : World :=
  mkWorld (db w) (confessionCounter w) n (session w) (clock w)
    (env_ADMIN_IDS w) (env_CHANNEL_ID w) (undeliverable w) (transport w)
    (next_message_id w).

Definition with_session (w : World) (s : Session) : World :=
  mkWorld (db w) (confessionCounter w) (ideaCounter w) s (clock w)
    (env_ADMIN_IDS w) (env_CHANNEL_ID w) (undeliverable w) (transport w)
    (next_message_id w).

Definition with_transport (w : World) (t : list (jsstr * msg * bool)) (n : Z) : World :=
  mkWorld (db w) (confessionCounter w) (ideaCounter w) (session w) (clock w)
    (env_ADMIN_IDS w) (env_CHANNEL_ID w) (undeliverable w) t n.

(** ** The monad *)

Inductive exn :=
  | ENotFound (k : jsstr * jsstr)   (** Firestore [update] of a missing document *)
  | EDelivery (chat : jsstr)        (** a Bot API call refused *)
  | ETypeError (what : string)      (** a property read on [undefined] *)
  | EChannel.                       (** [throw new Error('Failed to post to channel')] *)

Definition M (A : Type) : Type := World -> World * (exn + A).

Global Instance M_ret : MRet M := fun A a w => (w, inr a).
Global Instance M_bind : MBind M := fun A B k m w =>
  match m w with
  | (w', inl e) => (w', inl e)
  | (w', inr a) => k a w'
  end.

Definition throw {A} (e : exn) : M A := fun w => (w, inl e).

Definition try_catch {A} (m : M A) (h : exn -> M A) : M A := fun w =>
  match m w with
  | (w', inl e) => h e w'
  | r => r
  end.

Definition get_world : M World := fun w => (w, inr w).
Definition modify (f : World -> World) : M unit := fun w => (f w, inr tt).

(** [Date.now()]: time does not advance while one update is handled. *)
Definition now : M Z := fun w => (w, inr (clock w)).

(** ** Firestore operations *)

Definition doc_get (c id : jsstr) : M (option doc) :=
  fun w => (w, inr (db w !! (c, id))).

(** [ref.set(data)] *)
Definition doc_set (c id : jsstr) (ops : list (jsstr * fop)) : M unit :=
  modify (fun w => with_db w (<[(c, id) := apply_fops ∅ ops]> (db w))).

(** [ref.set(data, { merge: true })] *)
Definition doc_set_merge (c id : jsstr) (ops : list (jsstr * fop)) : M unit :=
  modify (fun w =>
    with_db w (<[(c, id) := apply_fops (default ∅ (db w !! (c, id))) ops]> (db w))).

(** [ref.update(data)]: fails with NOT_FOUND on a missing document. *)
Definition doc_update (c id : jsstr) (ops : list (jsstr * fop)) : M unit := fun w =>
  match db w !! (c, id) with
  | None => (w, inl (ENotFound (c, id)))
  | Some d => (with_db w (<[(c, id) := apply_fops d ops]> (db w)), inr tt)
  end.

(** ** Bot API calls: each call is logged with its outcome, and a refused
    one throws. *)

Definition api_call (chat : jsstr) (m : msg) : M Z := fun w =>
  if undeliverable w chat
  then (with_transport w (transport w ++ [(chat, m, false)]) (next_message_id w),
        inl (EDelivery chat))
  else (with_transport w (transport w ++ [(chat, m, true)]) (next_message_id w + 1),
        inr (next_message_id w)).

Definition sendMessage (chat : jsstr) (m : msg) : M Z := api_call chat m.

(** ** Collection and field names *)

Definition SYSTEM := js "system".
Definition COUNTERS := js "counters".
Definition CONFESSIONS := js "confessions".
Definition IDEAS := js "ideas".
Definition USERS := js "users".
Definition COMMENTS := js "comments".
Definition USER_COOLDOWNS := js "user_cooldowns".
Definition USER_RATE_LIMITS := js "user_rate_limits".

Definition F_confessionNumber := js "confessionNumber".
Definition F_ideaNumber := js "ideaNumber".
Definition F_status := js "status".
Definition F_userId := js "userId".
Definition F_text := js "text".

(** ** Confession bot: the sequence counter *)

(** [getNextConfessionNumber]: the body of [db.runTransaction] reads the
    counter document and writes the incremented value; the transaction is
    one atomic step of the model.  The source computes [undefined + 1 = NaN]
    when the document has no numeric [confessionNumber]; numbers of the
    model are integers, so that branch is an error here (no write of the
    file leaves the document in that shape). *)
Definition getNextConfessionNumber : M Z :=
  d ← doc_get SYSTEM COUNTERS;
  t ← now;
  match d with
  | None =>
      doc_set SYSTEM COUNTERS
        [(F_confessionNumber, Put (VNum 1)); (js "lastAssigned", Put (VDate t))];;
      mret 1
  | Some cd =>
      match num_field cd F_confessionNumber with
      | Some current =>
          let next := current + 1 in
          doc_update SYSTEM COUNTERS
            [(F_confessionNumber, Put (VNum next)); (js "lastAssigned", Put (VDate t))];;
          mret next
      | None => throw (ETypeError "confessionNumber is not a number")
      end
  end.

(** The numbers of the approved confessions: the documents of
    [where('status', '==', 'approved').orderBy('confessionNumber')]. *)
Definition approved_confession_numbers (w : World) : list Z :=
  omap (fun kd : (jsstr * jsstr) * doc =>
          if bool_decide (kd.1.1 = CONFESSIONS)
             && bool_decide (str_field kd.2 F_status = Some (js "approved"))
          then num_field kd.2 F_confessionNumber else None)
       (map_to_list (db w)).

Definition list_max (l : list Z) : option Z :=
  fold_right (fun x acc => Some (match acc with Some m => Z.max x m | None => x end)) None l.

(** [.orderBy('confessionNumber', 'desc').limit(1).get()] then
    [snapshot.docs[0].data().confessionNumber]. *)
Definition max_approved_confession : M (option Z) :=
  fun w => (w, inr (list_max (approved_confession_numbers w))).

(** [initializeCounter] *)
Definition initializeCounter : M unit :=
  try_catch
    (counterDoc ← doc_get SYSTEM COUNTERS;
     match counterDoc with
     | None =>
         mx ← max_approved_confession;
         let maxConfession := default 0 mx in
         t ← now;
         doc_set SYSTEM COUNTERS
           [(F_confessionNumber, Put (VNum maxConfession));
            (js "lastAssigned", Put (VDate t)); (js "initialized", Put (VDate t))];;
         modify (fun w => with_confessionCounter w maxConfession)
     | Some d =>
         modify (fun w =>
           with_confessionCounter w (default 0 (num_field d F_confessionNumber)))
     end)
    (fun _ => modify (fun w => with_confessionCounter w 0)).

(** ** Confession bot: admin check and Bot API helpers *)

(** [process.env.ADMIN_IDS.split(',').map(id => id.trim())] *)
Definition admin_ids_trimmed (w : World) : list jsstr :=
  map js_trim (split_on 44 (env_ADMIN_IDS w)).

(** [isAdmin(userId)] for a numeric id ([!userId] rejects 0). *)
Definition isAdmin (w : World) (userId : Z) : bool :=
  if userId =? 0 then false
  else bool_decide (Z_to_js userId ∈ admin_ids_trimmed w).

Record CallbackQuery := mkCallbackQuery {
  cq_id : jsstr;
  cq_from : Z;
  cq_chat : Z;
  cq_message_id : Z;
  cq_data : jsstr
}.

Definition answerCallbackQuery (cbid : jsstr) (text : string) : M unit :=
  _ ← api_call cbid (Msg ("answerCallbackQuery: " ++ text) []); mret tt.

Definition editMessageText (chat : jsstr) (message_id : Z) (kind : string)
    (args : list value) : M unit :=
  _ ← api_call chat (Msg ("editMessageText: " ++ kind) (VNum message_id :: args)); mret tt.

(** The chat of a possibly missing numeric user id. *)
Definition chat_of (o : option Z) : jsstr :=
  match o with Some z => Z_to_js z | None => js "undefined" end.

(** [createCommentSection] *)
Definition createCommentSection (confessionId : jsstr) (number : Z) (text : jsstr) : M unit :=
  doc_set COMMENTS confessionId
    [(js "confessionId", Put (VStr confessionId)); (F_confessionNumber, Put (VNum number));
     (js "confessionText", Put (VStr text)); (js "comments", Put (VStrs []));
     (js "totalComments", Put (VNum 0))].

(** [postToChannel]: every error is caught and logged. *)
Definition postToChannel (text : jsstr) (number : Z) (confessionId : jsstr) : M unit :=
  try_catch
    (w ← get_world;
     let channelId := env_CHANNEL_ID w in
     _ ← sendMessage channelId (Msg "channel_post" [VNum number; VStr text]);
     _ ← sendMessage channelId
           (Msg "channel_comments_link" [VNum number; VStr text; VStr confessionId]);
     createCommentSection confessionId number text)
    (fun _ => mret tt).

(** [updateReputation]: [userId.toString()] on [undefined] throws inside
    the [try]. *)
Definition updateReputation (userId : option Z) (points : Z) : M unit :=
  try_catch
    (match userId with
     | Some u => doc_update USERS (Z_to_js u) [(js "reputation", Increment points)]
     | None => throw (ETypeError "userId.toString")
     end)
    (fun _ => mret tt).

(** [notifyUser(userId, number, 'approved')] *)
Definition notifyUser (userId : option Z) (number : Z) : M unit :=
  try_catch
    (_ ← sendMessage (chat_of userId) (Msg "confession_approved" [VNum number]); mret tt)
    (fun _ => mret tt).

(** [callbackQueryHandlers['approve_']].  The final
    [checkAchievements(confession.userId)] only reads the profile and
    awards badges; it is not modelled. *)
Definition approve_handler (cq : CallbackQuery) : M unit :=
  let chatId := Z_to_js (cq_chat cq) in
  let userId := cq_from cq in
  let confessionId := replace_first_empty (js "approve_") (cq_data cq) in
  w ← get_world;
  if negb (isAdmin w userId) then answerCallbackQuery (cq_id cq) "Access denied"
  else
    try_catch
      (d ← doc_get CONFESSIONS confessionId;
       match d with
       | None => answerCallbackQuery (cq_id cq) "Confession not found"
       | Some confession =>
           nextNumber ← getNextConfessionNumber;
           t ← now;
           doc_update CONFESSIONS confessionId
             [(F_status, Put (VStr (js "approved")));
              (F_confessionNumber, Put (VNum nextNumber));
              (js "approvedAt", Put (VDate t))];;
           postToChannel (default [] (str_field confession F_text)) nextNumber confessionId;;
           updateReputation (num_field confession F_userId) 10;;
           notifyUser (num_field confession F_userId) nextNumber;;
           editMessageText chatId (cq_message_id cq) "approved" [VNum nextNumber];;
           answerCallbackQuery (cq_id cq) "Approved!"
       end)
      (fun _ => answerCallbackQuery (cq_id cq) "Approval failed").

(** ** Idea bot: context, Bot API helpers and approval *)

(** The parts of a Telegraf context the handlers read. *)
Record Ctx := mkCtx {
  ctx_from : Z;
  ctx_username : option jsstr;
  ctx_first_name : jsstr;
  ctx_chat : Z;
  ctx_cb_id : jsstr;        (** id of the callback query, if any *)
  ctx_message_id : Z
}.

Definition ctx_reply (ctx : Ctx) (m : msg) : M unit :=
  _ ← sendMessage (Z_to_js (ctx_chat ctx)) m; mret tt.

Definition ctx_answerCbQuery (ctx : Ctx) (text : string) : M unit :=
  answerCallbackQuery (ctx_cb_id ctx) text.

Definition ctx_editMessageText (ctx : Ctx) (kind : string) (args : list value) : M unit :=
  editMessageText (Z_to_js (ctx_chat ctx)) (ctx_message_id ctx) kind args.

(** A Firestore field value from a JS value that may be [undefined]:
    Firestore refuses [undefined] and the write throws. *)
Definition defined_str (o : option jsstr) : M value :=
  match o with
  | Some s => mret (VStr s)
  | None => throw (ETypeError "Cannot use undefined as a Firestore value")
  end.

(** [postIdeaToChannel]: a failed send is rethrown as
    [new Error('Failed to post to channel')]; returns the message id. *)
Definition postIdeaToChannel (idea : doc) (ideaNumber : Z) : M Z :=
  w ← get_world;
  try_catch
    (sendMessage (env_CHANNEL_ID w)
       (Msg "idea_post" [VNum ideaNumber; VStr (default [] (str_field idea F_text))]))
    (fun _ => throw EChannel).

(** [approveIdea]; [ideaCounter] is the in-memory global, read again at
    each use as the source does. *)
Definition approveIdea (ctx : Ctx) (ideaId : jsstr) : M unit :=
  try_catch
    (ideaDoc ← doc_get IDEAS ideaId;
     match ideaDoc with
     | None => ctx_answerCbQuery ctx "Idea not found."
     | Some idea =>
         modify (fun w => with_ideaCounter w (ideaCounter w + 1));;
         w ← get_world;
         t ← now;
         approvedBy ← defined_str (ctx_username ctx);
         doc_update IDEAS ideaId
           [(F_status, Put (VStr (js "approved")));
            (F_ideaNumber, Put (VNum (ideaCounter w)));
            (js "approvedAt", Put (VDate t));
            (js "approvedBy", Put approvedBy)];;
         w ← get_world;
         channelMessage ← postIdeaToChannel idea (ideaCounter w);
         doc_update IDEAS ideaId [(js "channelMessageId", Put (VNum channelMessage))];;
         w ← get_world;
         _ ← sendMessage (chat_of (num_field idea F_userId))
               (Msg "idea_approved" [VNum (ideaCounter w); VStr (default [] (str_field idea F_text))]);
         w ← get_world;
         ctx_editMessageText ctx "idea_approved" [VNum (ideaCounter w)];;
         ctx_answerCbQuery ctx "Idea approved!"
     end)
    (fun _ => ctx_answerCbQuery ctx "Error approving idea.").

(** ** Shared helpers *)

(** [await bot.sendMessage(chat, text)] whose result is not used. *)
Definition send (chat : jsstr) (m : msg) : M unit := _ ← sendMessage chat m; mret tt.

(** [for (const x of l) await f(x);] *)
Fixpoint for_each {A} (f : A -> M unit) (l : list A) : M unit :=
  match l with
  | [] => mret tt
  | x :: r => f x;; for_each f r
  end.

(** ** The regular expressions of [sanitizeInput] and [extractHashtags]

    Without the [u] flag, the [i] flag folds only ASCII letters for these
    ASCII patterns. *)

Definition to_lower (c : Z) : Z := if (65 <=? c) && (c <=? 90) then c + 32 else c.

(** [s] starts with the lower-case ASCII pattern [p], ignoring case. *)
Definition ci_starts_with (p s : jsstr) : bool := starts_with p (map to_lower s).

(** [\w] *)
Definition is_word (c : Z) : bool :=
  (48 <=? c) && (c <=? 57) || (65 <=? c) && (c <=? 90) || (97 <=? c) && (c <=? 122) || (c =? 95).

(** The longest prefix of word characters and the rest. *)
Fixpoint span_word (s : jsstr) : jsstr * jsstr :=
  match s with
  | c :: r => if is_word c then let (w, rest) := span_word r in (c :: w, rest) else ([], s)
  | [] => ([], [])
  end.

(** The rest after the first occurrence of the code unit [c]. *)
Fixpoint after_first (c : Z) (s : jsstr) : option jsstr :=
  match s with
  | [] => None
  | x :: r => if x =? c then Some r else after_first c r
  end.

(** The rest after the first case-insensitive occurrence of [p]. *)
Fixpoint after_ci (p s : jsstr) : option jsstr :=
  if ci_starts_with p s then Some (drop (length p) s)
  else match s with [] => None | _ :: r => after_ci p r end.

(** [s.replace(re, '')] for a global regular expression none of whose
    matches is empty: [matcher s] is the rest of [s] after the match that
    starts at its first code unit, if there is one.  [fuel] bounds the
    number of steps; each step consumes at least one code unit. *)
Fixpoint replace_all_empty (fuel : nat) (matcher : jsstr -> option jsstr) (s : jsstr) : jsstr :=
  match fuel with
  | O => s
  | S f =>
      match s with
      | [] => []
      | c :: r =>
          match matcher s with
          | Some rest => replace_all_empty f matcher rest
          | None => c :: replace_all_empty f matcher r
          end
      end
  end.

Definition js_replace_all_empty (matcher : jsstr -> option jsstr) (s : jsstr) : jsstr :=
  replace_all_empty (S (length s)) matcher s.

(** The script-element pattern of [sanitizeInput] (flags [gi]): it
    matches from [<script] followed by a word boundary up to the first
    [</script>], since its inner group never consumes a [<] that starts
    [</script>]. *)
Definition match_script (s : jsstr) : option jsstr :=
  if ci_starts_with (js "<script") s then
    let r := drop 7 s in
    if match r with c :: _ => is_word c | [] => false end then None
    else after_ci (js "</script>") r
  else None.

(** [/javascript:/gi] *)
Definition match_javascript (s : jsstr) : option jsstr :=
  if ci_starts_with (js "javascript:") s then Some (drop 11 s) else None.

(** The event-attribute pattern of [sanitizeInput] (flags [gi]): [on], a
    run of word characters, an equal sign and a double quote, then
    everything up to the next double quote.  The greedy [\w+] can only
    succeed with the whole run of word characters, as the equal sign is not
    one. *)
Definition match_on_attr (s : jsstr) : option jsstr :=
  if ci_starts_with (js "on") s then
    match span_word (drop 2 s) with
    | (_ :: _, 61 :: 34 :: r) => after_first 34 r
    | _ => None
    end
  else None.

(** [/<[^>]*>/g] *)
Definition match_tag (s : jsstr) : option jsstr :=
  match s with 60 :: r => after_first 62 r | _ => None end.

(** [sanitizeInput] *)
Definition sanitizeInput (text : jsstr) : jsstr :=
  match text with
  | [] => []
  | _ =>
      js_trim
        (js_replace_all_empty match_tag
          (js_replace_all_empty match_on_attr
            (js_replace_all_empty match_javascript
              (js_replace_all_empty match_script text))))
  end.

(** The matches of [/#[a-zA-Z0-9_]+/g], left to right. *)
Fixpoint hashtags_from (fuel : nat) (s : jsstr) : list jsstr :=
  match fuel with
  | O => []
  | S f =>
      match s with
      | [] => []
      | c :: r =>
          if c =? 35 then
            match span_word r with
            | (w, rest) =>
                match w with
                | [] => hashtags_from f r
                | _ :: _ => (35 :: w) :: hashtags_from f rest
                end
            end
          else hashtags_from f r
      end
  end.

(** [extractHashtags]: [text.match(re) || []]. *)
Definition extractHashtags (text : jsstr) : list jsstr := hashtags_from (S (length text)) text.

(** ** Confession bot: cooldowns, admin notification and submission *)

Definition F_commentTimestamps := js "commentTimestamps".
Definition F_commentCount := js "commentCount".
Definition F_rejectionReason := js "rejectionReason".

(** [checkCooldown(userId, action, cooldownMs)].  Only [setCooldown]
    writes the field, always with a number. *)
Definition checkCooldown (userId : Z) (action : jsstr) (cooldownMs : Z) : M bool :=
  d ← doc_get USER_COOLDOWNS (Z_to_js userId);
  match d with
  | None => mret true
  | Some data =>
      match num_field data action with
      | None | Some Z0 => mret true
      | Some lastAction => t ← now; mret (cooldownMs <? t - lastAction)
      end
  end.

(** [setCooldown(userId, action)] *)
Definition setCooldown (userId : Z) (action : jsstr) : M unit :=
  t ← now;
  doc_set_merge USER_COOLDOWNS (Z_to_js userId)
    [(action, Put (VNum t)); (js "updatedAt", Put (VDate t))].

(** [parseInt(adminId)] as a chat id: [NaN] when no digits. *)
Definition admin_chat (adminId : jsstr) : jsstr :=
  match parseInt adminId with Some z => Z_to_js z | None => js "NaN" end.

(** [notifyAdmins(confessionId, text)]: one send per trimmed admin id, each
    in its own try/catch. *)
Definition notifyAdmins (confessionId text : jsstr) : M unit :=
  w ← get_world;
  for_each
    (fun adminId =>
       try_catch (send (admin_chat adminId) (Msg "new_confession" [VStr text; VStr confessionId]))
         (fun _ => mret tt))
    (admin_ids_trimmed w).

(** The message of the confession bot's webhook. *)
Record Message := mkMessage {
  msg_from : Z;
  msg_chat : Z;
  msg_text : option jsstr    (** [None]: the update carries no text *)
}.

(** [handleConfession(msg, text)].  The final [checkAchievements(userId)]
    only awards badges; it is not modelled. *)
Definition handleConfession (m : Message) (text : jsstr) : M unit :=
  let userId := msg_from m in
  let chatId := Z_to_js (msg_chat m) in
  if (length text =? 0)%nat || (length (js_trim text) <? 5)%nat then
    send chatId (Msg "confession_too_short" [])
  else if (1000 <? length text)%nat then
    send chatId (Msg "confession_too_long" [])
  else
    try_catch
      (let sanitizedText := sanitizeInput text in
       t ← now;
       let confessionId := js "confess_" ++ Z_to_js userId ++ js "_" ++ Z_to_js t in
       let hashtags := extractHashtags sanitizedText in
       doc_set CONFESSIONS confessionId
         [(js "confessionId", Put (VStr confessionId)); (F_userId, Put (VNum userId));
          (F_text, Put (VStr (js_trim sanitizedText))); (F_status, Put (VStr (js "pending")));
          (js "createdAt", Put (VDate t)); (js "hashtags", Put (VStrs hashtags));
          (js "totalComments", Put (VNum 0))];;
       doc_update USERS (Z_to_js userId) [(js "totalConfessions", Increment 1)];;
       setCooldown userId (js "confession");;
       notifyAdmins confessionId sanitizedText;;
       send chatId (Msg "confession_submitted" []))
      (fun _ => send chatId (Msg "confession_error" [])).

(** The keys of [commandHandlers]. *)
Definition command_names : list jsstr := [js "/start"; js "/checkin"; js "/admin"].

(** The keys of [keyboardCommandHandlers], in UTF-16. *)
Definition keyboard_labels : list jsstr :=
  [[55357; 56541] ++ js " Send Confession";
   [55357; 56420] ++ js " My Profile";
   [55357; 56613] ++ js " Trending";
   [55356; 57263] ++ js " Daily Check-in";
   [55356; 57335; 65039] ++ js " Hashtags";
   [55356; 57286] ++ js " Achievements";
   [9881; 65039] ++ js " Settings";
   [8505; 65039] ++ js " About Us";
   [55357; 56589] ++ js " Browse Users";
   [55357; 56524] ++ js " Rules"].

(** The properties every object literal inherits from [Object.prototype]:
    [keyboardCommandHandlers[text]] is truthy for them too. *)
Definition object_prototype_names : list jsstr :=
  [js "constructor"; js "__defineGetter__"; js "__defineSetter__"; js "hasOwnProperty";
   js "__lookupGetter__"; js "__lookupSetter__"; js "isPrototypeOf";
   js "propertyIsEnumerable"; js "toString"; js "valueOf"; js "__proto__";
   js "toLocaleString"].

(** Where [handleMessage] sends a message. *)
Inductive route :=
  | ToCommand (command : jsstr)
  | ToKeyboard (label : jsstr)
  | ToConfession (text : jsstr)
  | ToStart.

(** The tests of [handleMessage], in the source's order; a missing or
    empty text is falsy and fails every test. *)
Definition dispatch (text : option jsstr) : route :=
  match text with
  | None | Some [] => ToStart
  | Some t =>
      let command := hd [] (split_on 32 t) in
      if starts_with (js "/") t && bool_decide (command ∈ command_names) then ToCommand command
      else if bool_decide (t ∈ keyboard_labels ++ object_prototype_names) then ToKeyboard t
      else if (5 <? length t)%nat && (length t <? 1000)%nat then
        if negb (starts_with (js "/") t) then ToConfession t else ToStart
      else ToStart
  end.

Section Dispatch.
(** The handlers of [commandHandlers] and [keyboardCommandHandlers] are
    not modelled: they are parameters. *)
Variable commandHandler : jsstr -> Message -> M unit.
Variable keyboardHandler : jsstr -> Message -> M unit.

(** [handleMessage(msg)] *)
Definition handleMessage (m : Message) : M unit :=
  match dispatch (msg_text m) with
  | ToCommand c => commandHandler c m
  | ToKeyboard l => keyboardHandler l m
  | ToConfession t => handleConfession m t
  | ToStart => commandHandler (js "/start") m
  end.
End Dispatch.

(** ** Idea bot: the session flows *)

Definition get_session : M Session := fun w => (w, inr (session w)).

Definition update_session (f : Session -> Session) : M unit :=
  modify (fun w => with_session w (f (session w))).

Definition set_waitingForIdea (b : bool) (s : Session) : Session :=
  mkSession b (waitingForComment s) (commentIdeaId s) (rejectingIdea s) (messagingUser s).
Definition set_waitingForComment (b : bool) (s : Session) : Session :=
  mkSession (waitingForIdea s) b (commentIdeaId s) (rejectingIdea s) (messagingUser s).
Definition set_commentIdeaId (o : option jsstr) (s : Session) : Session :=
  mkSession (waitingForIdea s) (waitingForComment s) o (rejectingIdea s) (messagingUser s).
Definition set_rejectingIdea (o : option jsstr) (s : Session) : Session :=
  mkSession (waitingForIdea s) (waitingForComment s) (commentIdeaId s) o (messagingUser s).
Definition set_messagingUser (o : option jsstr) (s : Session) : Session :=
  mkSession (waitingForIdea s) (waitingForComment s) (commentIdeaId s) (rejectingIdea s) o.

(** [ctx.from.username ? `@${ctx.from.username}` : ctx.from.first_name] *)
Definition display_name (ctx : Ctx) : jsstr :=
  match ctx_username ctx with
  | Some ((_ :: _) as u) => 64 :: u
  | _ => ctx_first_name ctx
  end.

(** [startIdeaSubmission(ctx)] *)
Definition startIdeaSubmission (ctx : Ctx) : M unit :=
  ctx_reply ctx (Msg "idea_prompt" []);;
  update_session (set_waitingForIdea true).

(** [notifyAdminNewIdea]: the ids are not trimmed here. *)
Definition notifyAdminNewIdea (ideaId ideaText username : jsstr) (userId : Z) : M unit :=
  w ← get_world;
  for_each
    (fun adminId =>
       try_catch
         (send adminId (Msg "new_idea" [VStr username; VNum userId; VStr ideaText; VStr ideaId]))
         (fun _ => mret tt))
    (split_on 44 (env_ADMIN_IDS w)).

(** [handleIdeaSubmission(ctx, ideaText)] *)
Definition handleIdeaSubmission (ctx : Ctx) (ideaText : jsstr) : M unit :=
  let userId := ctx_from ctx in
  let username := display_name ctx in
  if (length ideaText <? 5)%nat then ctx_reply ctx (Msg "idea_too_short" [])
  else if (1000 <? length ideaText)%nat then ctx_reply ctx (Msg "idea_too_long" [])
  else
    try_catch
      (t ← now;
       let ideaId := js "idea_" ++ Z_to_js userId ++ js "_" ++ Z_to_js t in
       doc_set IDEAS ideaId
         [(js "ideaId", Put (VStr ideaId)); (F_userId, Put (VNum userId));
          (js "username", Put (VStr username)); (F_text, Put (VStr ideaText));
          (F_status, Put (VStr (js "pending"))); (F_commentCount, Put (VNum 0));
          (js "createdAt", Put (VDate t)); (js "submittedAt", Put (VDate t))];;
       notifyAdminNewIdea ideaId ideaText username userId;;
       update_session (set_waitingForIdea false);;
       ctx_reply ctx (Msg "idea_submitted" []))
      (fun _ => ctx_reply ctx (Msg "idea_error" [])).

(** [handleCommentButtonClick(ctx, ideaId)] *)
Definition handleCommentButtonClick (ctx : Ctx) (ideaId : jsstr) : M unit :=
  ideaDoc ← doc_get IDEAS ideaId;
  match ideaDoc with
  | None => ctx_answerCbQuery ctx "Idea not found."
  | Some idea =>
      update_session (fun s => set_commentIdeaId (Some ideaId) (set_waitingForComment true s));;
      ctx_answerCbQuery ctx "";;
      ctx_reply ctx (Msg "comment_prompt" [VStr (default [] (str_field idea F_text))])
  end.

(** [checkCommentRateLimit(userId, windowMs, maxComments)].  Nothing in
    the file writes [commentTimestamps]; an array of numbers is assumed. *)
Definition checkCommentRateLimit (userId windowMs maxComments : Z) : M bool :=
  d ← doc_get USER_RATE_LIMITS (Z_to_js userId);
  match d with
  | None => mret true
  | Some data =>
      let recentComments :=
        match data !! F_commentTimestamps with Some (VNums l) => l | _ => [] end in
      t ← now;
      let recent := filter (fun ts => bool_decide (t - ts <= windowMs)) recentComments in
      mret (Z.of_nat (length recent) <? maxComments)
  end.

(** [updateChannelCommentCount(ideaId, newCount)] *)
Definition updateChannelCommentCount (ideaId : jsstr) (newCount : Z) : M unit :=
  try_catch
    (ideaDoc ← doc_get IDEAS ideaId;
     match ideaDoc with
     | None => throw (ETypeError "idea.channelMessageId")
     | Some idea =>
         match num_field idea (js "channelMessageId") with
         | None | Some Z0 => mret tt
         | Some mid =>
             w ← get_world;
             _ ← api_call (env_CHANNEL_ID w) (Msg "editMessageReplyMarkup" [VNum mid; VNum newCount]);
             mret tt
         end
     end)
    (fun _ => mret tt).

(** [notifyIdeaOwnerNewComment(idea, commentText, totalComments)] *)
Definition notifyIdeaOwnerNewComment (idea : doc) (commentText : jsstr) (total : Z) : M unit :=
  try_catch
    (send (chat_of (num_field idea F_userId)) (Msg "new_comment" [VStr commentText; VNum total]))
    (fun _ => mret tt).

(** [handleCommentSubmission(ctx, commentText)] *)
Definition handleCommentSubmission (ctx : Ctx) (commentText : jsstr) : M unit :=
  let userId := ctx_from ctx in
  let username := display_name ctx in
  s ← get_session;
  match commentIdeaId s with
  | None | Some [] => ctx_reply ctx (Msg "no_idea_selected" [])
  | Some ideaId =>
      if (length commentText <? 2)%nat then ctx_reply ctx (Msg "comment_too_short" [])
      else if (500 <? length commentText)%nat then ctx_reply ctx (Msg "comment_too_long" [])
      else
        try_catch
          (t ← now;
           let commentId := js "comment_" ++ Z_to_js userId ++ js "_" ++ Z_to_js t in
           doc_set COMMENTS commentId
             [(js "commentId", Put (VStr commentId)); (js "ideaId", Put (VStr ideaId));
              (F_userId, Put (VNum userId)); (js "username", Put (VStr username));
              (F_text, Put (VStr commentText)); (js "createdAt", Put (VDate t));
              (js "isAnonymous", Put (VBool true))];;
           ideaDoc ← doc_get IDEAS ideaId;
           match ideaDoc with
           | None => throw (ETypeError "idea.commentCount")
           | Some idea =>
               let newCount := default 0 (num_field idea F_commentCount) + 1 in
               doc_update IDEAS ideaId [(F_commentCount, Put (VNum newCount))];;
               updateChannelCommentCount ideaId newCount;;
               (if bool_decide (num_field idea F_userId = Some userId) then mret tt
                else notifyIdeaOwnerNewComment idea commentText newCount);;
               update_session (fun s => set_commentIdeaId None (set_waitingForComment false s));;
               ctx_reply ctx (Msg "comment_added" [VNum newCount])
           end)
          (fun _ => ctx_reply ctx (Msg "comment_error" []))
  end.

(** [rejectIdea(ctx, ideaId)]: the [reject_idea_] button. *)
Definition rejectIdea (ctx : Ctx) (ideaId : jsstr) : M unit :=
  ctx_editMessageText ctx "rejecting_idea" [];;
  update_session (set_rejectingIdea (Some ideaId));;
  ctx_answerCbQuery ctx "".

(** [handleIdeaRejection(ctx, reason)]: no try/catch; a failure propagates
    to [bot.catch] and leaves [rejectingIdea] set. *)
Definition handleIdeaRejection (ctx : Ctx) (reason : jsstr) : M unit :=
  s ← get_session;
  match rejectingIdea s with
  | None | Some [] => throw (ETypeError "doc(ideaId)")
  | Some ideaId =>
      ideaDoc ← doc_get IDEAS ideaId;
      (match ideaDoc with
       | None => mret tt
       | Some idea =>
           t ← now;
           rejectedBy ← defined_str (ctx_username ctx);
           doc_update IDEAS ideaId
             [(F_status, Put (VStr (js "rejected"))); (F_rejectionReason, Put (VStr reason));
              (js "rejectedBy", Put rejectedBy); (js "rejectedAt", Put (VDate t))];;
           send (chat_of (num_field idea F_userId)) (Msg "idea_rejected" [VStr reason]);;
           ctx_reply ctx (Msg "idea_rejection_done" [])
       end);;
      update_session (set_rejectingIdea None)
  end.

(** The [message_user_] button. *)
Definition messageUserAction (ctx : Ctx) (userId : jsstr) : M unit :=
  ctx_editMessageText ctx "messaging_user" [VStr userId];;
  update_session (set_messagingUser (Some userId));;
  ctx_answerCbQuery ctx "".

(** [handleAdminMessage(ctx, message)] *)
Definition handleAdminMessage (ctx : Ctx) (message : jsstr) : M unit :=
  s ← get_session;
  try_catch
    (send (default (js "null") (messagingUser s)) (Msg "admin_message" [VStr message]);;
     ctx_reply ctx (Msg "admin_message_sent" []))
    (fun _ => ctx_reply ctx (Msg "admin_message_failed" []));;
  update_session (set_messagingUser None).

(** [bot.on('text', ...)] *)
Definition on_text (ctx : Ctx) (text : jsstr) : M unit :=
  s ← get_session;
  if waitingForIdea s then handleIdeaSubmission ctx text
  else if waitingForComment s then handleCommentSubmission ctx text
  else if truthy (rejectingIdea s) then handleIdeaRejection ctx text
  else if truthy (messagingUser s) then handleAdminMessage ctx text
  else mret tt.

(** [bot.catch]: an error of a handler is answered with a reply, whose own
    failure is only an unhandled rejection. *)
Definition bot_catch (ctx : Ctx) (m : M unit) : M unit :=
  try_catch m (fun _ => try_catch (ctx_reply ctx (Msg "error_occurred" [])) (fun _ => mret tt)).

(** Updates of the idea bot that touch the state of an idea: the reject
    button, the rejection reason, and the approve button. *)
Inductive idea_event :=
  | EvRejectButton (ctx : Ctx) (ideaId : jsstr)
  | EvRejectionReason (ctx : Ctx) (reason : jsstr)
  | EvApprove (ctx : Ctx) (ideaId : jsstr).

Definition run_event (e : idea_event) : M unit :=
  match e with
  | EvRejectButton ctx id => bot_catch ctx (rejectIdea ctx id)
  | EvRejectionReason ctx reason => bot_catch ctx (handleIdeaRejection ctx reason)
  | EvApprove ctx id => bot_catch ctx (approveIdea ctx id)
  end.

(** The updates handled one after another, in the order they are served. *)
Definition run_events (es : list idea_event) : M unit := for_each run_event es.

(** ** Confession bot: profiles, commands, callbacks and the webhook *)

Definition F_isActive := js "isActive".
Definition F_isRegistered := js "isRegistered".
Definition F_dailyStreak := js "dailyStreak".
Definition F_lastCheckin := js "lastCheckin".
Definition F_reputation := js "reputation".
Definition F_totalConfessions := js "totalConfessions".
Definition F_updatedAt := js "updatedAt".

(** JS truthiness of a field that may be missing ([undefined]). *)
Definition value_truthy (o : option value) : bool :=
  match o with
  | None | Some VNull => false
  | Some (VBool b) => b
  | Some (VNum n) => negb (n =? 0)
  | Some (VStr s) => match s with [] => false | _ :: _ => true end
  | Some (VDate _) | Some (VNums _) | Some (VStrs _) => true
  end.

(** [recordComment(userId)]: the transaction is one atomic step. *)
Definition recordComment (userId : Z) : M unit :=
  t ← now;
  d ← doc_get USER_RATE_LIMITS (Z_to_js userId);
  match d with
  | None =>
      doc_set USER_RATE_LIMITS (Z_to_js userId)
        [(F_commentTimestamps, Put (VNums [t])); (F_updatedAt, Put (VDate t))]
  | Some _ =>
      doc_update USER_RATE_LIMITS (Z_to_js userId)
        [(F_commentTimestamps, ArrayUnion t); (F_updatedAt, Put (VDate t))]
  end.

(** The [newProfile] object of [getUserProfile].  Its [notifications]
    field is an object whose four switches are all [true]; it is written
    here as the list of the names of the switches that are on. *)
Definition new_profile (userId t : Z) : list (jsstr * fop) :=
  [(F_userId, Put (VNum userId)); (js "username", Put VNull); (js "bio", Put VNull);
   (js "followers", Put (VNums [])); (js "following", Put (VNums []));
   (js "joinDate", Put (VDate t)); (F_totalConfessions, Put (VNum 0));
   (F_reputation, Put (VNum 0)); (F_isActive, Put (VBool true));
   (F_isRegistered, Put (VBool false)); (js "achievements", Put (VStrs []));
   (js "achievementCount", Put (VNum 0)); (F_dailyStreak, Put (VNum 0));
   (F_lastCheckin, Put VNull);
   (js "notifications",
      Put (VStrs [js "confessionApproved"; js "newComment"; js "newFollower"; js "newConfession"]));
   (js "tags", Put (VStrs []))].

(** [getUserProfile(userId)] *)
Definition getUserProfile (userId : Z) : M doc :=
  userDoc ← doc_get USERS (Z_to_js userId);
  match userDoc with
  | None =>
      t ← now;
      let newProfile := new_profile userId t in
      doc_set USERS (Z_to_js userId) newProfile;;
      mret (apply_fops ∅ newProfile)
  | Some d => mret d
  end.

(** [commandHandlers['/start']]: [msg.text.split(' ')] throws on a message
    without text. *)
Definition start_handler (m : Message) : M unit :=
  let userId := msg_from m in
  let chatId := Z_to_js (msg_chat m) in
  match msg_text m with
  | None => throw (ETypeError "msg.text.split")
  | Some text =>
      let args := nth_error (split_on 32 text) 1 in
      if match args with Some ((_ :: _) as a) => starts_with (js "comments_") a | _ => false end
      then send chatId (Msg "comments_coming_soon" [])
      else
        profile ← getUserProfile userId;
        if negb (value_truthy (profile !! F_isActive)) then send chatId (Msg "account_blocked" [])
        else
          (if negb (value_truthy (profile !! F_isRegistered))
           then doc_update USERS (Z_to_js userId) [(F_isRegistered, Put (VBool true))]
           else mret tt);;
          send chatId (Msg "welcome" [])
  end.

(** [new Date(ms).toDateString()]: the calendar day of the instant, for a
    server running in UTC. *)
Definition day_of (ms : Z) : Z := ms / 86400000.

(** [commandHandlers['/checkin']].  Only [/checkin] writes [lastCheckin]
    (an ISO date) and the profile creates it [null]; [dailyStreak] is
    written next to it, so the streak read on the yesterday branch is a
    number.  The final [checkAchievements(userId)] only awards badges; it
    is not modelled. *)
Definition checkin_handler (m : Message) : M unit :=
  let userId := msg_from m in
  let chatId := Z_to_js (msg_chat m) in
  profile ← getUserProfile userId;
  if negb (value_truthy (profile !! F_isActive)) then send chatId (Msg "account_blocked" [])
  else
    t ← now;
    let today := day_of t in
    let lastCheckin :=
      match profile !! F_lastCheckin with Some (VDate ms) => Some (day_of ms) | _ => None end in
    if bool_decide (lastCheckin = Some today) then
      send chatId (Msg "already_checked_in" [default VNull (profile !! F_dailyStreak)])
    else
      newStreak ←
        (match lastCheckin with
         | Some d =>
             if d =? today - 1 then
               match num_field profile F_dailyStreak with
               | Some s => mret (s + 1)
               | None => throw (ETypeError "dailyStreak is not a number")
               end
             else mret 1
         | None => mret 1
         end);
      doc_update USERS (Z_to_js userId)
        [(F_dailyStreak, Put (VNum newStreak)); (F_lastCheckin, Put (VDate t))];;
      updateReputation (Some userId) 2;;
      send chatId (Msg "checkin_done" [VNum newStreak]).

(** The number of documents of collection [c] whose data satisfies [p]. *)
Definition count_where (c : jsstr) (p : doc -> bool) (w : World) : Z :=
  Z.of_nat (length (List.filter (fun kd : (jsstr * jsstr) * doc =>
                                   bool_decide (kd.1.1 = c) && p kd.2)
                                (map_to_list (db w)))).

Definition status_is (s : string) (d : doc) : bool :=
  bool_decide (str_field d F_status = Some (js s)).

(** [getBotStats()] *)
Definition getBotStats : M (Z * Z * Z * Z) := fun w =>
  (w, inr (count_where USERS (fun _ => true) w,
           count_where CONFESSIONS (status_is "pending") w,
           count_where CONFESSIONS (status_is "approved") w,
           count_where CONFESSIONS (status_is "rejected") w)).

(** [commandHandlers['/admin']] *)
Definition admin_handler (m : Message) : M unit :=
  let chatId := Z_to_js (msg_chat m) in
  w ← get_world;
  if negb (isAdmin w (msg_from m)) then send chatId (Msg "admin_only" [])
  else
    '(users, pending, approved, rejected) ← getBotStats;
    send chatId (Msg "admin_dashboard" [VNum users; VNum pending; VNum approved; VNum rejected]).

(** [commandHandlers[command](msg)]: calling a missing handler throws. *)
Definition command_handler (command : jsstr) (m : Message) : M unit :=
  if bool_decide (command = js "/start") then start_handler m
  else if bool_decide (command = js "/checkin") then checkin_handler m
  else if bool_decide (command = js "/admin") then admin_handler m
  else throw (ETypeError "commandHandlers[command] is not a function").

(** [callbackQueryHandlers['reject_']]: the rejection reason is asked for,
    nothing is stored. *)
Definition reject_handler (cq : CallbackQuery) : M unit :=
  let chatId := Z_to_js (cq_chat cq) in
  let userId := cq_from cq in
  w ← get_world;
  if negb (isAdmin w userId) then answerCallbackQuery (cq_id cq) "Access denied"
  else editMessageText chatId (cq_message_id cq) "rejecting_confession" [].

Section Callbacks.
(** The handlers that only read and display data are parameters. *)
Variables manage_users review_confessions handleViewUser handleViewProfile
  : CallbackQuery -> M unit.
(** [callbackQueryHandlers[data]] for a property inherited from
    [Object.prototype]. *)
Variable prototype_handler : jsstr -> CallbackQuery -> M unit.

(** [handleCallbackPrefix(callbackQuery)] *)
Definition handleCallbackPrefix (cq : CallbackQuery) : M unit :=
  let data := cq_data cq in
  if starts_with (js "approve_") data then approve_handler cq
  else if starts_with (js "reject_") data then reject_handler cq
  else if starts_with (js "view_user_") data then handleViewUser cq
  else if starts_with (js "view_profile_") data then handleViewProfile cq
  else if bool_decide (data = js "manage_users") then manage_users cq
  else if bool_decide (data = js "review_confessions") then review_confessions cq
  else if bool_decide (data ∈ object_prototype_names) then prototype_handler data cq
  else answerCallbackQuery (cq_id cq) "Unknown action".
End Callbacks.

(** The body of a POST to the webhook. *)
Inductive Update :=
  | UMessage (m : Message)
  | UCallback (cq : CallbackQuery)
  | UOther.

Section Webhook.
Variable keyboardHandler : jsstr -> Message -> M unit.
Variables manage_users review_confessions handleViewUser handleViewProfile
  : CallbackQuery -> M unit.
Variable prototype_handler : jsstr -> CallbackQuery -> M unit.

(** The POST branch of [module.exports]: [true] is [{ ok: true }], [false]
    the acknowledged error. *)
Definition webhook (u : Update) : M bool :=
  try_catch
    ((match u with
      | UMessage m => handleMessage command_handler keyboardHandler m
      | UCallback cq =>
          handleCallbackPrefix manage_users review_confessions handleViewUser
            handleViewProfile prototype_handler cq
      | UOther => mret tt
      end);;
     mret true)
    (fun _ => mret false).
End Webhook.

(** ** Idea bot: the counter at start-up *)

(** The numbers of the approved ideas. *)
Definition approved_idea_numbers (w : World) : list Z :=
  omap (fun kd : (jsstr * jsstr) * doc =>
          if bool_decide (kd.1.1 = IDEAS)
             && bool_decide (str_field kd.2 F_status = Some (js "approved"))
          then num_field kd.2 F_ideaNumber else None)
       (map_to_list (db w)).

(** [initializeIdeaCounter()]: [latestIdea.ideaNumber || 0] is the number
    itself, 0 included. *)
Definition initializeIdeaCounter : M unit :=
  try_catch
    (w ← get_world;
     match list_max (approved_idea_numbers w) with
     | None => mret tt
     | Some n => modify (fun w => with_ideaCounter w n)
     end)
    (fun _ => mret tt).

(** ** A small concrete world used by the examples and witnesses *)

Definition sample_db : gmap (jsstr * jsstr) doc :=
  <[(CONFESSIONS, js "c1") :=
      <[F_status := VStr (js "pending")]> (<[F_userId := VNum 42]> (<[F_text := VStr (js "hello everyone")]> ∅))]>
  (<[(CONFESSIONS, js "c0") :=
      <[F_status := VStr (js "approved")]> (<[F_confessionNumber := VNum 7]> (<[F_userId := VNum 43]> ∅))]>
  (<[(IDEAS, js "i1") :=
      <[F_status := VStr (js "pending")]> (<[F_userId := VNum 42]> (<[F_text := VStr (js "more benches")]> ∅))]>
  (<[(IDEAS, js "i2") :=
      <[F_status := VStr (js "pending")]> (<[F_userId := VNum 44]> (<[F_text := VStr (js "late library")]> ∅))]>
  (<[(USERS, js "42") := <[js "totalConfessions" := VNum 0]> ∅]> ∅)))).

Definition sample_world : World :=
  mkWorld sample_db 0 0 empty_session 100000 (js "7, 8") (js "-100123")
    (fun _ => false) [] 1.

Definition admin_cq (data : jsstr) : CallbackQuery :=
  mkCallbackQuery (js "cb1") 7 7 55 data.

Definition admin_ctx : Ctx := mkCtx 7 (Some (js "boss")) (js "Boss") 7 (js "cb2") 56.

(** An admin whose Telegram account has no username ([ctx.from.username]
    is undefined). *)
Definition admin_ctx_anonymous : Ctx := mkCtx 8 None (js "Deputy") 8 (js "cb3") 57.

(** The sample world where user 42 submitted a confession ten seconds ago. *)
Definition cooldown_world : World :=
  with_db sample_world
    (<[(USER_COOLDOWNS, js "42") := <[js "confession" := VNum 90000]> ∅]> sample_db).

(** A free-text message of user 42. *)
Definition confession_msg : Message :=
  mkMessage 42 42 (Some (js "the library is too cold at night")).

(** A community member of the idea bot. *)
Definition member_ctx : Ctx := mkCtx 45 (Some (js "carol")) (js "Carol") 45 (js "cb4") 60.

(** The sample world where user 45 commented three times in the last
    five seconds and is writing a comment on idea [i1]. *)
Definition rate_limited_world : World :=
  with_session
    (with_db sample_world
       (<[(USER_RATE_LIMITS, js "45") :=
            <[F_commentTimestamps := VNums [95000; 97000; 99000]]> ∅]> sample_db))
    (mkSession false true (Some (js "i1")) None None).

(** ** Observations used by the statements *)

(** Field [f] of document [k], if both exist. *)
Definition field_at (k : jsstr * jsstr) (f : jsstr) (w : World) : option value :=
  d ← db w !! k; d !! f.

Definition number_field (c : jsstr) : jsstr :=
  if bool_decide (c = IDEAS) then F_ideaNumber else F_confessionNumber.

(** The sequence number stored on a confession or an idea. *)
Definition number_of (c id : jsstr) (w : World) : option Z :=
  match field_at (c, id) (number_field c) w with Some (VNum n) => Some n | _ => None end.

(** The counter value the next allocation reads; a missing counter
    document reads as 0. *)
Definition stored_counter (w : World) : option Z :=
  match db w !! (SYSTEM, COUNTERS) with
  | None => Some 0
  | Some d => num_field d F_confessionNumber
  end.

(** A run of approvals whose allocation transactions commit in the order
    of [callers]: each caller gets the value of its own call. *)
Fixpoint allocate_all (callers : list Z) : M (list (Z * Z)) :=
  match callers with
  | [] => mret []
  | caller :: rest =>
      n ← getNextConfessionNumber;
      ns ← allocate_all rest;
      mret ((caller, n) :: ns)
  end.


(** The value of [ADMIN_IDS] written as [ids.join(sep)]. *)
Fixpoint join_on (sep : Z) (l : list jsstr) : jsstr :=
  match l with
  | [] => []
  | [x] => x
  | x :: r => x ++ sep :: join_on sep r
  end.

(** A code unit that is a decimal digit. *)
Definition is_digit (c : Z) : Prop := 48 <= c <= 57.

(** No [<] of [s] is followed, later, by a [>]. *)
Definition tag_free (s : jsstr) : Prop := forall a r, s = a ++ 60 :: r -> ~ In 62 r.

(** [h] is a hashtag found in [text]: [#], then at least one word
    character, at some position of [text]. *)
Definition hashtag_in (text h : jsstr) : Prop :=
  exists w, h = 35 :: w /\ w <> [] /\ Forall (fun c => is_word c = true) w
            /\ exists a b, text = a ++ h ++ b.

(** The id [handleConfession] gives to the confession of [userId] at
    instant [t]. *)
Definition confession_id (userId t : Z) : jsstr :=
  js "confess_" ++ Z_to_js userId ++ js "_" ++ Z_to_js t.

(** The profile after [recordComment] at time [t], from the previous one. *)
Definition recordComment_doc (d : option doc) (t : Z) : doc :=
  match d with
  | None => apply_fops ∅ [(F_commentTimestamps, Put (VNums [t])); (F_updatedAt, Put (VDate t))]
  | Some d => apply_fops d [(F_commentTimestamps, ArrayUnion t); (F_updatedAt, Put (VDate t))]
  end.

(** The profile [getUserProfile u] returns: the stored one, or a new one. *)
Definition profile_of (u : Z) (w : World) : doc :=
  match db w !! (USERS, Z_to_js u) with
  | Some d => d
  | None => apply_fops ∅ (new_profile u (clock w))
  end.

(** The profile after [/checkin] at time [t]. *)
Definition checkin_doc (t : Z) (p : doc) : doc :=
  let today := day_of t in
  let last := match p !! F_lastCheckin with Some (VDate ms) => Some (day_of ms) | _ => None end in
  if negb (value_truthy (p !! F_isActive)) then p
  else if bool_decide (last = Some today) then p
  else
    match match last with
          | Some d => if d =? today - 1 then option_map (fun s => s + 1) (num_field p F_dailyStreak)
                      else Some 1
          | None => Some 1
          end with
    | None => p
    | Some s =>
        apply_fops (apply_fops p [(F_dailyStreak, Put (VNum s)); (F_lastCheckin, Put (VDate t))])
          [(js "reputation", Increment 2)]
    end.

(** The database and the session together. *)
Definition db_session (w : World) : gmap (jsstr * jsstr) doc * Session := (db w, session w).

(** * Proofs *)

(** ** Sanity checks on the sample world *)

Example Z_to_js_ex : Z_to_js 1700000000123 = js "1700000000123".
Proof. reflexivity. Qed.

Example isAdmin_ex : isAdmin sample_world 8 = true /\ isAdmin sample_world 9 = false.
Proof. split; reflexivity. Qed.

(** ** Running the monad *)

Lemma run_bind {A B} (m : M A) (f : A -> M B) w :
  (m ≫= f) w = match m w with (w', inl e) => (w', inl e) | (w', inr a) => f a w' end.
Proof. reflexivity. Qed.

Lemma run_try_catch {A} (m : M A) h w :
  try_catch m h w = match m w with (w', inl e) => h e w' | r => r end.
Proof. reflexivity. Qed.

(** ** Frame: what a computation leaves untouched *)

(** [keeps obs m]: running [m] never changes the observation [obs]. *)
Definition keeps {A X} (obs : World -> X) (m : M A) : Prop :=
  forall w, obs (fst (m w)) = obs w.

(** Observations that only read the database and the counters: the Bot
    API log and the session do not affect them. *)
Class Observer {X} (obs : World -> X) := {
  obs_transport : forall w t n, obs (with_transport w t n) = obs w;
  obs_session : forall w s, obs (with_session w s) = obs w;
  obs_confessionCounter : forall w n, obs (with_confessionCounter w n) = obs w
}.

Global Instance observer_key k : Observer (fun w => db w !! k).
Proof. split; reflexivity. Qed.

Global Instance observer_db : Observer db.
Proof. split; reflexivity. Qed.

Global Instance observer_ideaCounter : Observer ideaCounter.
Proof. split; reflexivity. Qed.

Create HintDb frame.

Section Keeps.
Context {X : Type} (obs : World -> X).

Lemma keeps_ret {A} (a : A) : keeps obs (mret a).
Proof. intros w. reflexivity. Qed.

Lemma keeps_throw {A} e : keeps obs (@throw A e).
Proof. intros w. reflexivity. Qed.

Lemma keeps_get_world : keeps obs get_world.
Proof. intros w. reflexivity. Qed.

Lemma keeps_now : keeps obs now.
Proof. intros w. reflexivity. Qed.

Lemma keeps_doc_get c id : keeps obs (doc_get c id).
Proof. intros w. reflexivity. Qed.

Lemma keeps_bind {A B} (m : M A) (f : A -> M B) :
  keeps obs m -> (forall a, keeps obs (f a)) -> keeps obs (m ≫= f).
Proof.
  intros Hm Hf w. rewrite run_bind. specialize (Hm w).
  destruct (m w) as [w' [e|a]]; cbn in *; [done|]. by rewrite Hf.
Qed.

Lemma keeps_try_catch {A} (m : M A) h :
  keeps obs m -> (forall e, keeps obs (h e)) -> keeps obs (try_catch m h).
Proof.
  intros Hm Hh w. rewrite run_try_catch. specialize (Hm w).
  destruct (m w) as [w' [e|a]]; cbn in *; [by rewrite Hh|done].
Qed.

Context `{!Observer obs}.

Lemma keeps_api_call chat m : keeps obs (api_call chat m).
Proof.
  intros w. unfold api_call. destruct (undeliverable w chat); apply obs_transport.
Qed.

Lemma keeps_sendMessage chat m : keeps obs (sendMessage chat m).
Proof. apply keeps_api_call. Qed.

Lemma keeps_modify_session f : keeps obs (modify (fun w => with_session w (f w))).
Proof. intros w. apply obs_session. Qed.

Lemma keeps_modify_confessionCounter f :
  keeps obs (modify (fun w => with_confessionCounter w (f w))).
Proof. intros w. apply obs_confessionCounter. Qed.
End Keeps.

Lemma keeps_modify_ideaCounter_key k f :
  keeps (fun w => db w !! k) (modify (fun w => with_ideaCounter w (f w))).
Proof. intros w. reflexivity. Qed.

Lemma keeps_doc_set k c id ops :
  (c, id) ≠ k -> keeps (fun w => db w !! k) (doc_set c id ops).
Proof. intros Hne w. cbn. by rewrite lookup_insert_ne. Qed.

Lemma keeps_doc_set_merge k c id ops :
  (c, id) ≠ k -> keeps (fun w => db w !! k) (doc_set_merge c id ops).
Proof. intros Hne w. cbn. by rewrite lookup_insert_ne. Qed.

Lemma keeps_doc_update k c id ops :
  (c, id) ≠ k -> keeps (fun w => db w !! k) (doc_update c id ops).
Proof.
  intros Hne w. unfold doc_update. destruct (db w !! (c, id)); [|reflexivity].
  cbn. by rewrite lookup_insert_ne.
Qed.

Lemma keeps_ic_doc_set c id ops : keeps ideaCounter (doc_set c id ops).
Proof. intros w. reflexivity. Qed.

Lemma keeps_ic_doc_set_merge c id ops : keeps ideaCounter (doc_set_merge c id ops).
Proof. intros w. reflexivity. Qed.

Lemma keeps_ic_doc_update c id ops : keeps ideaCounter (doc_update c id ops).
Proof. intros w. unfold doc_update. by destruct (db w !! (c, id)). Qed.

Lemma collection_ne (c c' id id' : jsstr) : c ≠ c' -> (c, id) ≠ (c', id').
Proof. intros Hc H. inversion H. contradiction. Qed.

#[export] Hint Resolve keeps_ret keeps_throw keeps_get_world keeps_now keeps_doc_get
  keeps_api_call keeps_sendMessage keeps_modify_session keeps_modify_confessionCounter
  keeps_modify_ideaCounter_key keeps_ic_doc_set keeps_ic_doc_set_merge
  keeps_ic_doc_update : frame.

(** ** Documents written field by field *)

Lemma apply_fops_cons d fo ops :
  apply_fops d (fo :: ops) = apply_fops (<[fo.1 := apply_fop (d !! fo.1) fo.2]> d) ops.
Proof. reflexivity. Qed.

Lemma apply_fops_notin d f ops : f ∉ ops.*1 -> apply_fops d ops !! f = d !! f.
Proof.
  revert d. induction ops as [|[g o] ops IH]; intros d Hf; [reflexivity|].
  rewrite apply_fops_cons, IH; [|set_solver]. cbn.
  rewrite lookup_insert_ne; [done|set_solver].
Qed.

Lemma apply_fops_put d f v ops : f ∉ ops.*1 -> apply_fops d ((f, Put v) :: ops) !! f = Some v.
Proof.
  intros Hf. rewrite apply_fops_cons, apply_fops_notin; [|done]. cbn. apply lookup_insert_eq.
Qed.

(** A field name is absent from a literal list of field names. *)
Ltac not_in_names :=
  let Hin := fresh in
  intros Hin; apply list_elem_of_In in Hin; vm_compute in Hin; intuition discriminate.

Global Instance observer_field k f : Observer (field_at k f).
Proof. split; reflexivity. Qed.

Lemma keeps_field_key k f {A} (m : M A) :
  keeps (fun w => db w !! k) m -> keeps (field_at k f) m.
Proof. intros H w. unfold field_at. by rewrite H. Qed.

Lemma keeps_field_doc_update k f c id ops :
  f ∉ ops.*1 \/ (c, id) ≠ k -> keeps (field_at k f) (doc_update c id ops).
Proof.
  intros Hf w. unfold doc_update, field_at.
  destruct (db w !! (c, id)) as [d|] eqn:E; [|reflexivity]. cbn.
  destruct (decide ((c, id) = k)) as [<-|Hne].
  - rewrite lookup_insert_eq, E. cbn. apply apply_fops_notin.
    destruct Hf as [Hf|Hf]; [done|congruence].
  - by rewrite lookup_insert_ne.
Qed.

Lemma keeps_field_modify_ideaCounter k f g :
  keeps (field_at k f) (modify (fun w => with_ideaCounter w (g w))).
Proof. intros w. reflexivity. Qed.

Lemma keeps_ic_defined_str o : keeps ideaCounter (defined_str o).
Proof. intros w. by destruct o. Qed.

Lemma keeps_field_defined_str k f o : keeps (field_at k f) (defined_str o).
Proof. intros w. by destruct o. Qed.

#[export] Hint Resolve keeps_field_modify_ideaCounter keeps_ic_defined_str
  keeps_field_defined_str : frame.

(** Two collection names differ: decided by computing them. *)
Ltac names_differ := apply collection_ne; vm_compute; discriminate.

Ltac frame_step :=
  match goal with
  | |- keeps _ (mbind _ _) => apply keeps_bind; [|intros ?]
  | |- keeps _ (try_catch _ _) => apply keeps_try_catch; [|intros ?]
  | |- keeps (fun w => db w !! _) (doc_set _ _ _) => apply keeps_doc_set
  | |- keeps (fun w => db w !! _) (doc_set_merge _ _ _) => apply keeps_doc_set_merge
  | |- keeps (fun w => db w !! _) (doc_update _ _ _) => apply keeps_doc_update
  | |- keeps (field_at _ _) (doc_update _ _ _) =>
      apply keeps_field_doc_update;
      first [left; not_in_names | right; first [names_differ | assumption | congruence]]
  | |- keeps (field_at _ _) (doc_set _ _ _) => apply keeps_field_key, keeps_doc_set
  | |- keeps (field_at _ _) (doc_set_merge _ _ _) => apply keeps_field_key, keeps_doc_set_merge
  | |- keeps _ (match ?x with _ => _ end) => destruct x
  | |- keeps _ (if ?b then _ else _) => destruct b
  | |- ?a ≠ ?b => first [names_differ | assumption | congruence | vm_compute; discriminate]
  | |- keeps _ _ => solve [eauto with frame typeclass_instances]
  end.

Ltac frame0 := repeat frame_step.

(** ** Frame lemmas of the Bot API helpers and side effects *)

Lemma keeps_answerCallbackQuery {X} (obs : World -> X) `{!Observer obs} cbid t :
  keeps obs (answerCallbackQuery cbid t).
Proof. unfold answerCallbackQuery. frame0. Qed.

Lemma keeps_editMessageText {X} (obs : World -> X) `{!Observer obs} chat mid kind args :
  keeps obs (editMessageText chat mid kind args).
Proof. unfold editMessageText. frame0. Qed.

Lemma keeps_notifyUser {X} (obs : World -> X) `{!Observer obs} u n :
  keeps obs (notifyUser u n).
Proof. unfold notifyUser. frame0. Qed.

Lemma keeps_postToChannel k text n cid :
  k.1 ≠ COMMENTS -> keeps (fun w => db w !! k) (postToChannel text n cid).
Proof.
  intros Hk. unfold postToChannel, createCommentSection. frame0.
  intros H. apply Hk. by rewrite <- H.
Qed.

Lemma keeps_updateReputation k u p :
  k.1 ≠ USERS -> keeps (fun w => db w !! k) (updateReputation u p).
Proof.
  intros Hk. unfold updateReputation. frame0.
  intros H. apply Hk. by rewrite <- H.
Qed.

#[export] Hint Resolve keeps_answerCallbackQuery keeps_editMessageText keeps_notifyUser : frame.

Ltac frame :=
  repeat first [ apply keeps_postToChannel | apply keeps_updateReputation | frame_step ].

(** ** Running a computation forward *)

Lemma db_bind_ok {A B X} (obs : World -> X) v (m : M A) (f : A -> M B) w w1 a :
  m w = (w1, inr a) -> obs (fst (f a w1)) = v -> obs (fst ((m ≫= f) w)) = v.
Proof. intros Hm Hf. rewrite run_bind, Hm. exact Hf. Qed.

Lemma db_try_catch {A X} (obs : World -> X) v (m : M A) h w :
  obs (fst (m w)) = v -> (forall e, keeps obs (h e)) ->
  obs (fst (try_catch m h w)) = v.
Proof.
  intros Hm Hh. rewrite run_try_catch.
  destruct (m w) as [w' [e|a]]; cbn in *; [by rewrite Hh|done].
Qed.

Lemma db_keeps {A X} (obs : World -> X) (m : M A) w v :
  keeps obs m -> obs w = v -> obs (fst (m w)) = v.
Proof. intros Hk Hw. by rewrite Hk. Qed.

Lemma replace_first_prefix (p s : jsstr) : replace_first_empty p (p ++ s) = s.
Proof.
  assert (Hs : starts_with p (p ++ s) = true).
  { induction p; cbn; [done|]. by rewrite Z.eqb_refl, IHp. }
  transitivity (drop (length p) (p ++ s)); [|by rewrite drop_app_length].
  destruct (p ++ s); cbn -[starts_with drop length]; by rewrite Hs.
Qed.

(** ** The allocator [getNextConfessionNumber] *)

Lemma getNext_step w c :
  stored_counter w = Some c ->
  exists d', getNextConfessionNumber w
             = (with_db w (<[(SYSTEM, COUNTERS) := d']> (db w)), inr (c + 1))
          /\ num_field d' F_confessionNumber = Some (c + 1).
Proof.
  unfold stored_counter, getNextConfessionNumber. intros Hc.
  rewrite run_bind. unfold doc_get. rewrite run_bind. unfold now.
  destruct (db w !! (SYSTEM, COUNTERS)) as [cd|] eqn:E.
  - rewrite Hc. rewrite run_bind. unfold doc_update. rewrite E.
    eexists. split; [reflexivity|].
    unfold num_field. rewrite apply_fops_put; [done|not_in_names].
  - injection Hc as <-. eexists. split; [reflexivity|].
    unfold num_field. rewrite apply_fops_put; [done|not_in_names].
Qed.

Lemma stored_counter_after w d c :
  num_field d F_confessionNumber = Some c ->
  stored_counter (with_db w (<[(SYSTEM, COUNTERS) := d]> (db w))) = Some c.
Proof. intros H. unfold stored_counter. cbn. by rewrite lookup_insert_eq. Qed.

(** ** Approving a confession: the handler [approve_] *)

Lemma approve_existing cq id d c w :
  cq_data cq = js "approve_" ++ id ->
  isAdmin w (cq_from cq) = true ->
  db w !! (CONFESSIONS, id) = Some d ->
  stored_counter w = Some c ->
  stored_counter (fst (approve_handler cq w)) = Some (c + 1)
  /\ number_of CONFESSIONS id (fst (approve_handler cq w)) = Some (c + 1).
Proof.
  intros Hdata Hadm Hd Hc.
  destruct (getNext_step w c Hc) as [d' [Hrun Hd']].
  set (w1 := with_db w (<[(SYSTEM, COUNTERS) := d']> (db w))) in Hrun.
  assert (Hd1 : db w1 !! (CONFESSIONS, id) = Some d).
  { cbn. rewrite lookup_insert_ne; [done|names_differ]. }
  set (ops := [(F_status, Put (VStr (js "approved")));
               (F_confessionNumber, Put (VNum (c + 1)));
               (js "approvedAt", Put (VDate (clock w1)))]).
  set (w2 := with_db w1 (<[(CONFESSIONS, id) := apply_fops d ops]> (db w1))).
  assert (Hupd : doc_update CONFESSIONS id ops w1 = (w2, inr tt)).
  { unfold doc_update. by rewrite Hd1. }
  (* the two documents written before the side effects keep their value *)
  assert (Hgoal : forall k v, db w2 !! k = v ->
      (k = (SYSTEM, COUNTERS) \/ k = (CONFESSIONS, id)) ->
      db (fst (approve_handler cq w)) !! k = v).
  { intros k v Hk Hkk.
    unfold approve_handler. rewrite Hdata, replace_first_prefix.
    eapply (db_bind_ok (fun w => db w !! k)); [reflexivity|]. cbv beta.
    rewrite Hadm. cbn [negb].
    apply (db_try_catch (fun w => db w !! k)); [|intros; apply keeps_answerCallbackQuery; apply _].
    eapply (db_bind_ok (fun w => db w !! k)); [unfold doc_get; rewrite Hd; reflexivity|].
    cbv beta iota.
    eapply (db_bind_ok (fun w => db w !! k)); [exact Hrun|].
    eapply (db_bind_ok (fun w => db w !! k)); [reflexivity|].
    eapply (db_bind_ok (fun w => db w !! k)); [exact Hupd|].
    apply (db_keeps (fun w => db w !! k)); [|exact Hk].
    destruct Hkk as [-> | ->]; frame. }
  split.
  - unfold stored_counter. rewrite (Hgoal _ (Some d')); [done| |by left].
    cbn. rewrite lookup_insert_ne; [|names_differ]. apply lookup_insert_eq.
  - unfold number_of, field_at.
    rewrite (Hgoal _ (Some (apply_fops d ops))); [|cbn; apply lookup_insert_eq|by right].
    unfold number_field. rewrite bool_decide_false; [|vm_compute; discriminate].
    cbn [mbind option_bind]. unfold ops.
    rewrite apply_fops_cons, apply_fops_put; [done|not_in_names].
Qed.

Lemma approve_unknown cq id w :
  cq_data cq = js "approve_" ++ id ->
  db w !! (CONFESSIONS, id) = None ->
  stored_counter (fst (approve_handler cq w)) = stored_counter w.
Proof.
  intros Hdata Hd. unfold stored_counter.
  assert (H : db (fst (approve_handler cq w)) !! (SYSTEM, COUNTERS)
              = db w !! (SYSTEM, COUNTERS)); [|by rewrite H].
  unfold approve_handler. rewrite Hdata, replace_first_prefix.
  eapply (db_bind_ok (fun w => db w !! _)); [reflexivity|]. cbv beta.
  destruct (negb (isAdmin w (cq_from cq))).
  - apply (db_keeps (fun w => db w !! _)); [|reflexivity].
    apply keeps_answerCallbackQuery. apply _.
  - apply (db_try_catch (fun w => db w !! _)); [|intros; apply keeps_answerCallbackQuery; apply _].
    eapply (db_bind_ok (fun w => db w !! _)); [unfold doc_get; rewrite Hd; reflexivity|].
    cbv beta iota. apply (db_keeps (fun w => db w !! _)); [|reflexivity].
    apply keeps_answerCallbackQuery. apply _.
Qed.

(** ** Approving an idea: [approveIdea] *)

Ltac walk_approveIdea obs Hd Hu Hupd :=
  unfold approveIdea;
  apply (db_try_catch obs);
  [|intros; unfold ctx_answerCbQuery; apply keeps_answerCallbackQuery; apply _];
  eapply (db_bind_ok obs); [unfold doc_get; rewrite Hd; reflexivity|]; cbv beta iota;
  eapply (db_bind_ok obs); [reflexivity|];
  eapply (db_bind_ok obs); [reflexivity|];
  eapply (db_bind_ok obs); [reflexivity|];
  eapply (db_bind_ok obs); [unfold defined_str; rewrite Hu; reflexivity|];
  eapply (db_bind_ok obs); [exact Hupd|];
  apply (db_keeps obs);
  [unfold postIdeaToChannel, ctx_editMessageText, ctx_answerCbQuery; frame|].

Lemma approveIdea_existing ctx id d u w :
  db w !! (IDEAS, id) = Some d ->
  ctx_username ctx = Some u ->
  ideaCounter (fst (approveIdea ctx id w)) = ideaCounter w + 1
  /\ number_of IDEAS id (fst (approveIdea ctx id w)) = Some (ideaCounter w + 1).
Proof.
  intros Hd Hu.
  set (w1 := with_ideaCounter w (ideaCounter w + 1)).
  set (ops := [(F_status, Put (VStr (js "approved")));
               (F_ideaNumber, Put (VNum (ideaCounter w1)));
               (js "approvedAt", Put (VDate (clock w1)));
               (js "approvedBy", Put (VStr u))]).
  set (w2 := with_db w1 (<[(IDEAS, id) := apply_fops d ops]> (db w1))).
  assert (Hupd : doc_update IDEAS id ops w1 = (w2, inr tt)).
  { unfold doc_update. cbn [db w1 with_ideaCounter]. by rewrite Hd. }
  split.
  - walk_approveIdea ideaCounter Hd Hu Hupd. reflexivity.
  - assert (H : field_at (IDEAS, id) F_ideaNumber (fst (approveIdea ctx id w))
                 = Some (VNum (ideaCounter w + 1))).
    { walk_approveIdea (field_at (IDEAS, id) F_ideaNumber) Hd Hu Hupd.
      unfold field_at. cbn [db w2 with_db]. rewrite lookup_insert_eq.
      cbn [mbind option_bind].
      unfold ops. rewrite apply_fops_cons, apply_fops_put; [done|not_in_names]. }
    unfold number_of, number_field. rewrite bool_decide_true; [|done]. by rewrite H.
Qed.

Lemma approveIdea_unknown ctx id w :
  db w !! (IDEAS, id) = None ->
  ideaCounter (fst (approveIdea ctx id w)) = ideaCounter w.
Proof.
  intros Hd. unfold approveIdea.
  apply (db_try_catch ideaCounter);
    [|intros; unfold ctx_answerCbQuery; apply keeps_answerCallbackQuery; apply _].
  eapply (db_bind_ok ideaCounter); [unfold doc_get; rewrite Hd; reflexivity|]. cbv beta iota.
  apply (db_keeps ideaCounter); [|reflexivity].
  unfold ctx_answerCbQuery. apply keeps_answerCallbackQuery. apply _.
Qed.

(** Without a username the update of [approveIdea] is refused
    ([approvedBy] is undefined) after the counter was incremented; the
    error is caught, so no document is written. *)
Lemma approveIdea_anonymous ctx id d w :
  db w !! (IDEAS, id) = Some d ->
  ctx_username ctx = None ->
  ideaCounter (fst (approveIdea ctx id w)) = ideaCounter w + 1
  /\ db (fst (approveIdea ctx id w)) = db w.
Proof.
  intros Hd Hu. split.
  - unfold approveIdea. apply (db_try_catch ideaCounter);
      [|intros; unfold ctx_answerCbQuery; apply keeps_answerCallbackQuery; apply _].
    eapply (db_bind_ok ideaCounter); [unfold doc_get; rewrite Hd; reflexivity|]. cbv beta iota.
    unfold defined_str. rewrite Hu. reflexivity.
  - unfold approveIdea. apply (db_try_catch db);
      [|intros; unfold ctx_answerCbQuery; apply keeps_answerCallbackQuery; apply _].
    eapply (db_bind_ok db); [unfold doc_get; rewrite Hd; reflexivity|]. cbv beta iota.
    unfold defined_str. rewrite Hu. reflexivity.
Qed.

(** ** C1: approving an already approved submission *)

(** C1 (counterexample): approving the pending confession [c1] twice
    allocates two numbers; the second call is not refused as not found and
    overwrites the stored number 1 with 2.  The idea bot does the same with
    [ideaCounter]. *)
Lemma approve_twice_reallocates :
  let w1 := fst (approve_handler (admin_cq (js "approve_c1")) sample_world) in
  let w2 := fst (approve_handler (admin_cq (js "approve_c1")) w1) in
  let v1 := fst (approveIdea admin_ctx (js "i1") sample_world) in
  let v2 := fst (approveIdea admin_ctx (js "i1") v1) in
  number_of CONFESSIONS (js "c1") w1 = Some 1
  /\ number_of CONFESSIONS (js "c1") w2 = Some 2
  /\ stored_counter w2 = Some 2
  /\ last (transport w2) = Some (js "cb1", Msg "answerCallbackQuery: Approved!" [], true)
  /\ number_of IDEAS (js "i1") v1 = Some 1
  /\ number_of IDEAS (js "i1") v2 = Some 2
  /\ ideaCounter v2 = 2.
Proof. vm_compute. repeat split. Qed.

(** C1 (amended): approval checks only that the submission document
    exists, never its state.  For any existing confession (pending,
    approved or rejected) the [approve_] handler of an admin allocates the
    stored counter plus one and overwrites the stored [confessionNumber]
    with it; for any existing idea [approveIdea] increments [ideaCounter]
    and, when the admin has a username, overwrites [ideaNumber] with it;
    without a username the increment happens, the update is refused and
    no document is written.  Only an unknown id allocates nothing. *)
Theorem approve_checks_existence_only :
  (forall cq id d c w,
     cq_data cq = js "approve_" ++ id ->
     isAdmin w (cq_from cq) = true ->
     db w !! (CONFESSIONS, id) = Some d ->
     stored_counter w = Some c ->
     stored_counter (fst (approve_handler cq w)) = Some (c + 1)
     /\ number_of CONFESSIONS id (fst (approve_handler cq w)) = Some (c + 1))
  /\ (forall cq id w,
     cq_data cq = js "approve_" ++ id ->
     db w !! (CONFESSIONS, id) = None ->
     stored_counter (fst (approve_handler cq w)) = stored_counter w)
  /\ (forall ctx id d u w,
     db w !! (IDEAS, id) = Some d ->
     ctx_username ctx = Some u ->
     ideaCounter (fst (approveIdea ctx id w)) = ideaCounter w + 1
     /\ number_of IDEAS id (fst (approveIdea ctx id w)) = Some (ideaCounter w + 1))
  /\ (forall ctx id d w,
     db w !! (IDEAS, id) = Some d ->
     ctx_username ctx = None ->
     ideaCounter (fst (approveIdea ctx id w)) = ideaCounter w + 1
     /\ db (fst (approveIdea ctx id w)) = db w)
  /\ (forall ctx id w,
     db w !! (IDEAS, id) = None ->
     ideaCounter (fst (approveIdea ctx id w)) = ideaCounter w).
Proof.
  split; [exact approve_existing|].
  split; [exact approve_unknown|].
  split; [exact approveIdea_existing|].
  split; [exact approveIdea_anonymous|exact approveIdea_unknown].
Qed.

(** ** C3: the allocator *)

Lemma allocate_all_spec w c callers :
  stored_counter w = Some c ->
  snd (allocate_all callers w)
    = inr (zip callers (seqZ (c + 1) (Z.of_nat (length callers))))
  /\ stored_counter (fst (allocate_all callers w)) = Some (c + Z.of_nat (length callers)).
Proof.
  revert w c. induction callers as [|x cs IH]; intros w c Hc.
  - cbn. rewrite Z.add_0_r. auto.
  - destruct (getNext_step w c Hc) as [d' [Hrun Hd']].
    cbn [allocate_all]. rewrite run_bind, Hrun, run_bind.
    pose proof (stored_counter_after w d' (c + 1) Hd') as Hc'.
    destruct (IH _ _ Hc') as [Hr Hs].
    destruct (allocate_all cs _) as [w2 [e|ns]] eqn:E; cbn in Hr, Hs |- *; [discriminate|].
    injection Hr as ->. split.
    + rewrite (seqZ_cons (c + 1)); [|lia]. do 4 f_equal; lia.
    + rewrite Hs. f_equal. lia.
Qed.

(** The confession path of the allocator: [getNextConfessionNumber] reads the stored counter (0 when the
    counter document is missing), returns it plus one and persists that
    value in the same transaction.  Any number of approvals whose
    transactions commit in some order receive, in that order, the
    consecutive values [c+1, c+2, ...]: one value per caller, strictly
    increasing, none skipped and none repeated, and the counter ends at the
    last value handed out. *)
Theorem getNextConfessionNumber_sequential w c callers :
  stored_counter w = Some c ->
  (snd (getNextConfessionNumber w) = inr (c + 1)
   /\ stored_counter (fst (getNextConfessionNumber w)) = Some (c + 1))
  /\ snd (allocate_all callers w)
       = inr (zip callers (seqZ (c + 1) (Z.of_nat (length callers))))
  /\ stored_counter (fst (allocate_all callers w)) = Some (c + Z.of_nat (length callers)).
Proof.
  intros Hc. split; [|by apply allocate_all_spec].
  destruct (getNext_step w c Hc) as [d' [Hrun Hd']]. rewrite Hrun.
  split; [reflexivity|]. by apply stored_counter_after.
Qed.

Lemma getNextConfessionNumber_sequential_ex :
  stored_counter sample_world = Some 0
  /\ snd (allocate_all [7; 8] sample_world) = inr [(7, 1); (8, 2)].
Proof.
  split; [reflexivity|].
  destruct (getNextConfessionNumber_sequential sample_world 0 [7; 8] eq_refl) as [_ [H _]].
  rewrite H. reflexivity.
Defined.

(** ** C4: no bootstrap from the approved confessions *)

(** C4 (code bug): with an approved confession #7 and no counter document,
    the allocator hands out 1, although [initializeCounter], which is never
    called, would have seeded the counter with 7 so that the first number
    is 8. *)
Theorem getNextConfessionNumber_no_bootstrap :
  db sample_world !! (SYSTEM, COUNTERS) = None
  /\ list_max (approved_confession_numbers sample_world) = Some 7
  /\ snd (getNextConfessionNumber sample_world) = inr 1
  /\ snd ((initializeCounter ;; getNextConfessionNumber) sample_world) = inr 8.
Proof. vm_compute. repeat split. Qed.

(** ** C3: the idea allocator *)

(** C3 (code bug): the idea bot allocates with the in-memory [ideaCounter]
    outside any transaction, and increments it before the update that
    stores the number.  When that update fails (here: an admin without a
    username, whose undefined [approvedBy] Firestore refuses) the number 1
    is consumed but stored nowhere: the next successful approval receives
    2, so the value 1 is skipped. *)
Theorem approveIdea_skips_number :
  let v1 := fst (approveIdea admin_ctx_anonymous (js "i1") sample_world) in
  let v2 := fst (approveIdea admin_ctx (js "i2") v1) in
  ideaCounter v1 = 1
  /\ number_of IDEAS (js "i1") v1 = None
  /\ field_at (IDEAS, js "i1") F_status v1 = Some (VStr (js "pending"))
  /\ number_of IDEAS (js "i2") v2 = Some 2
  /\ ideaCounter v2 = 2.
Proof. vm_compute. repeat split. Qed.

(** ** C5: length validation of submissions *)

Lemma drop_space_length s : (length (drop_space s) <= length s)%nat.
Proof. induction s as [|c s IH]; cbn; [lia|]. destruct (is_js_space c); cbn; lia. Qed.

Lemma js_trim_length s : (length (js_trim s) <= length s)%nat.
Proof.
  unfold js_trim. rewrite length_rev.
  etransitivity; [apply drop_space_length|]. rewrite length_rev. apply drop_space_length.
Qed.

(** One Bot API call: only the log and the message counter change. *)
Lemma send_run chat m w :
  exists ok, fst (send chat m w)
             = with_transport w (transport w ++ [(chat, m, ok)]) (fst (send chat m w)).(next_message_id).
Proof.
  unfold send. rewrite run_bind. unfold sendMessage, api_call.
  destruct (undeliverable w chat); cbn; eexists; reflexivity.
Qed.

Lemma ctx_reply_run ctx m w :
  exists ok, fst (ctx_reply ctx m w)
             = with_transport w (transport w ++ [(Z_to_js (ctx_chat ctx), m, ok)])
                 (fst (ctx_reply ctx m w)).(next_message_id).
Proof. apply send_run. Qed.

(** C5: a confession ([handleConfession]) or an idea
    ([handleIdeaSubmission]) whose text is shorter than 5 or longer than
    1000 code units is refused with a validation reply, and nothing else
    happens: no document is written, the counters and the session keep
    their values, and the only Bot API call is the too-short or too-long
    reply to the author. *)
Theorem submit_rejects_out_of_bounds (t : jsstr) :
  (length t < 5 \/ 1000 < length t)%nat ->
  (forall m w,
     let w' := fst (handleConfession m t w) in
     db w' = db w /\ confessionCounter w' = confessionCounter w
     /\ ideaCounter w' = ideaCounter w /\ session w' = session w
     /\ exists kind ok, kind ∈ ["confession_too_short"; "confession_too_long"]%string
          /\ transport w' = transport w ++ [(Z_to_js (msg_chat m), Msg kind [], ok)])
  /\ (forall ctx w,
     let w' := fst (handleIdeaSubmission ctx t w) in
     db w' = db w /\ confessionCounter w' = confessionCounter w
     /\ ideaCounter w' = ideaCounter w /\ session w' = session w
     /\ exists kind ok, kind ∈ ["idea_too_short"; "idea_too_long"]%string
          /\ transport w' = transport w ++ [(Z_to_js (ctx_chat ctx), Msg kind [], ok)]).
Proof.
  intros Hlen. split.
  - intros m w. cbv zeta. unfold handleConfession.
    destruct ((length t =? 0)%nat || (length (js_trim t) <? 5)%nat) eqn:E1;
      [|destruct (1000 <? length t)%nat eqn:E2].
    + destruct (send_run (Z_to_js (msg_chat m)) (Msg "confession_too_short" []) w) as [ok H].
      rewrite H. cbn. repeat split; auto. exists "confession_too_short"%string, ok.
      split; [by left|done].
    + destruct (send_run (Z_to_js (msg_chat m)) (Msg "confession_too_long" []) w) as [ok H].
      rewrite H. cbn. repeat split; auto. exists "confession_too_long"%string, ok.
      split; [by right; left|done].
    + exfalso. apply orb_false_iff in E1 as [E0 E1].
      apply Nat.eqb_neq in E0. apply Nat.ltb_ge in E1. apply Nat.ltb_ge in E2.
      pose proof (js_trim_length t). lia.
  - intros ctx w. cbv zeta. unfold handleIdeaSubmission.
    destruct (length t <? 5)%nat eqn:E1; [|destruct (1000 <? length t)%nat eqn:E2].
    + destruct (ctx_reply_run ctx (Msg "idea_too_short" []) w) as [ok H].
      rewrite H. cbn. repeat split; auto. exists "idea_too_short"%string, ok.
      split; [by left|done].
    + destruct (ctx_reply_run ctx (Msg "idea_too_long" []) w) as [ok H].
      rewrite H. cbn. repeat split; auto. exists "idea_too_long"%string, ok.
      split; [by right; left|done].
    + exfalso. apply Nat.ltb_ge in E1. apply Nat.ltb_ge in E2. lia.
Qed.

Lemma submit_rejects_out_of_bounds_witness :
  (length (js "abc") < 5 \/ 1000 < length (js "abc"))%nat
  /\ db (fst (handleConfession confession_msg (js "abc") sample_world)) = db sample_world
  /\ db (fst (handleIdeaSubmission member_ctx (js "abc") sample_world)) = db sample_world.
Proof.
  assert (H : (length (js "abc") < 5 \/ 1000 < length (js "abc"))%nat) by (left; cbn; lia).
  split; [exact H|].
  destruct (submit_rejects_out_of_bounds (js "abc") H) as [Hc Hi].
  split; [apply (Hc confession_msg sample_world)|apply (Hi member_ctx sample_world)].
Defined.

(** ** C6: the comment rate limit *)

(** C6 (code bug): user 45 has three comment timestamps within the last
    30 seconds, so [checkCommentRateLimit(45)] (window 30000 ms, limit 3)
    says the limit is reached; yet the fourth comment is stored and
    counted, because [handleCommentSubmission] never calls the check (and
    nothing records [commentTimestamps]). *)
Theorem comment_rate_limit_unused :
  snd (checkCommentRateLimit 45 30000 3 rate_limited_world) = inr false
  /\ let w' := fst (on_text member_ctx (js "good one") rate_limited_world) in
     field_at (COMMENTS, js "comment_45_100000") F_text w' = Some (VStr (js "good one"))
     /\ field_at (IDEAS, js "i1") F_commentCount w' = Some (VNum 1)
     /\ last (transport w') = Some (js "45", Msg "comment_added" [VNum 1], true).
Proof. vm_compute. repeat split. Qed.

(** ** C7: the submission cooldown *)

(** C7 (code bug): user 42 submitted ten seconds ago, so
    [checkCooldown(42, 'confession', 60000)] is false; yet a free-text
    message routed by [handleMessage] to [handleConfession] creates a new
    pending confession and records a new cooldown timestamp: no check of
    the cooldown is made on that path.  Only the keyboard button
    [Send Confession], which merely shows the prompt, checks it. *)
Theorem handleMessage_ignores_cooldown commandHandler keyboardHandler :
  snd (checkCooldown 42 (js "confession") 60000 cooldown_world) = inr false
  /\ let w' := fst (handleMessage commandHandler keyboardHandler confession_msg cooldown_world) in
     field_at (CONFESSIONS, js "confess_42_100000") F_status w' = Some (VStr (js "pending"))
     /\ field_at (USER_COOLDOWNS, js "42") (js "confession") w' = Some (VNum 100000).
Proof. vm_compute. repeat split. Qed.

(** ** C10: what the dispatcher treats as a submission *)

(** C10: a text that is neither a command (it does not start with [/]) nor
    a key of [keyboardCommandHandlers] (own or inherited) goes to
    [handleConfession] exactly when its length is strictly between 5 and
    1000; otherwise, lengths 5 and 1000 included, [handleMessage] answers
    with the [/start] handler. *)
Theorem dispatch_length_window commandHandler keyboardHandler m t :
  msg_text m = Some t ->
  starts_with (js "/") t = false ->
  t ∉ keyboard_labels ++ object_prototype_names ->
  handleMessage commandHandler keyboardHandler m
  = if (5 <? length t)%nat && (length t <? 1000)%nat
    then handleConfession m t
    else commandHandler (js "/start") m.
Proof.
  intros Ht Hs Hk. unfold handleMessage, dispatch. rewrite Ht.
  destruct t as [|c r]; [reflexivity|]. cbv beta iota zeta.
  rewrite Hs. cbn [andb]. rewrite bool_decide_false by exact Hk.
  destruct ((5 <? length (c :: r))%nat && (length (c :: r) <? 1000)%nat); reflexivity.
Qed.

Lemma dispatch_length_window_witness :
  handleMessage (fun _ _ => mret tt) (fun _ _ => mret tt) (mkMessage 42 42 (Some (js "hello")))
  = mret tt.
Proof.
  exact (dispatch_length_window (fun _ _ => mret tt) (fun _ _ => mret tt)
           (mkMessage 42 42 (Some (js "hello"))) (js "hello") eq_refl eq_refl
           ltac:(not_in_names)).
Defined.

(** ** C2: the session flows of the idea bot *)

Lemma keeps_get_session {X} (obs : World -> X) : keeps obs get_session.
Proof. intros w. reflexivity. Qed.

Lemma keeps_update_session {X} (obs : World -> X) `{!Observer obs} f :
  keeps obs (update_session f).
Proof. intros w. apply obs_session. Qed.

Lemma keeps_session_api_call chat m : keeps session (api_call chat m).
Proof. intros w. unfold api_call. by destruct (undeliverable w chat). Qed.

#[export] Hint Resolve keeps_get_session keeps_update_session keeps_session_api_call : frame.

Lemma handleCommentButtonClick_session ctx id d w :
  db w !! (IDEAS, id) = Some d ->
  session (fst (handleCommentButtonClick ctx id w))
  = set_commentIdeaId (Some id) (set_waitingForComment true (session w)).
Proof.
  intros Hd. unfold handleCommentButtonClick.
  eapply (db_bind_ok session); [unfold doc_get; rewrite Hd; reflexivity|]. cbv beta iota.
  eapply (db_bind_ok session); [reflexivity|].
  apply (db_keeps session); [|reflexivity].
  unfold ctx_answerCbQuery, answerCallbackQuery, ctx_reply, sendMessage. frame0.
Qed.

Lemma startIdeaSubmission_session ctx w :
  session (fst (startIdeaSubmission ctx w)) = session w
  \/ session (fst (startIdeaSubmission ctx w)) = set_waitingForIdea true (session w).
Proof.
  unfold startIdeaSubmission, ctx_reply, sendMessage. rewrite run_bind, run_bind.
  unfold api_call. destruct (undeliverable w _); cbn; [left|right]; reflexivity.
Qed.

Lemma session_after_start (m k : M unit) (f : Session -> Session) w :
  keeps session m -> keeps session k ->
  session (fst ((m;; update_session f;; k) w)) = session w
  \/ session (fst ((m;; update_session f;; k) w)) = f (session w).
Proof.
  intros Hm Hk. rewrite run_bind. specialize (Hm w).
  destruct (m w) as [w1 [e|a]]; cbn [fst] in *; [left; exact Hm|].
  right. rewrite run_bind. cbn [update_session modify]. rewrite Hk. cbn. by rewrite Hm.
Qed.

Lemma rejectIdea_session ctx i w :
  session (fst (rejectIdea ctx i w)) = session w
  \/ session (fst (rejectIdea ctx i w)) = set_rejectingIdea (Some i) (session w).
Proof.
  apply session_after_start;
    unfold ctx_editMessageText, editMessageText, ctx_answerCbQuery, answerCallbackQuery; frame0.
Qed.

Lemma messageUserAction_session ctx u w :
  session (fst (messageUserAction ctx u w)) = session w
  \/ session (fst (messageUserAction ctx u w)) = set_messagingUser (Some u) (session w).
Proof.
  apply session_after_start;
    unfold ctx_editMessageText, editMessageText, ctx_answerCbQuery, answerCallbackQuery; frame0.
Qed.

Lemma handleCommentButtonClick_session_any ctx i w :
  session (fst (handleCommentButtonClick ctx i w)) = session w
  \/ session (fst (handleCommentButtonClick ctx i w))
     = set_commentIdeaId (Some i) (set_waitingForComment true (session w)).
Proof.
  destruct (db w !! (IDEAS, i)) as [d|] eqn:Hd.
  - right. by apply (handleCommentButtonClick_session ctx i d w).
  - left. unfold handleCommentButtonClick.
    eapply (db_bind_ok session); [unfold doc_get; rewrite Hd; reflexivity|]. cbv beta iota.
    apply (db_keeps session); [|reflexivity].
    unfold ctx_answerCbQuery, answerCallbackQuery. frame0.
Qed.

Lemma on_text_order ctx text w :
  let s := session w in
  (waitingForIdea s = true -> on_text ctx text w = handleIdeaSubmission ctx text w)
  /\ (waitingForIdea s = false -> waitingForComment s = true ->
      on_text ctx text w = handleCommentSubmission ctx text w)
  /\ (waitingForIdea s = false -> waitingForComment s = false -> truthy (rejectingIdea s) = true ->
      on_text ctx text w = handleIdeaRejection ctx text w)
  /\ (waitingForIdea s = false -> waitingForComment s = false -> truthy (rejectingIdea s) = false ->
      truthy (messagingUser s) = true -> on_text ctx text w = handleAdminMessage ctx text w)
  /\ (waitingForIdea s = false -> waitingForComment s = false -> truthy (rejectingIdea s) = false ->
      truthy (messagingUser s) = false -> on_text ctx text w = (w, inr tt)).
Proof.
  cbv zeta. unfold on_text. rewrite run_bind. cbn [get_session].
  repeat split; intros; repeat match goal with H : _ = _ |- _ => rewrite H; clear H end; reflexivity.
Qed.

(** C2 (counterexample): member 45 starts an idea submission, then
    presses the comment button of idea [i1]; both flows are now pending,
    and the next text is filed as a new idea, not as a comment; the
    comment flow stays pending. *)
Lemma idea_then_comment_goes_to_idea :
  let w1 := fst ((startIdeaSubmission member_ctx;;
                  handleCommentButtonClick member_ctx (js "i1")) sample_world) in
  let w2 := fst (on_text member_ctx (js "I agree, more benches") w1) in
  waitingForIdea (session w1) = true /\ waitingForComment (session w1) = true
  /\ field_at (COMMENTS, js "comment_45_100000") F_text w2 = None
  /\ field_at (IDEAS, js "idea_45_100000") F_text w2 = Some (VStr (js "I agree, more benches"))
  /\ waitingForComment (session w2) = true.
Proof. vm_compute. repeat split. Qed.

(** C2 (amended): each flow has its own session flag.  Starting a flow
    sets its own flag and clears no other one: each of the four starters
    ([startIdeaSubmission], the comment button, the [reject_idea_] button
    and the [message_user_] button) either leaves the session as it is (when
    it fails before the assignment) or sets only its own fields.  A
    free-text message goes to the first pending flow in the fixed order
    idea submission, comment, rejection reason, admin message, whichever
    was started last: with an idea submission pending, a text sent after
    starting a comment is handled as an idea submission. *)
Theorem flows_are_not_exclusive ctx id d text w :
  db w !! (IDEAS, id) = Some d ->
  waitingForIdea (session w) = true ->
  let w1 := fst (handleCommentButtonClick ctx id w) in
  waitingForIdea (session w1) = true
  /\ waitingForComment (session w1) = true
  /\ commentIdeaId (session w1) = Some id
  /\ on_text ctx text w1 = handleIdeaSubmission ctx text w1
  /\ (forall w0,
        let s1 := session (fst (startIdeaSubmission ctx w0)) in
        s1 = session w0 \/ s1 = set_waitingForIdea true (session w0))
  /\ (forall w0 i,
        let s1 := session (fst (handleCommentButtonClick ctx i w0)) in
        s1 = session w0 \/ s1 = set_commentIdeaId (Some i) (set_waitingForComment true (session w0)))
  /\ (forall w0 i,
        let s1 := session (fst (rejectIdea ctx i w0)) in
        s1 = session w0 \/ s1 = set_rejectingIdea (Some i) (session w0))
  /\ (forall w0 u,
        let s1 := session (fst (messageUserAction ctx u w0)) in
        s1 = session w0 \/ s1 = set_messagingUser (Some u) (session w0))
  /\ (forall w0,
        let s := session w0 in
        (waitingForIdea s = true -> on_text ctx text w0 = handleIdeaSubmission ctx text w0)
        /\ (waitingForIdea s = false -> waitingForComment s = true ->
            on_text ctx text w0 = handleCommentSubmission ctx text w0)
        /\ (waitingForIdea s = false -> waitingForComment s = false -> truthy (rejectingIdea s) = true ->
            on_text ctx text w0 = handleIdeaRejection ctx text w0)
        /\ (waitingForIdea s = false -> waitingForComment s = false -> truthy (rejectingIdea s) = false ->
            truthy (messagingUser s) = true -> on_text ctx text w0 = handleAdminMessage ctx text w0)
        /\ (waitingForIdea s = false -> waitingForComment s = false -> truthy (rejectingIdea s) = false ->
            truthy (messagingUser s) = false -> on_text ctx text w0 = (w0, inr tt))).
Proof.
  intros Hd Hi. cbv zeta.
  pose proof (handleCommentButtonClick_session ctx id d w Hd) as Hs.
  rewrite Hs. cbn. split; [exact Hi|]. split; [done|]. split; [done|]. split.
  - unfold on_text. rewrite run_bind. cbn [get_session]. rewrite Hs. cbn. by rewrite Hi.
  - split; [exact (startIdeaSubmission_session ctx)|].
    split; [intros w0 i; exact (handleCommentButtonClick_session_any ctx i w0)|].
    split; [intros w0 i; exact (rejectIdea_session ctx i w0)|].
    split; [intros w0 i; exact (messageUserAction_session ctx i w0)|].
    intros w0. exact (on_text_order ctx text w0).
Qed.

Lemma flows_are_not_exclusive_witness :
  sample_db !! (IDEAS, js "i1") <> None
  /\ on_text member_ctx (js "x")
       (fst (handleCommentButtonClick member_ctx (js "i1")
               (with_session sample_world (set_waitingForIdea true empty_session))))
     = handleIdeaSubmission member_ctx (js "x")
         (fst (handleCommentButtonClick member_ctx (js "i1")
                 (with_session sample_world (set_waitingForIdea true empty_session)))).
Proof.
  split; [vm_compute; discriminate|].
  destruct (sample_db !! (IDEAS, js "i1")) as [d|] eqn:Hd; [|vm_compute in Hd; discriminate].
  pose proof (flows_are_not_exclusive member_ctx (js "i1") d (js "x")
           (with_session sample_world (set_waitingForIdea true empty_session)) Hd eq_refl) as H.
  cbv zeta in H. destruct H as (_ & _ & _ & H & _). exact H.
Defined.

(** ** C9: the admin fan-out *)

Lemma caught_send_step chat m w :
  exists n, try_catch (send chat m) (fun _ => mret tt) w
            = (with_transport w (transport w ++ [(chat, m, negb (undeliverable w chat))]) n, inr tt).
Proof.
  unfold try_catch, send. rewrite run_bind. unfold sendMessage, api_call.
  destruct (undeliverable w chat); cbn; eexists; reflexivity.
Qed.

(** A loop of sends each wrapped in its own try/catch never fails, changes
    no document, and makes one Bot API call per recipient, in order,
    whether or not the earlier ones went through. *)
Lemma for_each_caught_sends {A} (chat : A -> jsstr) (m : A -> msg) (l : list A) w :
  let r := for_each (fun a => try_catch (send (chat a) (m a)) (fun _ => mret tt)) l w in
  snd r = inr tt /\ db (fst r) = db w /\ undeliverable (fst r) = undeliverable w
  /\ transport (fst r)
     = transport w ++ map (fun a => (chat a, m a, negb (undeliverable w (chat a)))) l.
Proof.
  revert w. induction l as [|a l IH]; intros w; cbn zeta.
  - cbn. rewrite app_nil_r. auto.
  - cbn [for_each]. cbv beta. rewrite run_bind.
    destruct (caught_send_step (chat a) (m a) w) as [n ->].
    pose proof (IH (with_transport w (transport w ++ [(chat a, m a, negb (undeliverable w (chat a)))]) n))
      as HI.
    cbv zeta in HI. destruct HI as (H1 & H2 & H3 & H4).
    rewrite H1, H2, H3, H4. cbn. rewrite <- app_assoc. auto.
Qed.

(** C9: [notifyAdmins] and [notifyAdminNewIdea] attempt a delivery to
    every admin id of [ADMIN_IDS], in order, whatever the outcome of the
    others (each send is logged with its outcome), never raise, and write
    nothing to the store. *)
Theorem fanout_attempts_every_recipient :
  (forall confessionId text w,
     let r := notifyAdmins confessionId text w in
     snd r = inr tt /\ db (fst r) = db w
     /\ transport (fst r)
        = transport w
          ++ map (fun a => (admin_chat a, Msg "new_confession" [VStr text; VStr confessionId],
                            negb (undeliverable w (admin_chat a))))
               (admin_ids_trimmed w))
  /\ (forall ideaId ideaText username userId w,
     let r := notifyAdminNewIdea ideaId ideaText username userId w in
     snd r = inr tt /\ db (fst r) = db w
     /\ transport (fst r)
        = transport w
          ++ map (fun a => (a, Msg "new_idea" [VStr username; VNum userId; VStr ideaText; VStr ideaId],
                            negb (undeliverable w a)))
               (split_on 44 (env_ADMIN_IDS w))).
Proof.
  split.
  - intros confessionId text w. cbv zeta. unfold notifyAdmins. rewrite run_bind. cbn [get_world].
    destruct (for_each_caught_sends admin_chat
                (fun _ => Msg "new_confession" [VStr text; VStr confessionId])
                (admin_ids_trimmed w) w) as (H1 & H2 & _ & H4).
    auto.
  - intros ideaId ideaText username userId w. cbv zeta. unfold notifyAdminNewIdea.
    rewrite run_bind. cbn [get_world].
    destruct (for_each_caught_sends (fun a => a)
                (fun _ => Msg "new_idea" [VStr username; VNum userId; VStr ideaText; VStr ideaId])
                (split_on 44 (env_ADMIN_IDS w)) w) as (H1 & H2 & _ & H4).
    auto.
Qed.

(** ** C8: rejecting an idea *)

Lemma keeps_bot_catch {X} (obs : World -> X) `{!Observer obs} ctx m :
  keeps obs m -> keeps obs (bot_catch ctx m).
Proof.
  intros Hm. unfold bot_catch, ctx_reply. apply keeps_try_catch; [exact Hm|]. intros _. frame0.
Qed.

Lemma keeps_number_handleIdeaRejection k ctx reason :
  keeps (field_at k F_ideaNumber) (handleIdeaRejection ctx reason).
Proof. unfold handleIdeaRejection, ctx_reply, send. frame0. Qed.

Lemma keeps_ic_handleIdeaRejection ctx reason : keeps ideaCounter (handleIdeaRejection ctx reason).
Proof. unfold handleIdeaRejection, ctx_reply, send. frame0. Qed.

Lemma keeps_number_rejectIdea k ctx id : keeps (field_at k F_ideaNumber) (rejectIdea ctx id).
Proof. unfold rejectIdea, ctx_editMessageText, ctx_answerCbQuery. frame0. Qed.

Lemma keeps_ic_rejectIdea ctx id : keeps ideaCounter (rejectIdea ctx id).
Proof. unfold rejectIdea, ctx_editMessageText, ctx_answerCbQuery. frame0. Qed.

Lemma keeps_number_approveIdea_other id ctx id' :
  id' ≠ id -> keeps (field_at (IDEAS, id) F_ideaNumber) (approveIdea ctx id').
Proof.
  intros Hne. unfold approveIdea, postIdeaToChannel, ctx_editMessageText, ctx_answerCbQuery.
  frame.
Qed.

Lemma run_events_keeps_number id es :
  (forall c id', EvApprove c id' ∈ es -> id' ≠ id) ->
  keeps (field_at (IDEAS, id) F_ideaNumber) (run_events es).
Proof.
  unfold run_events. induction es as [|e es IH]; intros Hes; cbn [for_each].
  - apply keeps_ret.
  - apply keeps_bind; [|intros _; apply IH; intros c id' Hin; apply (Hes c id'); set_solver].
    destruct e as [c x|c x|c x]; cbn [run_event]; apply keeps_bot_catch; try apply _.
    + apply keeps_number_rejectIdea.
    + apply keeps_number_handleIdeaRejection.
    + apply keeps_number_approveIdea_other. apply (Hes c x). set_solver.
Qed.

Lemma reject_run ctx reason id d u author w :
  rejectingIdea (session w) = Some id -> id <> [] ->
  db w !! (IDEAS, id) = Some d -> ctx_username ctx = Some u ->
  num_field d F_userId = Some author -> undeliverable w (Z_to_js author) = false ->
  let ops := [(F_status, Put (VStr (js "rejected"))); (F_rejectionReason, Put (VStr reason));
              (js "rejectedBy", Put (VStr u)); (js "rejectedAt", Put (VDate (clock w)))] in
  let w' := fst (handleIdeaRejection ctx reason w) in
  db w' = <[(IDEAS, id) := apply_fops d ops]> (db w)
  /\ (Z_to_js author, Msg "idea_rejected" [VStr reason], true) ∈ transport w'.
Proof.
  intros Hs Hid Hd Hu Ha Hdel. cbv zeta.
  destruct id as [|c r]; [congruence|].
  unfold handleIdeaRejection, get_session, doc_get, now, defined_str, doc_update, send, sendMessage,
    api_call, ctx_reply, update_session, modify, chat_of, mbind, M_bind, mret, M_ret, throw.
  cbn -[lookup insert apply_fops js Z_to_js].
  repeat (first [rewrite Hs | rewrite Hd | rewrite Hu | rewrite Ha | rewrite Hdel];
          cbn -[lookup insert apply_fops js Z_to_js]).
  unfold sendMessage, api_call. cbn -[lookup insert apply_fops js Z_to_js].
  destruct (undeliverable w (Z_to_js (ctx_chat ctx))); cbn -[lookup insert apply_fops js Z_to_js];
    (split; [reflexivity|set_solver]).
Qed.

(** C8: when the admin sends the rejection reason for an existing idea
    ([handleIdeaRejection], after the [reject_idea_] button stored the id
    in the session), the idea's status becomes [rejected], the reason is
    stored and the author is notified.  Rejecting never allocates an idea
    number: [ideaCounter] and the idea's [ideaNumber] field keep their
    values; and in any sequence of reject buttons, rejection reasons and
    approvals of other ideas, the [ideaNumber] field of the idea keeps its
    value (an absent one stays absent). *)
Theorem reject_never_numbers ctx reason id d u author w :
  rejectingIdea (session w) = Some id -> id <> [] ->
  db w !! (IDEAS, id) = Some d -> ctx_username ctx = Some u ->
  num_field d F_userId = Some author -> undeliverable w (Z_to_js author) = false ->
  let w' := fst (handleIdeaRejection ctx reason w) in
  field_at (IDEAS, id) F_status w' = Some (VStr (js "rejected"))
  /\ field_at (IDEAS, id) F_rejectionReason w' = Some (VStr reason)
  /\ (Z_to_js author, Msg "idea_rejected" [VStr reason], true) ∈ transport w'
  /\ field_at (IDEAS, id) F_ideaNumber w' = field_at (IDEAS, id) F_ideaNumber w
  /\ ideaCounter w' = ideaCounter w
  /\ (forall es w0,
        (forall c id', EvApprove c id' ∈ es -> id' ≠ id) ->
        field_at (IDEAS, id) F_ideaNumber (fst (run_events es w0))
        = field_at (IDEAS, id) F_ideaNumber w0)
  /\ (forall c x w0,
        ideaCounter (fst (run_event (EvRejectButton c x) w0)) = ideaCounter w0
        /\ ideaCounter (fst (run_event (EvRejectionReason c x) w0)) = ideaCounter w0).
Proof.
  intros Hs Hid Hd Hu Ha Hdel. cbv zeta.
  destruct (reject_run ctx reason id d u author w Hs Hid Hd Hu Ha Hdel) as [Hdb Hmsg].
  cbv zeta in Hdb, Hmsg.
  assert (Hf : forall f, field_at (IDEAS, id) f (fst (handleIdeaRejection ctx reason w))
                         = apply_fops d
                             [(F_status, Put (VStr (js "rejected")));
                              (F_rejectionReason, Put (VStr reason));
                              (js "rejectedBy", Put (VStr u));
                              (js "rejectedAt", Put (VDate (clock w)))] !! f).
  { intros f. unfold field_at. rewrite Hdb, lookup_insert_eq. reflexivity. }
  split; [rewrite Hf; apply apply_fops_put; not_in_names|].
  split; [rewrite Hf, apply_fops_cons, apply_fops_put; [done|not_in_names]|].
  split; [exact Hmsg|].
  split; [apply keeps_number_handleIdeaRejection|].
  split; [apply keeps_ic_handleIdeaRejection|].
  split; [intros es w0 Hes; by apply run_events_keeps_number|].
  intros c x w0. split.
  - apply keeps_bot_catch; [apply _|apply keeps_ic_rejectIdea].
  - apply keeps_bot_catch; [apply _|apply keeps_ic_handleIdeaRejection].
Qed.

(** The sample world where admin 7 pressed the reject button of idea [i1]. *)
Lemma reject_never_numbers_witness :
  let w := with_session sample_world (set_rejectingIdea (Some (js "i1")) empty_session) in
  field_at (IDEAS, js "i1") F_status (fst (handleIdeaRejection admin_ctx (js "too vague") w))
  = Some (VStr (js "rejected")).
Proof.
  cbv zeta.
  destruct (sample_db !! (IDEAS, js "i1")) as [d|] eqn:Hd; [|vm_compute in Hd; discriminate].
  assert (Ha : num_field d F_userId = Some 42)
    by (vm_compute in Hd; injection Hd as <-; reflexivity).
  apply (reject_never_numbers admin_ctx (js "too vague") (js "i1") d (js "boss") 42
           (with_session sample_world (set_rejectingIdea (Some (js "i1")) empty_session)));
    [reflexivity|discriminate|exact Hd|reflexivity|exact Ha|reflexivity].
Defined.

(** ** Properties of the helpers, the confession flow and the cooldowns *)

Lemma keeps_send {X} (obs : World -> X) `{!Observer obs} chat m : keeps obs (send chat m).
Proof. unfold send. frame0. Qed.

Lemma keeps_for_each {X A} (obs : World -> X) (f : A -> M unit) l :
  (forall x, keeps obs (f x)) -> keeps obs (for_each f l).
Proof.
  intros Hf. induction l as [|x l IH]; cbn [for_each]; [apply keeps_ret|].
  apply keeps_bind; [apply Hf|intros; exact IH].
Qed.

Lemma keeps_notifyAdmins {X} (obs : World -> X) `{!Observer obs} cid text :
  keeps obs (notifyAdmins cid text).
Proof.
  unfold notifyAdmins. apply keeps_bind; [apply keeps_get_world|intros w].
  apply keeps_for_each. intros x. apply keeps_try_catch; [apply keeps_send, _|intros; apply keeps_ret].
Qed.

#[export] Hint Resolve keeps_send keeps_notifyAdmins : frame.

(* ---- decimal digits ---- *)
Lemma dec_digits_app f n acc : dec_digits f n acc = dec_digits f n [] ++ acc.
Proof.
  revert n acc. induction f as [|f IH]; intros n acc; cbn; [done|].
  destruct (n <? 10); [done|]. rewrite IH, (IH _ [_]), <- app_assoc. done.
Qed.

Lemma dec_digits_digits f n : 0 <= n -> Forall is_digit (dec_digits f n []).
Proof.
  revert n. induction f as [|f IH]; intros n Hn; cbn; [constructor|].
  assert (Hd : is_digit (48 + n mod 10)).
  { unfold is_digit. pose proof (Z.mod_pos_bound n 10). lia. }
  destruct (n <? 10); [by constructor|].
  rewrite dec_digits_app. apply Forall_app. split; [|by constructor].
  apply IH. apply Z.div_pos; lia.
Qed.

Lemma digits_prefix_app l1 l2 a :
  Forall is_digit l1 -> digits_prefix (l1 ++ l2) a = digits_prefix l2 (digits_prefix l1 a).
Proof.
  revert a. induction l1 as [|c l1 IH]; intros a Hl; cbn; [done|].
  inversion Hl as [|? ? Hc Hl']; subst. unfold is_digit in Hc.
  replace ((48 <=? c) && (c <=? 57)) with true by (symmetry; apply andb_true_iff; lia).
  by apply IH.
Qed.

Lemma dec_digits_S f n acc :
  dec_digits (S f) n acc
  = if n <? 10 then (48 + n mod 10) :: acc else dec_digits f (n / 10) ((48 + n mod 10) :: acc).
Proof. reflexivity. Qed.

Lemma dec_digits_value f n :
  0 <= n < 10 ^ Z.of_nat (S f) -> digits_prefix (dec_digits (S f) n []) None = Some n.
Proof.
  revert n. induction f as [|f IH]; intros n Hn;
    pose proof (Z.mod_pos_bound n 10); rewrite dec_digits_S;
    (destruct (n <? 10) eqn:E;
     [apply Z.ltb_lt in E; cbn;
      replace ((48 <=? 48 + n mod 10) && (48 + n mod 10 <=? 57)) with true
        by (symmetry; apply andb_true_iff; lia);
      rewrite Z.mod_small by lia; f_equal; lia|apply Z.ltb_ge in E]).
  - cbn in Hn. lia.
  - rewrite dec_digits_app, digits_prefix_app
      by (apply dec_digits_digits; apply Z.div_pos; lia).
    rewrite IH.
    + cbn. replace ((48 <=? 48 + n mod 10) && (48 + n mod 10 <=? 57)) with true
        by (symmetry; apply andb_true_iff; lia).
      f_equal. pose proof (Z.div_mod n 10). lia.
    + split; [apply Z.div_pos; lia|]. apply Z.div_lt_upper_bound; [lia|].
      rewrite (Nat2Z.inj_succ (S f)), Z.pow_succ_r in Hn; lia.
Qed.

Lemma dec_digits_nonempty f n : dec_digits (S f) n [] <> [].
Proof. rewrite dec_digits_app. cbn. destruct (n <? 10); [done|]. rewrite dec_digits_app. by destruct (dec_digits f _ []). Qed.

Lemma pos_lt_pow10 p : Zpos p < 10 ^ Z.of_nat (Pos.size_nat p).
Proof.
  induction p as [p IH|p IH|]; cbn [Pos.size_nat]; rewrite ?Nat2Z.inj_succ, ?Z.pow_succ_r by lia;
    try rewrite Pos2Z.inj_xI; try rewrite Pos2Z.inj_xO; cbn; lia.
Qed.

Lemma Z_to_js_digits_fuel n : 0 <= n ->
  Z_to_js n = dec_digits (S (Pos.size_nat (Z.to_pos n))) n [] /\
  n < 10 ^ Z.of_nat (S (Pos.size_nat (Z.to_pos n))).
Proof.
  intros Hn. unfold Z_to_js. replace (n <? 0) with false by (symmetry; apply Z.ltb_ge; lia).
  split; [done|]. rewrite Nat2Z.inj_succ, Z.pow_succ_r by lia.
  destruct n as [|p|p]; cbn [Z.to_pos]; [cbn; lia| |lia].
  pose proof (pos_lt_pow10 p). lia.
Qed.

(* a Z literal pattern: case on the first code unit *)
Lemma digit_cases c : is_digit c -> c = 48 \/ c = 49 \/ c = 50 \/ c = 51 \/ c = 52 \/ c = 53
  \/ c = 54 \/ c = 55 \/ c = 56 \/ c = 57.
Proof. unfold is_digit. lia. Qed.

Lemma parse_unsigned_digits l : Forall is_digit l -> parse_unsigned l = digits_prefix l None.
Proof.
  intros Hl. destruct l as [|c r]; [done|].
  inversion Hl as [|? ? Hc Hr]; subst.
  destruct (digit_cases c Hc) as [->|[->|[->|[->|[->|[->|[->|[->|[->| ->]]]]]]]]]; try reflexivity.
  destruct r as [|x t]; [reflexivity|]. inversion Hr as [|? ? Hx _]; subst.
  unfold is_digit in Hx. unfold parse_unsigned.
  replace ((x =? 120) || (x =? 88)) with false; [reflexivity|].
  symmetry. apply orb_false_iff. split; apply Z.eqb_neq; lia.
Qed.

Lemma parseInt_digits l : Forall is_digit l -> parseInt l = digits_prefix l None.
Proof.
  intros Hl. rewrite <- (parse_unsigned_digits l Hl). destruct l as [|c r]; [done|].
  inversion Hl as [|? ? Hc _]; subst.
  destruct (digit_cases c Hc) as [->|[->|[->|[->|[->|[->|[->|[->|[->| ->]]]]]]]]]; reflexivity.
Qed.

Lemma parseInt_Z_to_js n : parseInt (Z_to_js n) = Some n.
Proof.
  destruct (Z.ltb_spec n 0) as [Hn|Hn].
  - unfold Z_to_js. replace (n <? 0) with true by (symmetry; apply Z.ltb_lt; lia).
    unfold parseInt. cbn [drop_space is_js_space]. cbn -[dec_digits digits_prefix].
    destruct (Z_to_js_digits_fuel (- n)) as [E Hb]; [lia|].
    rewrite parse_unsigned_digits by (apply dec_digits_digits; lia).
    rewrite dec_digits_value by lia. cbn. f_equal. lia.
  - destruct (Z_to_js_digits_fuel n Hn) as [E Hb]. rewrite E.
    rewrite parseInt_digits by (apply dec_digits_digits; lia).
    apply dec_digits_value. lia.
Qed.

(** X1: [parseInt] reads back every id written by [toString]: an admin id
    that is the decimal text of [n] is parsed to [n], and [notifyAdmins]
    sends to the chat with that same text. *)
Theorem admin_chat_Z_to_js n :
  parseInt (Z_to_js n) = Some n /\ admin_chat (Z_to_js n) = Z_to_js n.
Proof. unfold admin_chat. by rewrite parseInt_Z_to_js. Qed.

(* ---- trim ---- *)
Lemma drop_space_split s : exists sp, s = sp ++ drop_space s /\ Forall (fun c => is_js_space c = true) sp.
Proof.
  induction s as [|c s IH]; cbn; [by exists []|].
  destruct (is_js_space c) eqn:E.
  - destruct IH as [sp [H1 H2]]. exists (c :: sp). split; [cbn; congruence|by constructor].
  - by exists [].
Qed.

Lemma drop_space_head s : drop_space s = [] \/ exists c r, drop_space s = c :: r /\ is_js_space c = false.
Proof.
  induction s as [|c s IH]; cbn; [by left|]. destruct (is_js_space c) eqn:E; [done|].
  right. eauto.
Qed.

Lemma drop_space_nonspace c r : is_js_space c = false -> drop_space (c :: r) = c :: r.
Proof. intros H. cbn. by rewrite H. Qed.

Lemma drop_space_idem s : drop_space (drop_space s) = drop_space s.
Proof.
  destruct (drop_space_head s) as [->|(c & r & -> & H)]; [done|]. by apply drop_space_nonspace.
Qed.

Lemma drop_space_spaces sp s : Forall (fun c => is_js_space c = true) sp -> drop_space (sp ++ s) = drop_space s.
Proof. induction 1 as [|c sp Hc _ IH]; cbn; [done|]. by rewrite Hc. Qed.

Lemma js_trim_idem s : js_trim (js_trim s) = js_trim s.
Proof.
  unfold js_trim. set (u := drop_space s).
  destruct (drop_space_split (rev u)) as [sp [Hsp _]]. set (y := drop_space (rev u)) in *.
  assert (Ht : drop_space (rev y) = rev y).
  { destruct (rev y) as [|d z] eqn:Ey; [done|].
    assert (Hu : u = d :: z ++ rev sp).
    { rewrite <- (rev_involutive u), Hsp, rev_app_distr, Ey. done. }
    destruct (drop_space_head s) as [Hs|(c & r & Hs & Hc)].
    - exfalso. unfold u in Hu. rewrite Hs in Hu. discriminate.
    - unfold u in Hu. rewrite Hs in Hu. injection Hu as <- _. by apply drop_space_nonspace. }
  rewrite Ht, rev_involutive. unfold y. by rewrite drop_space_idem.
Qed.

(** X3: the output of [sanitizeInput] is already trimmed: trimming it again changes nothing. *)
Theorem sanitizeInput_trimmed text : js_trim (sanitizeInput text) = sanitizeInput text.
Proof. destruct text; [done|]. apply js_trim_idem. Qed.

(* js_trim keeps an infix *)
Lemma js_trim_infix s : exists pre post, s = pre ++ js_trim s ++ post.
Proof.
  unfold js_trim. destruct (drop_space_split s) as [sp [Hs _]].
  destruct (drop_space_split (rev (drop_space s))) as [sp' [Hs' _]].
  exists sp, (rev sp').
  rewrite <- (rev_involutive (drop_space s)) in Hs. rewrite Hs', rev_app_distr in Hs.
  exact Hs.
Qed.

Lemma js_trim_pad pre d post :
  Forall (fun c => is_js_space c = true) pre -> Forall (fun c => is_js_space c = true) post ->
  d <> [] -> Forall (fun c => is_js_space c = false) d -> js_trim (pre ++ d ++ post) = d.
Proof.
  intros Hpre Hpost Hd Hns. unfold js_trim. rewrite drop_space_spaces by done.
  destruct d as [|c d]; [done|]. inversion Hns; subst.
  rewrite <- app_comm_cons, drop_space_nonspace by done.
  rewrite app_comm_cons, rev_app_distr, drop_space_spaces by (by apply Forall_rev).
  destruct (rev (c :: d)) as [|e z] eqn:E; [apply (f_equal (@length _)) in E; rewrite length_rev in E; discriminate|].
  rewrite drop_space_nonspace.
  - rewrite <- E. apply rev_involutive.
  - assert (He : In e (c :: d)) by (apply in_rev; rewrite E; left; reflexivity).
    exact (proj1 (List.Forall_forall _ _) Hns e He).
Qed.

(* ---- split / join ---- *)
Lemma split_on_nosep sep x : Forall (fun c => c <> sep) x -> split_on sep x = [x].
Proof.
  induction 1 as [|c x Hc _ IH]; [done|]. cbn.
  replace (c =? sep) with false by (symmetry; by apply Z.eqb_neq). by rewrite IH.
Qed.

Lemma split_on_app sep x rest :
  Forall (fun c => c <> sep) x -> split_on sep (x ++ sep :: rest) = x :: split_on sep rest.
Proof.
  induction 1 as [|c x Hc _ IH]; cbn; [by rewrite Z.eqb_refl|].
  replace (c =? sep) with false by (symmetry; by apply Z.eqb_neq). by rewrite IH.
Qed.

Lemma split_on_join sep l :
  l <> [] -> Forall (Forall (fun c => c <> sep)) l -> split_on sep (join_on sep l) = l.
Proof.
  intros Hne Hl. induction Hl as [|x l Hx Hl IH]; [done|].
  destruct l as [|y l].
  - by apply split_on_nosep.
  - change (join_on sep (x :: y :: l)) with (x ++ sep :: join_on sep (y :: l)).
    rewrite split_on_app by done. by rewrite IH.
Qed.

Lemma Z_to_js_chars n : Z_to_js n <> [] /\ Forall (fun c => c = 45 \/ is_digit c) (Z_to_js n).
Proof.
  destruct (Z.ltb_spec n 0) as [Hn|Hn].
  - unfold Z_to_js. replace (n <? 0) with true by (symmetry; apply Z.ltb_lt; lia).
    split; [done|]. constructor; [by left|].
    eapply Forall_impl; [apply dec_digits_digits; lia|]. cbv beta. auto.
  - destruct (Z_to_js_digits_fuel n Hn) as [E _]. rewrite E.
    split; [apply dec_digits_nonempty|].
    eapply Forall_impl; [apply dec_digits_digits; lia|]. cbv beta. auto.
Qed.

Lemma Z_to_js_inj a b : Z_to_js a = Z_to_js b -> a = b.
Proof. intros H. apply (f_equal parseInt) in H. rewrite !parseInt_Z_to_js in H. congruence. Qed.

Lemma js_trim_Z_to_js pre n post :
  Forall (fun c => is_js_space c = true) pre -> Forall (fun c => is_js_space c = true) post ->
  js_trim (pre ++ Z_to_js n ++ post) = Z_to_js n.
Proof.
  intros Hpre Hpost. destruct (Z_to_js_chars n) as [Hne Hc].
  apply js_trim_pad; [done|done|done|].
  eapply Forall_impl; [exact Hc|]. intros c [->| Hd]; [done|].
  unfold is_digit in Hd. unfold is_js_space. repeat (apply orb_false_iff; split); lia.
Qed.


Lemma Z_to_js_no_comma pre n post :
  Forall (fun c => is_js_space c = true) (pre ++ post) ->
  Forall (fun c => c <> 44) (pre ++ Z_to_js n ++ post).
Proof.
  intros H. apply Forall_app in H as [H1 H2]. destruct (Z_to_js_chars n) as [_ Hc].
  apply Forall_app; split; [|apply Forall_app; split].
  - eapply Forall_impl; [exact H1|]. intros c Hs Hc44. subst c. discriminate.
  - eapply Forall_impl; [exact Hc|].
    intros c [Hc45|Hd] Hc44; subst c; [discriminate|unfold is_digit in Hd; lia].
  - eapply Forall_impl; [exact H2|]. intros c Hs Hc44. subst c. discriminate.
Qed.

(** X2: when [ADMIN_IDS] is a comma-separated list of decimal ids, each padded with white space only, [isAdmin] accepts exactly the non-zero listed ids. *)
Theorem isAdmin_listed w (entries : list (jsstr * Z * jsstr)) u :
  entries <> [] ->
  Forall (fun e => Forall (fun c => is_js_space c = true) (e.1.1 ++ e.2)) entries ->
  env_ADMIN_IDS w = join_on 44 (map (fun e => e.1.1 ++ Z_to_js e.1.2 ++ e.2) entries) ->
  isAdmin w u = negb (u =? 0) && bool_decide (u ∈ map (fun e => e.1.2) entries).
Proof.
  intros Hne Hsp Henv.
  assert (Hids : admin_ids_trimmed w = map Z_to_js (map (fun e => e.1.2) entries)).
  { unfold admin_ids_trimmed. rewrite Henv, split_on_join.
    - rewrite map_map, map_map. apply map_ext_Forall. eapply Forall_impl; [exact Hsp|].
      intros [[pre n] post] H. apply Forall_app in H as [H1 H2]. by apply js_trim_Z_to_js.
    - by destruct entries.
    - apply Forall_map. eapply Forall_impl; [exact Hsp|].
      intros [[pre n] post] H. by apply Z_to_js_no_comma. }
  unfold isAdmin. rewrite Hids. destruct (Z.eqb_spec u 0) as [->|Hu]; [done|]. cbn [negb andb].
  apply bool_decide_ext. split.
  - intros Hin. apply list_elem_of_In, in_map_iff in Hin as (v & Hv & Hin).
    apply Z_to_js_inj in Hv. subst. by apply list_elem_of_In.
  - intros Hin. apply list_elem_of_In, in_map. by apply list_elem_of_In.
Qed.

(* ---- sanitizeInput ---- *)
Lemma match_tag_cons c r : match_tag (c :: r) = if c =? 60 then after_first 62 r else None.
Proof.
  destruct c as [|p|p]; try reflexivity.
  repeat (destruct p as [p|p|]; try reflexivity).
Qed.

Lemma after_first_some c s r : after_first c s = Some r -> exists pre, s = pre ++ c :: r.
Proof.
  induction s as [|x s IH]; cbn; [done|]. destruct (Z.eqb_spec x c) as [->|Hx].
  - intros [= <-]. by exists [].
  - intros H. destruct (IH H) as [pre ->]. by exists (x :: pre).
Qed.

Lemma after_first_none c s : after_first c s = None -> ~ In c s.
Proof.
  induction s as [|x s IH]; cbn; [intros _ []|]. destruct (Z.eqb_spec x c) as [->|Hx]; [intros H; discriminate|].
  intros H [Hxc|Hin]; [congruence|]. by apply IH.
Qed.

Lemma match_tag_some s rest : match_tag s = Some rest ->
  exists pre, s = pre ++ rest /\ (length rest < length s)%nat.
Proof.
  destruct s as [|c r]; [done|]. rewrite match_tag_cons.
  destruct (c =? 60); [|done]. intros H. destruct (after_first_some _ _ _ H) as [pre ->].
  exists (c :: pre ++ [62]). split; [cbn; by rewrite <- app_assoc|].
  cbn. rewrite length_app. cbn. lia.
Qed.

Lemma replace_tag_elems f s x :
  In x (replace_all_empty f match_tag s) -> In x s.
Proof.
  revert s. induction f as [|f IH]; intros s; cbn; [done|].
  destruct s as [|c r]; [done|].
  destruct (match_tag (c :: r)) as [rest|] eqn:E.
  - intros Hx. destruct (match_tag_some _ _ E) as [pre [Hs _]]. rewrite Hs.
    apply in_or_app. right. by apply IH.
  - intros [->|Hx]; [by left|]. right. by apply IH.
Qed.

Lemma replace_tag_free f s :
  (length s < f)%nat -> tag_free (replace_all_empty f match_tag s).
Proof.
  revert s. induction f as [|f IH]; intros s Hf; [lia|]. cbn.
  destruct s as [|c r].
  - intros a r' H. by destruct a.
  - destruct (match_tag (c :: r)) as [rest|] eqn:E.
    + destruct (match_tag_some _ _ E) as [pre [_ Hl]]. apply IH. lia.
    + assert (IHr := IH r ltac:(cbn in Hf; lia)).
      intros [|c' a] r' H.
      * injection H as -> <-. rewrite match_tag_cons, Z.eqb_refl in E.
        intros Hin. apply (after_first_none _ _ E). eapply replace_tag_elems. exact Hin.
      * injection H as -> H. exact (IHr a r' H).
Qed.

Lemma tag_free_infix pre y post : tag_free (pre ++ y ++ post) -> tag_free y.
Proof.
  intros H a r -> Hin. apply (H (pre ++ a) (r ++ post)).
  - by rewrite <- !app_assoc.
  - apply in_or_app. by left.
Qed.

(** X4: no suffix of the output of [sanitizeInput] starts with a tag: a [<] of the output is never followed, later, by a [>]. *)
Theorem sanitizeInput_no_tag text a r :
  sanitizeInput text = a ++ r -> match_tag r = None.
Proof.
  assert (Hfree : tag_free (sanitizeInput text)).
  { destruct text as [|c t]; [intros a' r' H; by destruct a'|].
    unfold sanitizeInput.
    set (x := js_replace_all_empty match_tag _).
    destruct (js_trim_infix x) as [pre [post Hx]].
    apply (tag_free_infix pre _ post). rewrite <- Hx.
    unfold x, js_replace_all_empty. apply replace_tag_free. lia. }
  intros Hs. destruct r as [|c r]; [done|]. rewrite match_tag_cons.
  destruct (Z.eqb_spec c 60) as [->|]; [|done].
  destruct (after_first 62 r) eqn:E; [|done]. exfalso.
  destruct (after_first_some _ _ _ E) as [pre ->].
  apply (Hfree a (pre ++ 62 :: l)); [done|]. apply in_or_app. right. by left.
Qed.

Lemma span_word_spec s w rest :
  span_word s = (w, rest) -> s = w ++ rest /\ Forall (fun c => is_word c = true) w.
Proof.
  revert w rest. induction s as [|c s IH]; intros w rest; cbn.
  - intros [= <- <-]. by split.
  - destruct (is_word c) eqn:Ec.
    + destruct (span_word s) as [w' rest'] eqn:E. intros [= <- <-].
      destruct (IH _ _ eq_refl) as [-> Hw]. split; [done|by constructor].
    + intros [= <- <-]. by split.
Qed.

Lemma hashtag_in_cons text c h : hashtag_in text h -> hashtag_in (c :: text) h.
Proof.
  intros (w & Hh & Hw & Hword & a & b & Ht). exists w. repeat split; try done.
  exists (c :: a), b. by rewrite Ht.
Qed.

Lemma hashtag_in_app pre text h : hashtag_in text h -> hashtag_in (pre ++ text) h.
Proof.
  induction pre as [|c pre IH]; [done|]. intros H. apply hashtag_in_cons. by apply IH.
Qed.

Lemma hashtags_from_spec f s : Forall (hashtag_in s) (hashtags_from f s).
Proof.
  revert s. induction f as [|f IH]; intros s; cbn; [constructor|].
  destruct s as [|c r]; [constructor|].
  destruct (Z.eqb_spec c 35) as [->|Hc].
  - destruct (span_word r) as [w rest] eqn:E.
    destruct (span_word_spec _ _ _ E) as [Hr Hw].
    destruct w as [|x w].
    + eapply Forall_impl; [apply IH|]. apply hashtag_in_cons.
    + constructor.
      * exists (x :: w). repeat split; [done|done|]. exists [], rest. by rewrite Hr.
      * eapply Forall_impl; [apply IH|]. intros h Hh.
        rewrite Hr. apply (hashtag_in_app (35 :: x :: w)). exact Hh.
  - eapply Forall_impl; [apply IH|]. apply hashtag_in_cons.
Qed.

(** X5: every element of [extractHashtags text] is [#] followed by a non-empty run of word characters, and occurs in [text]. *)
Theorem extractHashtags_shape text :
  Forall (fun h => exists w, h = 35 :: w /\ w <> [] /\ Forall (fun c => is_word c = true) w
                             /\ exists a b, text = a ++ h ++ b)
         (extractHashtags text).
Proof. apply hashtags_from_spec. Qed.

Lemma setCooldown_run u a w :
  fst (setCooldown u a w)
  = with_db w (<[(USER_COOLDOWNS, Z_to_js u) :=
                  apply_fops (default ∅ (db w !! (USER_COOLDOWNS, Z_to_js u)))
                    [(a, Put (VNum (clock w))); (F_updatedAt, Put (VDate (clock w)))]]> (db w)).
Proof. reflexivity. Qed.

Lemma checkCooldown_run u a c w :
  snd (checkCooldown u a c w)
  = inr (match db w !! (USER_COOLDOWNS, Z_to_js u) with
         | None => true
         | Some d => match num_field d a with
                     | None | Some Z0 => true
                     | Some l => c <? clock w - l
                     end
         end).
Proof.
  unfold checkCooldown. rewrite run_bind. unfold doc_get. cbn [fst snd].
  destruct (db w !! _) as [d|]; [|reflexivity].
  destruct (num_field d a) as [[|p|p]|]; reflexivity.
Qed.

(** X6: right after [setCooldown u a], [checkCooldown u a c] reports the action as cooling down (for any non-negative [c]); the cooldowns of the other actions are unchanged. *)
Theorem setCooldown_then_check u a c w :
  clock w <> 0 -> 0 <= c -> a <> F_updatedAt ->
  snd (checkCooldown u a c (fst (setCooldown u a w))) = inr false
  /\ forall a' c', a' <> a -> a' <> F_updatedAt ->
     snd (checkCooldown u a' c' (fst (setCooldown u a w))) = snd (checkCooldown u a' c' w).
Proof.
  intros Ht Hc Ha. rewrite setCooldown_run. split.
  - rewrite checkCooldown_run. cbn [db with_db clock]. rewrite lookup_insert_eq.
    unfold num_field. rewrite apply_fops_put by (cbn; set_solver).
    destruct (clock w) as [|p|p] eqn:E; [done| |];
      f_equal; apply Z.ltb_ge; lia.
  - intros a' c' Ha' Hu. rewrite !checkCooldown_run. cbn [db with_db clock].
    rewrite lookup_insert_eq.
    assert (Hf : num_field (apply_fops (default ∅ (db w !! (USER_COOLDOWNS, Z_to_js u)))
                 [(a, Put (VNum (clock w))); (F_updatedAt, Put (VDate (clock w)))]) a'
                 = num_field (default ∅ (db w !! (USER_COOLDOWNS, Z_to_js u))) a').
    { unfold num_field. rewrite apply_fops_notin; [done|cbn; set_solver]. }
    rewrite Hf. destruct (db w !! _) as [d|]; cbn; [done|].
    unfold num_field. by rewrite lookup_empty.
Qed.
Lemma handleConfession_guard text :
  (5 <= length (js_trim text))%nat -> (length text <= 1000)%nat ->
  ((length text =? 0)%nat || (length (js_trim text) <? 5)%nat) = false
  /\ (1000 <? length text)%nat = false.
Proof.
  intros H1 H2. pose proof (js_trim_length text). split.
  - apply orb_false_iff. split; [apply Nat.eqb_neq|apply Nat.ltb_ge]; lia.
  - apply Nat.ltb_ge. lia.
Qed.

Lemma handleConfession_db m text w ud :
  (5 <= length (js_trim text))%nat -> (length text <= 1000)%nat ->
  db w !! (USERS, Z_to_js (msg_from m)) = Some ud ->
  exists dc dd,
    db (fst (handleConfession m text w))
    = <[(USER_COOLDOWNS, Z_to_js (msg_from m)) := dd]>
        (<[(USERS, Z_to_js (msg_from m)) := apply_fops ud [(F_totalConfessions, Increment 1)]]>
          (<[(CONFESSIONS, confession_id (msg_from m) (clock w)) := dc]> (db w)))
    /\ dc !! F_text = Some (VStr (js_trim (sanitizeInput text)))
    /\ dc !! F_status = Some (VStr (js "pending"))
    /\ dd !! js "confession" = Some (VNum (clock w)).
Proof.
  intros H1 H2 Hud. destruct (handleConfession_guard text H1 H2) as [G1 G2].
  set (uid := Z_to_js (msg_from m)) in *.
  set (cid := confession_id (msg_from m) (clock w)).
  set (ops := [(js "confessionId", Put (VStr cid)); (F_userId, Put (VNum (msg_from m)));
          (F_text, Put (VStr (js_trim (sanitizeInput text)))); (F_status, Put (VStr (js "pending")));
          (js "createdAt", Put (VDate (clock w))); (js "hashtags", Put (VStrs (extractHashtags (sanitizeInput text))));
          (js "totalComments", Put (VNum 0))]).
  set (w1 := with_db w (<[(CONFESSIONS, cid) := apply_fops ∅ ops]> (db w))).
  set (w2 := with_db w1 (<[(USERS, uid) := apply_fops ud [(F_totalConfessions, Increment 1)]]> (db w1))).
  assert (Hupd : doc_update USERS uid [(F_totalConfessions, Increment 1)] w1 = (w2, inr tt)).
  { unfold doc_update. cbn [db w1 with_db]. rewrite lookup_insert_ne; [|names_differ]. by rewrite Hud. }
  set (dd := apply_fops (default ∅ (db w2 !! (USER_COOLDOWNS, uid)))
               [(js "confession", Put (VNum (clock w2))); (F_updatedAt, Put (VDate (clock w2)))]).
  exists (apply_fops ∅ ops), dd. split; [|split; [|split]].
  - unfold handleConfession. rewrite G1, G2.
    apply (db_try_catch db); [|intros; apply keeps_send, _].
    eapply (db_bind_ok db); [reflexivity|]. cbv beta.
    eapply (db_bind_ok db); [reflexivity|].
    eapply (db_bind_ok db); [exact Hupd|].
    eapply (db_bind_ok db); [reflexivity|].
    apply (db_keeps db); [frame0|]. reflexivity.
  - unfold ops. rewrite 2!apply_fops_cons, apply_fops_put; [done|not_in_names].
  - unfold ops. rewrite 3!apply_fops_cons, apply_fops_put; [done|not_in_names].
  - unfold dd. rewrite apply_fops_put; [done|not_in_names].
Qed.

Global Instance observer_clock : Observer clock.
Proof. split; reflexivity. Qed.
Lemma keeps_clock_doc_set c id ops : keeps clock (doc_set c id ops).
Proof. intros w. reflexivity. Qed.
Lemma keeps_clock_doc_set_merge c id ops : keeps clock (doc_set_merge c id ops).
Proof. intros w. reflexivity. Qed.
Lemma keeps_clock_doc_update c id ops : keeps clock (doc_update c id ops).
Proof. intros w. unfold doc_update. by destruct (db w !! (c, id)). Qed.
#[export] Hint Resolve keeps_clock_doc_set keeps_clock_doc_set_merge keeps_clock_doc_update : frame.

Lemma keeps_clock_handleConfession m text : keeps clock (handleConfession m text).
Proof. unfold handleConfession, setCooldown. frame0. Qed.

(** X7: an accepted confession of a user with a profile is stored with the sanitized text and status [pending], the user total is incremented, and the user is put on the confession cooldown. *)
Theorem handleConfession_records m text w ud :
  (5 <= length (js_trim text))%nat -> (length text <= 1000)%nat ->
  db w !! (USERS, Z_to_js (msg_from m)) = Some ud -> clock w <> 0 ->
  let w' := fst (handleConfession m text w) in
  let k := (CONFESSIONS, confession_id (msg_from m) (clock w)) in
  field_at k F_text w' = Some (VStr (sanitizeInput text))
  /\ field_at k F_status w' = Some (VStr (js "pending"))
  /\ field_at (USERS, Z_to_js (msg_from m)) F_totalConfessions w'
     = Some (apply_fop (ud !! F_totalConfessions) (Increment 1))
  /\ snd (checkCooldown (msg_from m) (js "confession") 60000 w') = inr false.
Proof.
  intros H1 H2 Hud Ht. cbv zeta.
  destruct (handleConfession_db m text w ud H1 H2 Hud) as (dc & dd & Hdb & Htext & Hst & Hdd).
  unfold field_at. rewrite Hdb. repeat split.
  - rewrite lookup_insert_ne; [|names_differ]. rewrite lookup_insert_ne; [|names_differ].
    rewrite lookup_insert_eq. cbn [mbind option_bind]. rewrite Htext. do 2 f_equal. destruct text; [done|]. apply js_trim_idem.
  - rewrite lookup_insert_ne; [|names_differ]. rewrite lookup_insert_ne; [|names_differ].
    rewrite lookup_insert_eq. exact Hst.
  - rewrite lookup_insert_ne; [|names_differ]. rewrite lookup_insert_eq. cbn [mbind option_bind].
    rewrite apply_fops_cons. cbn. apply lookup_insert_eq.
  - rewrite checkCooldown_run, (keeps_clock_handleConfession m text w), Hdb, lookup_insert_eq.
    unfold num_field. rewrite Hdd.
    destruct (clock w) as [|p|p] eqn:E; [done| |]; f_equal; apply Z.ltb_ge; lia.
Qed.

(** X8: when the sender has no profile, [handleConfession] stores the pending confession, then the profile update fails: no other document is written and the only message sent is [confession_error] to the sender. *)
Theorem handleConfession_without_profile m text w :
  (5 <= length (js_trim text))%nat -> (length text <= 1000)%nat ->
  db w !! (USERS, Z_to_js (msg_from m)) = None ->
  let w' := fst (handleConfession m text w) in
  (exists dc, db w' = <[(CONFESSIONS, confession_id (msg_from m) (clock w)) := dc]> (db w)
              /\ dc !! F_status = Some (VStr (js "pending")))
  /\ exists ok, transport w' = transport w ++ [(Z_to_js (msg_chat m), Msg "confession_error" [], ok)].
Proof.
  intros H1 H2 Hu. destruct (handleConfession_guard text H1 H2) as [G1 G2]. cbv zeta.
  unfold handleConfession. rewrite G1, G2. rewrite run_try_catch.
  cbv [mbind M_bind now doc_set modify doc_update].
  cbn [db with_db].
  rewrite lookup_insert_ne by names_differ. rewrite Hu. cbv beta iota.
  match goal with |- context [send ?c ?msg ?w1] =>
    destruct (send_run c msg w1) as [ok Hs]; set (w2 := w1) in * end.
  rewrite Hs. split.
  - eexists. split; [reflexivity|]. rewrite 3!apply_fops_cons, apply_fops_put; [done|not_in_names].
  - exists ok. reflexivity.
Qed.

(** ** Comment rate limits *)

Lemma recordComment_run u w :
  recordComment u w
  = (with_db w (<[(USER_RATE_LIMITS, Z_to_js u) :=
                   recordComment_doc (db w !! (USER_RATE_LIMITS, Z_to_js u)) (clock w)]> (db w)),
     inr tt).
Proof.
  unfold recordComment. rewrite run_bind. cbn [now fst snd]. rewrite run_bind.
  unfold doc_get. cbn [fst snd]. unfold recordComment_doc.
  destruct (db w !! _) as [d|] eqn:E; [|reflexivity].
  unfold doc_update. by rewrite E.
Qed.

Lemma recordComment_doc_ts d t :
  recordComment_doc d t !! F_commentTimestamps
  = Some (VNums (let prev := match d with
                             | Some d => match d !! F_commentTimestamps with Some (VNums l) => l | _ => [] end
                             | None => [] end in
                 if decide (t ∈ prev) then prev else prev ++ [t])).
Proof.
  destruct d as [d|]; cbn [recordComment_doc].
  - rewrite apply_fops_cons, apply_fops_notin by not_in_names. cbn [fst snd].
    rewrite lookup_insert_eq. unfold apply_fop.
    destruct (d !! F_commentTimestamps) as [[]|]; reflexivity.
  - rewrite apply_fops_put by not_in_names. reflexivity.
Qed.

(** X9: after [recordComment u], [checkCommentRateLimit u win k] counts the earlier timestamps inside the window plus the current instant (once, as [arrayUnion] adds it only when absent) and compares that count with [k]. *)
Theorem recordComment_counts u win k w :
  0 <= win ->
  let prev := match db w !! (USER_RATE_LIMITS, Z_to_js u) with
              | Some d => match d !! F_commentTimestamps with Some (VNums l) => l | _ => [] end
              | None => [] end in
  snd (checkCommentRateLimit u win k (fst (recordComment u w)))
  = inr (Z.of_nat (length (filter (fun ts => bool_decide (clock w - ts <= win)) prev))
         + (if decide (clock w ∈ prev) then 0 else 1) <? k).
Proof.
  intros Hw prev. rewrite recordComment_run. unfold checkCommentRateLimit.
  rewrite run_bind. unfold doc_get. cbn [fst snd db with_db]. rewrite lookup_insert_eq.
  rewrite run_bind. cbn [now fst snd clock with_db]. rewrite recordComment_doc_ts.
  cbv [mret M_ret]; cbn [snd]. fold prev. cbv zeta.
  destruct (decide (clock w ∈ prev)); [rewrite Z.add_0_r; reflexivity|].
  rewrite filter_app, length_app. cbn. rewrite bool_decide_true by lia. rewrite decide_True by done. cbn [length]. by rewrite Nat2Z.inj_add.
Qed.

(** X10: recording a comment twice at the same instant has the effect of recording it once: [arrayUnion] does not duplicate the timestamp. *)
Theorem recordComment_same_instant u w :
  recordComment u (fst (recordComment u w)) = recordComment u w.
Proof.
  rewrite !recordComment_run. cbn [fst db with_db clock].
  rewrite lookup_insert_eq, insert_insert_eq.
  set (d := recordComment_doc _ (clock w)).
  assert (Hd : recordComment_doc (Some d) (clock w) = d).
  { cbn [recordComment_doc]. rewrite 2!apply_fops_cons. cbn [apply_fops fold_left fst snd].
    assert (Ht := recordComment_doc_ts (db w !! (USER_RATE_LIMITS, Z_to_js u)) (clock w)).
    fold d in Ht. cbv zeta in Ht. rewrite Ht.
    set (prev := match db w !! _ with Some _ => _ | None => [] end).
    assert (Hin : clock w ∈ (if decide (clock w ∈ prev) then prev else prev ++ [clock w])).
    { destruct (decide _); [done|]. apply elem_of_app. right. by left. }
    cbn [apply_fop]. rewrite decide_True by exact Hin.
    rewrite (insert_id d F_commentTimestamps) by exact Ht.
    apply insert_id. unfold d. destruct (db w !! _); cbn [recordComment_doc];
      rewrite apply_fops_cons; apply apply_fops_put; not_in_names. }
  by rewrite Hd.
Qed.

(** ** Profiles and /start *)

Lemma with_db_id w : with_db w (db w) = w.
Proof. by destruct w. Qed.


Lemma getUserProfile_ok u w :
  getUserProfile u w
  = (with_db w (<[(USERS, Z_to_js u) := profile_of u w]> (db w)), inr (profile_of u w)).
Proof.
  unfold getUserProfile, profile_of. rewrite run_bind. unfold doc_get. cbn [fst snd].
  destruct (db w !! _) as [d|] eqn:E; [|reflexivity].
  cbv [mret M_ret]. by rewrite insert_id, with_db_id.
Qed.

Lemma getUserProfile_some u w d :
  db w !! (USERS, Z_to_js u) = Some d -> getUserProfile u w = (w, inr d).
Proof.
  intros E. rewrite getUserProfile_ok. unfold profile_of. rewrite E, insert_id by done.
  by rewrite with_db_id.
Qed.

Lemma new_profile_fields u t :
  apply_fops ∅ (new_profile u t) !! F_isActive = Some (VBool true)
  /\ apply_fops ∅ (new_profile u t) !! F_isRegistered = Some (VBool false)
  /\ apply_fops ∅ (new_profile u t) !! F_dailyStreak = Some (VNum 0)
  /\ apply_fops ∅ (new_profile u t) !! F_lastCheckin = Some VNull
  /\ apply_fops ∅ (new_profile u t) !! F_reputation = Some (VNum 0)
  /\ apply_fops ∅ (new_profile u t) !! F_totalConfessions = Some (VNum 0)
  /\ apply_fops ∅ (new_profile u t) !! F_userId = Some (VNum u).
Proof. vm_compute. repeat split. Qed.

(** X11: [getUserProfile] is idempotent: a second call finds the profile stored by the first and leaves the world as it is; the profile returned is the one stored. *)
Theorem getUserProfile_once u w :
  getUserProfile u (fst (getUserProfile u w)) = getUserProfile u w
  /\ db (fst (getUserProfile u w)) !! (USERS, Z_to_js u) = Some (profile_of u w)
  /\ snd (getUserProfile u w) = inr (profile_of u w).
Proof.
  rewrite (getUserProfile_ok u w). cbn [fst snd]. split; [|split; [|done]].
  - apply getUserProfile_some. cbn [db with_db]. apply lookup_insert_eq.
  - cbn [db with_db]. apply lookup_insert_eq.
Qed.

(** X12: for a user without a profile, [getUserProfile] stores and returns a new profile that is active, not registered, with streak 0, no check-in, reputation 0, no confessions and the user id. *)
Theorem getUserProfile_new u w :
  db w !! (USERS, Z_to_js u) = None ->
  exists d, snd (getUserProfile u w) = inr d
    /\ db (fst (getUserProfile u w)) = <[(USERS, Z_to_js u) := d]> (db w)
    /\ d !! F_isActive = Some (VBool true) /\ d !! F_isRegistered = Some (VBool false)
    /\ d !! F_dailyStreak = Some (VNum 0) /\ d !! F_lastCheckin = Some VNull
    /\ d !! F_reputation = Some (VNum 0) /\ d !! F_totalConfessions = Some (VNum 0)
    /\ d !! F_userId = Some (VNum u).
Proof.
  intros E. exists (profile_of u w). rewrite getUserProfile_ok. cbn [fst snd db with_db].
  unfold profile_of. rewrite E. do 2 (split; [done|]). apply new_profile_fields.
Qed.

Lemma keeps_db_send chat msg : keeps db (send chat msg).
Proof. apply keeps_send, _. Qed.

Lemma start_handler_text m text :
  msg_text m = Some text ->
  (forall a, nth_error (split_on 32 text) 1 = Some a -> starts_with (js "comments_") a = false) ->
  start_handler m
  = (profile ← getUserProfile (msg_from m);
     if negb (value_truthy (profile !! F_isActive))
     then send (Z_to_js (msg_chat m)) (Msg "account_blocked" [])
     else
       (if negb (value_truthy (profile !! F_isRegistered))
        then doc_update USERS (Z_to_js (msg_from m)) [(F_isRegistered, Put (VBool true))]
        else mret tt);;
       send (Z_to_js (msg_chat m)) (Msg "welcome" [])).
Proof.
  intros Ht Harg. unfold start_handler. rewrite Ht.
  destruct (nth_error (split_on 32 text) 1) as [[|c a]|] eqn:E; try reflexivity.
  cbv beta iota zeta. rewrite (Harg (c :: a) eq_refl). reflexivity.
Qed.

Lemma start_handler_db m text w :
  msg_text m = Some text ->
  (forall a, nth_error (split_on 32 text) 1 = Some a -> starts_with (js "comments_") a = false) ->
  let k := (USERS, Z_to_js (msg_from m)) in
  let p := profile_of (msg_from m) w in
  db (fst (start_handler m w))
  = if negb (value_truthy (p !! F_isActive)) then <[k := p]> (db w)
    else if negb (value_truthy (p !! F_isRegistered))
    then <[k := apply_fops p [(F_isRegistered, Put (VBool true))]]> (db w)
    else <[k := p]> (db w).
Proof.
  intros Ht Harg k p. rewrite (start_handler_text m text Ht Harg).
  eapply (db_bind_ok db); [apply getUserProfile_ok|]. fold p.
  destruct (value_truthy (p !! F_isActive)); cbn [negb];
    [|apply (db_keeps db); [apply keeps_db_send|reflexivity]].
  destruct (value_truthy (p !! F_isRegistered)); cbn [negb].
  - eapply (db_bind_ok db); [reflexivity|].
    apply (db_keeps db); [apply keeps_db_send|reflexivity].
  - eapply (db_bind_ok db).
    + unfold doc_update. cbn [db with_db]. rewrite lookup_insert_eq. reflexivity.
    + apply (db_keeps db); [apply keeps_db_send|]. cbn [db with_db].
      apply insert_insert_eq.
Qed.

(** X13: [/start] without a [comments_] argument leaves the sender with an active, registered profile (when the sender is not blocked), and a second [/start] writes nothing more. *)
Theorem start_registers m text w :
  msg_text m = Some text ->
  (forall a, nth_error (split_on 32 text) 1 = Some a -> starts_with (js "comments_") a = false) ->
  (forall d, db w !! (USERS, Z_to_js (msg_from m)) = Some d -> value_truthy (d !! F_isActive) = true) ->
  let w1 := fst (start_handler m w) in
  (exists d, db w1 !! (USERS, Z_to_js (msg_from m)) = Some d
             /\ value_truthy (d !! F_isActive) = true
             /\ value_truthy (d !! F_isRegistered) = true)
  /\ db (fst (start_handler m w1)) = db w1.
Proof.
  intros Ht Harg Hact w1.
  assert (Hp : value_truthy (profile_of (msg_from m) w !! F_isActive) = true).
  { unfold profile_of. destruct (db w !! _) as [d|] eqn:E; [by apply Hact|].
    by rewrite (proj1 (new_profile_fields _ _)). }
  assert (Hd : exists d, db w1 !! (USERS, Z_to_js (msg_from m)) = Some d
             /\ value_truthy (d !! F_isActive) = true
             /\ value_truthy (d !! F_isRegistered) = true
             /\ db w1 = <[(USERS, Z_to_js (msg_from m)) := d]> (db w)).
  { unfold w1. rewrite (start_handler_db m text w Ht Harg). cbv zeta. rewrite Hp. cbn [negb].
    destruct (value_truthy (profile_of (msg_from m) w !! F_isRegistered)) eqn:Er; cbn [negb].
    - eexists. rewrite lookup_insert_eq. by repeat split.
    - eexists. rewrite lookup_insert_eq. split; [reflexivity|]. split; [|split; [|reflexivity]].
      + rewrite apply_fops_cons. cbn [apply_fops fold_left fst snd].
        rewrite lookup_insert_ne by (vm_compute; discriminate). exact Hp.
      + rewrite apply_fops_put; [reflexivity|not_in_names]. }
  destruct Hd as (d & Hk & Ha & Hr & Hdb). split; [by exists d|].
  rewrite (start_handler_db m text w1 Ht Harg). cbv zeta.
  unfold profile_of. rewrite Hk, Ha, Hr. cbn [negb]. by apply insert_id.
Qed.

(** X14: for a blocked (inactive) user, [/checkin] and [/start] without a [comments_] argument only send [account_blocked]: no document is written. *)
Theorem blocked_user_no_writes m text w d :
  db w !! (USERS, Z_to_js (msg_from m)) = Some d -> value_truthy (d !! F_isActive) = false ->
  checkin_handler m w = send (Z_to_js (msg_chat m)) (Msg "account_blocked" []) w
  /\ (msg_text m = Some text ->
      (forall a, nth_error (split_on 32 text) 1 = Some a -> starts_with (js "comments_") a = false) ->
      start_handler m w = send (Z_to_js (msg_chat m)) (Msg "account_blocked" []) w).
Proof.
  intros Hd Ha. split.
  - unfold checkin_handler. rewrite run_bind, (getUserProfile_some _ _ _ Hd). cbv beta iota.
    by rewrite Ha.
  - intros Ht Harg. rewrite (start_handler_text m text Ht Harg), run_bind, (getUserProfile_some _ _ _ Hd).
    cbv beta iota. by rewrite Ha.
Qed.

(** ** /checkin *)

Lemma checkin_write_tail u chat msg s w0 p :
  db w0 !! (USERS, Z_to_js u) = Some p ->
  db (fst ((doc_update USERS (Z_to_js u)
              [(F_dailyStreak, Put (VNum s)); (F_lastCheckin, Put (VDate (clock w0)))];;
            updateReputation (Some u) 2;;
            send chat msg) w0))
  = <[(USERS, Z_to_js u) :=
        apply_fops (apply_fops p [(F_dailyStreak, Put (VNum s)); (F_lastCheckin, Put (VDate (clock w0)))])
          [(js "reputation", Increment 2)]]> (db w0).
Proof.
  intros Hk. eapply (db_bind_ok db).
  { unfold doc_update. rewrite Hk. reflexivity. }
  eapply (db_bind_ok db).
  { unfold updateReputation. rewrite run_try_catch. unfold doc_update. cbn [db with_db].
    rewrite lookup_insert_eq. reflexivity. }
  apply (db_keeps db); [apply keeps_db_send|]. cbn [db with_db].
  by rewrite insert_insert_eq.
Qed.

Lemma checkin_handler_db m w :
  db (fst (checkin_handler m w))
  = <[(USERS, Z_to_js (msg_from m)) := checkin_doc (clock w) (profile_of (msg_from m) w)]> (db w).
Proof.
  unfold checkin_handler, checkin_doc. eapply (db_bind_ok db); [apply getUserProfile_ok|].
  fold (profile_of (msg_from m) w). set (p := profile_of (msg_from m) w).
  set (k := (USERS, Z_to_js (msg_from m))).
  assert (Hk : db (with_db w (<[k := p]> (db w))) !! k = Some p)
    by (cbn [db with_db]; apply lookup_insert_eq).
  set (w0 := with_db w (<[k := p]> (db w))) in *.
  destruct (value_truthy (p !! F_isActive)); cbn [negb];
    [|apply (db_keeps db); [apply keeps_db_send|reflexivity]].
  eapply (db_bind_ok db); [reflexivity|]. cbv zeta.
  change (clock w0) with (clock w).
  remember (match p !! F_lastCheckin with Some (VDate ms) => Some (day_of ms) | _ => None end)
    as last eqn:El.
  destruct (bool_decide (last = Some (day_of (clock w))));
    [apply (db_keeps db); [apply keeps_db_send|reflexivity]|].
  destruct last as [ld|].
  - destruct (ld =? day_of (clock w) - 1).
    + destruct (num_field p F_dailyStreak) as [s|]; cbn [option_map].
      * eapply (db_bind_ok db); [reflexivity|]. cbv beta.
        rewrite (checkin_write_tail _ _ _ _ w0 p Hk). unfold w0. cbn [db with_db]. by rewrite insert_insert_eq.
      * reflexivity.
    + eapply (db_bind_ok db); [reflexivity|]. cbv beta.
      rewrite (checkin_write_tail _ _ _ _ w0 p Hk). unfold w0. cbn [db with_db]. by rewrite insert_insert_eq.
  - eapply (db_bind_ok db); [reflexivity|]. cbv beta.
    rewrite (checkin_write_tail _ _ _ _ w0 p Hk). unfold w0. cbn [db with_db]. by rewrite insert_insert_eq.
Qed.

Lemma keeps_clock_checkin m : keeps clock (checkin_handler m).
Proof. unfold checkin_handler, getUserProfile, updateReputation. frame0. Qed.

Lemma checkin_doc_cases t p :
  checkin_doc t p = p
  \/ exists s, checkin_doc t p
               = apply_fops (apply_fops p [(F_dailyStreak, Put (VNum s)); (F_lastCheckin, Put (VDate t))])
                   [(js "reputation", Increment 2)].
Proof. unfold checkin_doc. cbv zeta. repeat case_match; eauto. Qed.

Lemma checkin_doc_idem t p : checkin_doc t (checkin_doc t p) = checkin_doc t p.
Proof.
  destruct (checkin_doc_cases t p) as [E|[s E]]; rewrite E; [exact E|].
  unfold checkin_doc at 1. cbv zeta.
  assert (Hl : apply_fops (apply_fops p [(F_dailyStreak, Put (VNum s)); (F_lastCheckin, Put (VDate t))])
                 [(js "reputation", Increment 2)] !! F_lastCheckin = Some (VDate t)).
  { rewrite apply_fops_notin by not_in_names.
    rewrite apply_fops_cons, apply_fops_put; [done|not_in_names]. }
  rewrite Hl, bool_decide_true by reflexivity. by destruct (negb _).
Qed.

(** X15: checking in twice at the same instant writes what checking in once writes: the second [/checkin] finds [lastCheckin] already today. *)
Theorem checkin_twice_same_instant m w :
  db (fst (checkin_handler m (fst (checkin_handler m w)))) = db (fst (checkin_handler m w)).
Proof.
  rewrite (checkin_handler_db m (fst (checkin_handler m w))), (keeps_clock_checkin m w).
  unfold profile_of at 1. rewrite !checkin_handler_db, lookup_insert_eq.
  rewrite insert_insert_eq. f_equal. apply checkin_doc_idem.
Qed.

(** X16: a check-in of an active user on a new day extends the streak by one when the last check-in was yesterday and restarts it at 1 otherwise, sets [lastCheckin] to now and adds 2 to the reputation. *)
Theorem checkin_streak m w d s :
  db w !! (USERS, Z_to_js (msg_from m)) = Some d ->
  value_truthy (d !! F_isActive) = true ->
  num_field d F_dailyStreak = Some s ->
  let last := match d !! F_lastCheckin with Some (VDate ms) => Some (day_of ms) | _ => None end in
  last <> Some (day_of (clock w)) ->
  let w' := fst (checkin_handler m w) in
  field_at (USERS, Z_to_js (msg_from m)) F_dailyStreak w'
    = Some (VNum (if bool_decide (last = Some (day_of (clock w) - 1)) then s + 1 else 1))
  /\ field_at (USERS, Z_to_js (msg_from m)) F_lastCheckin w' = Some (VDate (clock w))
  /\ field_at (USERS, Z_to_js (msg_from m)) F_reputation w'
     = Some (apply_fop (d !! F_reputation) (Increment 2)).
Proof.
  intros Hd Ha Hs last Hl w'.
  assert (Hw : exists s', db w' !! (USERS, Z_to_js (msg_from m))
                = Some (apply_fops (apply_fops d [(F_dailyStreak, Put (VNum s'));
                                                  (F_lastCheckin, Put (VDate (clock w)))])
                          [(js "reputation", Increment 2)])
                /\ s' = if bool_decide (last = Some (day_of (clock w) - 1)) then s + 1 else 1).
  { unfold w'. rewrite checkin_handler_db, lookup_insert_eq. unfold profile_of. rewrite Hd.
    unfold checkin_doc. cbv zeta. fold last. rewrite Ha. cbn [negb].
    rewrite bool_decide_false by exact Hl.
    destruct last as [ld|] eqn:El.
    - destruct (Z.eqb_spec ld (day_of (clock w) - 1)) as [->|Hne].
      + rewrite Hs. cbn [option_map]. eexists. split; [reflexivity|].
        by rewrite bool_decide_true.
      + eexists. split; [reflexivity|]. rewrite bool_decide_false; [done|congruence].
    - eexists. split; [reflexivity|]. by rewrite bool_decide_false. }
  destruct Hw as (s' & Hw & ->). unfold field_at. rewrite Hw. cbn [mbind option_bind].
  split; [|split].
  - rewrite apply_fops_notin by not_in_names. apply apply_fops_put. not_in_names.
  - rewrite apply_fops_notin by not_in_names. rewrite apply_fops_cons. apply apply_fops_put. not_in_names.
  - rewrite apply_fops_cons. cbn [apply_fops fold_left fst snd]. rewrite lookup_insert_eq.
    rewrite !lookup_insert_ne by (vm_compute; discriminate). reflexivity.
Qed.

(** ** The webhook and the callbacks *)

(** X17: a message update without text falls through [handleMessage] to [/start], which fails on [msg.text.split]; the webhook catches the error, writes nothing and answers with the acknowledged error. *)
Theorem webhook_message_without_text kh mu rc hv hp ph m w :
  msg_text m = None ->
  webhook kh mu rc hv hp ph (UMessage m) w = (w, inr false).
Proof.
  intros Ht. unfold webhook. rewrite run_try_catch, run_bind.
  unfold handleMessage. rewrite Ht. cbn [dispatch].
  unfold command_handler. rewrite bool_decide_true by reflexivity.
  unfold start_handler. rewrite Ht. reflexivity.
Qed.

Lemma starts_with_reject_not_approve s :
  starts_with (js "reject_") s = true -> starts_with (js "approve_") s = false.
Proof.
  change (js "reject_") with (114 :: js "eject_"). change (js "approve_") with (97 :: js "pprove_").
  destruct s as [|c s]; cbn [starts_with]; [discriminate|].
  intros H. apply andb_true_iff in H as [Hc _]. apply Z.eqb_eq in Hc. subst c. reflexivity.
Qed.

(** X18: a [reject_] callback, and an [approve_] callback from a non-admin, write no document. *)
Theorem callbacks_write_nothing mu rc hv hp ph cq w :
  (starts_with (js "reject_") (cq_data cq) = true ->
   db (fst (handleCallbackPrefix mu rc hv hp ph cq w)) = db w)
  /\ (isAdmin w (cq_from cq) = false -> starts_with (js "approve_") (cq_data cq) = true ->
      db (fst (handleCallbackPrefix mu rc hv hp ph cq w)) = db w).
Proof.
  split.
  - intros Hr. unfold handleCallbackPrefix. rewrite starts_with_reject_not_approve, Hr by exact Hr.
    revert w. change (keeps db (reject_handler cq)). unfold reject_handler. frame0.
  - intros Ha Hp. unfold handleCallbackPrefix. rewrite Hp. unfold approve_handler.
    rewrite run_bind. cbn [get_world fst snd]. rewrite Ha. cbn [negb].
    apply (keeps_answerCallbackQuery db).
Qed.

Lemma try_catch_never_raises (m : M unit) w : snd (try_catch m (fun _ => mret tt) w) = inr tt.
Proof. rewrite run_try_catch. by destruct (m w) as [w' [e|[]]]. Qed.


(** ** Comments and admin messages *)

Lemma keeps_ds_api_call chat m : keeps db_session (api_call chat m).
Proof. intros w. unfold api_call. by destruct (undeliverable w chat). Qed.

#[export] Hint Resolve keeps_ds_api_call : frame.

Lemma keeps_ds_ctx_reply ctx m : keeps db_session (ctx_reply ctx m).
Proof. unfold ctx_reply, sendMessage. frame0. Qed.

Lemma keeps_ds_updateChannelCommentCount id n : keeps db_session (updateChannelCommentCount id n).
Proof. unfold updateChannelCommentCount. frame0. Qed.

Lemma keeps_ds_notifyIdeaOwnerNewComment idea text n :
  keeps db_session (notifyIdeaOwnerNewComment idea text n).
Proof. unfold notifyIdeaOwnerNewComment, send, sendMessage. frame0. Qed.

Lemma obs_bind_quiet {B X} (obs : World -> X) (m : M unit) (f : unit -> M B) w v :
  keeps obs m -> snd (m w) = inr tt ->
  (forall w', obs w' = obs w -> obs (fst (f tt w')) = v) -> obs (fst ((m ≫= f) w)) = v.
Proof.
  intros Hk Hs Hf. rewrite run_bind. specialize (Hk w).
  destruct (m w) as [w' [e|[]]]; cbn in *; [discriminate|]. by apply Hf.
Qed.

Lemma handleCommentSubmission_ds ctx text w id idea :
  commentIdeaId (session w) = Some id -> id <> [] ->
  (2 <= length text <= 500)%nat ->
  db w !! (IDEAS, id) = Some idea ->
  exists c,
    db_session (fst (handleCommentSubmission ctx text w))
    = (<[(IDEAS, id) := apply_fops idea
                          [(F_commentCount, Put (VNum (default 0 (num_field idea F_commentCount) + 1)))]]>
         (<[(COMMENTS, js "comment_" ++ Z_to_js (ctx_from ctx) ++ js "_" ++ Z_to_js (clock w)) := c]> (db w)),
       set_commentIdeaId None (set_waitingForComment false (session w)))
    /\ c !! F_text = Some (VStr text)
    /\ c !! js "ideaId" = Some (VStr id).
Proof.
  intros Hs Hne Hl Hi. unfold handleCommentSubmission. eexists. split; [|split].
  - rewrite run_bind. cbn [get_session fst snd]. rewrite Hs.
    destruct id as [|ch id']; [done|].
    replace ((length text <? 2)%nat) with false by (symmetry; apply Nat.ltb_ge; lia).
    replace ((500 <? length text)%nat) with false by (symmetry; apply Nat.ltb_ge; lia).
    apply (db_try_catch db_session); [|intros; apply keeps_ds_ctx_reply].
    eapply (db_bind_ok db_session); [reflexivity|]. cbv beta.
    eapply (db_bind_ok db_session); [reflexivity|].
    eapply (db_bind_ok db_session).
    { unfold doc_get. cbn [db with_db]. rewrite lookup_insert_ne by names_differ. rewrite Hi. reflexivity. }
    cbv beta iota.
    eapply (db_bind_ok db_session).
    { unfold doc_update. cbn [db with_db]. rewrite lookup_insert_ne by names_differ. rewrite Hi. reflexivity. }
    apply obs_bind_quiet; [apply keeps_ds_updateChannelCommentCount|apply try_catch_never_raises|].
    intros w1 H1.
    apply obs_bind_quiet.
    { case_bool_decide; [intros ?; reflexivity|apply keeps_ds_notifyIdeaOwnerNewComment]. }
    { case_bool_decide; [reflexivity|apply try_catch_never_raises]. }
    intros w2 H2. eapply (db_bind_ok db_session); [reflexivity|].
    apply (db_keeps db_session); [apply keeps_ds_ctx_reply|].
    unfold db_session in *. cbn [db session with_session].
    injection H1 as H1 H1'. injection H2 as H2 H2'. cbn [db session with_db] in H1, H1'.
    rewrite H2', H1', H2, H1. reflexivity.
  - rewrite !lookup_insert_ne by (vm_compute; discriminate). apply lookup_insert_eq.
  - rewrite !lookup_insert_ne by (vm_compute; discriminate). apply lookup_insert_eq.
Qed.

(** X20: an accepted comment on an existing idea increments the idea [commentCount], stores the comment with its text and idea id, and clears the comment state of the session. *)
Theorem comment_submission_counts ctx text w id idea :
  commentIdeaId (session w) = Some id -> id <> [] ->
  (2 <= length text <= 500)%nat ->
  db w !! (IDEAS, id) = Some idea ->
  let w' := fst (handleCommentSubmission ctx text w) in
  field_at (IDEAS, id) F_commentCount w'
    = Some (VNum (default 0 (num_field idea F_commentCount) + 1))
  /\ (exists c, db w' !! (COMMENTS, js "comment_" ++ Z_to_js (ctx_from ctx) ++ js "_" ++ Z_to_js (clock w))
                = Some c /\ c !! F_text = Some (VStr text) /\ c !! js "ideaId" = Some (VStr id))
  /\ commentIdeaId (session w') = None
  /\ waitingForComment (session w') = false.
Proof.
  intros Hs Hne Hl Hi w'.
  destruct (handleCommentSubmission_ds ctx text w id idea Hs Hne Hl Hi) as (c & Hds & Ht & Hid).
  unfold db_session in Hds. fold w' in Hds. injection Hds as Hdb Hsess.
  unfold field_at. rewrite Hdb, Hsess. split; [|split; [|split; reflexivity]].
  - rewrite lookup_insert_eq. cbn [mbind option_bind]. apply lookup_insert_eq.
  - exists c. rewrite lookup_insert_ne by names_differ. rewrite lookup_insert_eq. auto.
Qed.

(** X21: a comment without a selected idea, or of fewer than 2 or more than 500 characters, changes neither the database nor the session. *)
Theorem comment_submission_refused ctx text w :
  match commentIdeaId (session w) with
  | None | Some [] => True
  | Some _ => (length text < 2)%nat \/ (500 < length text)%nat
  end ->
  db (fst (handleCommentSubmission ctx text w)) = db w
  /\ session (fst (handleCommentSubmission ctx text w)) = session w.
Proof.
  intros H. cut (db_session (fst (handleCommentSubmission ctx text w)) = db_session w).
  { unfold db_session. intros E. by injection E. }
  unfold handleCommentSubmission. rewrite run_bind. cbn [get_session fst snd].
  destruct (commentIdeaId (session w)) as [[|c id]|]; try apply keeps_ds_ctx_reply.
  destruct H as [H|H].
  - replace ((length text <? 2)%nat) with true by (symmetry; apply Nat.ltb_lt; lia).
    apply keeps_ds_ctx_reply.
  - destruct ((length text <? 2)%nat); [apply keeps_ds_ctx_reply|].
    replace ((500 <? length text)%nat) with true by (symmetry; apply Nat.ltb_lt; lia).
    apply keeps_ds_ctx_reply.
Qed.

Global Instance observer_undeliverable : Observer undeliverable.
Proof. split; reflexivity. Qed.

Lemma ctx_reply_ok ctx m w :
  undeliverable w (Z_to_js (ctx_chat ctx)) = false ->
  exists w', ctx_reply ctx m w = (w', inr tt) /\ db_session w' = db_session w
             /\ undeliverable w' = undeliverable w.
Proof.
  intros H. unfold ctx_reply, sendMessage, api_call. rewrite run_bind, H.
  eexists. split; [reflexivity|]. split; reflexivity.
Qed.

(** X22: a message from the admin to a user writes no document and clears the target user of the session, when the admin chat accepts the confirmation. *)
Theorem admin_message_clears_target ctx message w :
  undeliverable w (Z_to_js (ctx_chat ctx)) = false ->
  db (fst (handleAdminMessage ctx message w)) = db w
  /\ session (fst (handleAdminMessage ctx message w)) = set_messagingUser None (session w).
Proof.
  intros Hd. cut (db_session (fst (handleAdminMessage ctx message w))
                  = (db w, set_messagingUser None (session w))).
  { unfold db_session. intros E. by injection E. }
  unfold handleAdminMessage. rewrite run_bind. cbn [get_session fst snd].
  set (body := send (default (js "null") (messagingUser (session w))) (Msg "admin_message" [VStr message]);;
               ctx_reply ctx (Msg "admin_message_sent" [])).
  assert (Hk : keeps db_session body) by (unfold body, send, sendMessage; frame0; apply keeps_ds_ctx_reply).
  assert (Hu : keeps undeliverable body) by (unfold body, send, ctx_reply; frame0).
  rewrite run_bind, run_try_catch. specialize (Hk w). specialize (Hu w).
  destruct (body w) as [w1 [e|[]]]; cbn [fst] in Hk, Hu.
  - rewrite <- Hu in Hd. destruct (ctx_reply_ok ctx (Msg "admin_message_failed" []) w1 Hd) as (w2 & -> & H2 & _).
    unfold db_session in *. cbn. injection H2 as -> ->. injection Hk as -> ->. reflexivity.
  - unfold db_session in *. cbn. injection Hk as -> ->. reflexivity.
Qed.

(** ** Counters at start-up *)

Lemma list_max_ge x l : x ∈ l -> exists m, list_max l = Some m /\ x <= m.
Proof.
  induction l as [|y l IH]; intros Hx; [by apply not_elem_of_nil in Hx|].
  cbn [list_max fold_right]. apply elem_of_cons in Hx as [->|Hx].
  - eexists. split; [reflexivity|]. destruct (fold_right _ None l); lia.
  - destruct (IH Hx) as [m [Hm Hle]]. unfold list_max in Hm. rewrite Hm.
    eexists. split; [reflexivity|]. lia.
Qed.

Lemma default_list_max_ge x l d : x ∈ l -> x <= default d (list_max l).
Proof. intros Hx. destruct (list_max_ge x l Hx) as [m [-> H]]. exact H. Qed.

(** X23: without a counter document, [initializeCounter] followed by [getNextConfessionNumber] yields one more than the largest approved confession number, which exceeds every approved number. *)
Theorem initializeCounter_then_next w :
  db w !! (SYSTEM, COUNTERS) = None ->
  let n := default 0 (list_max (approved_confession_numbers w)) + 1 in
  snd ((initializeCounter;; getNextConfessionNumber) w) = inr n
  /\ forall k, k ∈ approved_confession_numbers w -> k < n.
Proof.
  intros Hc n. split.
  - rewrite run_bind. unfold initializeCounter. rewrite run_try_catch, run_bind.
    unfold doc_get at 1. cbn [fst snd]. rewrite Hc.
    cbv [mbind M_bind max_approved_confession now doc_set modify mret M_ret].
    cbn [fst snd db with_db with_confessionCounter].
    cbv [getNextConfessionNumber mbind M_bind doc_get now doc_update].
    cbn [fst snd db with_db with_confessionCounter]. rewrite lookup_insert_eq.
    cbv beta iota. unfold num_field at 1. rewrite apply_fops_put by not_in_names.
    cbn [fst snd db with_db with_confessionCounter]. rewrite lookup_insert_eq. reflexivity.
  - intros k Hk. unfold n. pose proof (default_list_max_ge k _ 0 Hk). lia.
Qed.

Lemma initializeIdeaCounter_run w :
  db (fst (initializeIdeaCounter w)) = db w
  /\ ideaCounter (fst (initializeIdeaCounter w))
     = default (ideaCounter w) (list_max (approved_idea_numbers w)).
Proof.
  unfold initializeIdeaCounter. rewrite run_try_catch, run_bind. cbn [get_world fst snd].
  destruct (list_max (approved_idea_numbers w)); split; reflexivity.
Qed.

(** X24: after [initializeIdeaCounter], the next approved idea gets one more than the largest approved idea number (or the current counter), which exceeds every approved number. *)
Theorem initializeIdeaCounter_then_approve ctx id d u w :
  db w !! (IDEAS, id) = Some d ->
  ctx_username ctx = Some u ->
  let n := default (ideaCounter w) (list_max (approved_idea_numbers w)) + 1 in
  number_of IDEAS id (fst (approveIdea ctx id (fst (initializeIdeaCounter w)))) = Some n
  /\ forall k, k ∈ approved_idea_numbers w -> k < n.
Proof.
  intros Hd Hu n. destruct (initializeIdeaCounter_run w) as [Hdb Hic]. split.
  - rewrite <- Hdb in Hd. destruct (approveIdea_existing ctx id d u _ Hd Hu) as [_ H].
    rewrite H, Hic. reflexivity.
  - intros k Hk. unfold n. pose proof (default_list_max_ge k _ (ideaCounter w) Hk). lia.
Qed.

(** ** Idea submission and rejection *)

Lemma keeps_ds_notifyAdminNewIdea id text name u :
  keeps db_session (notifyAdminNewIdea id text name u).
Proof.
  unfold notifyAdminNewIdea. apply keeps_bind; [apply keeps_get_world|intros w].
  apply keeps_for_each. intros x. unfold send, sendMessage. frame0.
Qed.

Lemma notifyAdminNewIdea_quiet id text name u w : snd (notifyAdminNewIdea id text name u w) = inr tt.
Proof.
  unfold notifyAdminNewIdea. rewrite run_bind. cbn [get_world fst snd].
  apply (for_each_caught_sends (fun a => a)).
Qed.

(** X25: an idea of 5 to 1000 characters is stored as a pending document with its text, the user id and no comments, and the session stops waiting for an idea. *)
Theorem idea_submission_stored ctx text w :
  (5 <= length text <= 1000)%nat ->
  let w' := fst (handleIdeaSubmission ctx text w) in
  (exists d, db w' = <[(IDEAS, js "idea_" ++ Z_to_js (ctx_from ctx) ++ js "_" ++ Z_to_js (clock w)) := d]> (db w)
             /\ d !! F_status = Some (VStr (js "pending"))
             /\ d !! F_text = Some (VStr text)
             /\ d !! F_userId = Some (VNum (ctx_from ctx))
             /\ d !! F_commentCount = Some (VNum 0))
  /\ session w' = set_waitingForIdea false (session w).
Proof.
  intros Hl w'.
  assert (Hds : exists d, db_session w'
            = (<[(IDEAS, js "idea_" ++ Z_to_js (ctx_from ctx) ++ js "_" ++ Z_to_js (clock w)) := d]> (db w),
               set_waitingForIdea false (session w))
            /\ d !! F_status = Some (VStr (js "pending"))
            /\ d !! F_text = Some (VStr text)
            /\ d !! F_userId = Some (VNum (ctx_from ctx))
            /\ d !! F_commentCount = Some (VNum 0)).
  { unfold w', handleIdeaSubmission. eexists. split; [|split; [|split; [|split]]].
    - replace ((length text <? 5)%nat) with false by (symmetry; apply Nat.ltb_ge; lia).
      replace ((1000 <? length text)%nat) with false by (symmetry; apply Nat.ltb_ge; lia).
      apply (db_try_catch db_session); [|intros; apply keeps_ds_ctx_reply].
      eapply (db_bind_ok db_session); [reflexivity|]. cbv beta.
      eapply (db_bind_ok db_session); [reflexivity|].
      apply obs_bind_quiet; [apply keeps_ds_notifyAdminNewIdea|apply notifyAdminNewIdea_quiet|].
      intros w1 H1. eapply (db_bind_ok db_session); [reflexivity|].
      apply (db_keeps db_session); [apply keeps_ds_ctx_reply|].
      unfold db_session in *. injection H1 as H1 H1'. cbn [db session with_session with_db] in *.
      rewrite H1, H1'. reflexivity.
    - rewrite !lookup_insert_ne by (vm_compute; discriminate). apply lookup_insert_eq.
    - rewrite !lookup_insert_ne by (vm_compute; discriminate). apply lookup_insert_eq.
    - rewrite !lookup_insert_ne by (vm_compute; discriminate). apply lookup_insert_eq.
    - rewrite !lookup_insert_ne by (vm_compute; discriminate). apply lookup_insert_eq. }
  destruct Hds as (d & Hds & H). unfold db_session in Hds. injection Hds as Hdb Hs.
  split; [|exact Hs]. exists d. split; [exact Hdb|exact H].
Qed.

(** X26: rejecting an idea whose document is missing writes no document and only clears the rejection state of the session. *)
Theorem rejection_of_missing_idea ctx reason w id :
  rejectingIdea (session w) = Some id -> id <> [] -> db w !! (IDEAS, id) = None ->
  handleIdeaRejection ctx reason w = (with_session w (set_rejectingIdea None (session w)), inr tt).
Proof.
  intros Hs Hne Hd. unfold handleIdeaRejection. rewrite run_bind. cbn [get_session fst snd].
  rewrite Hs. destruct id as [|c id]; [done|]. rewrite run_bind. unfold doc_get. cbn [fst snd].
  rewrite Hd. reflexivity.
Qed.

(** ** The admin dashboard *)

Lemma filter_three_le {A} (f g h k : A -> bool) l :
  (forall x, ((if f x then 1 else 0) + (if g x then 1 else 0) + (if h x then 1 else 0)
              <= (if k x then 1 else 0))%nat) ->
  (length (List.filter f l) + length (List.filter g l) + length (List.filter h l)
   <= length (List.filter k l))%nat.
Proof.
  intros H. induction l as [|x l IH]; cbn; [lia|]. specialize (H x).
  destruct (f x), (g x), (h x), (k x); cbn in *; lia.
Qed.

Lemma status_exclusive d :
  ((if status_is "pending" d then 1 else 0) + (if status_is "approved" d then 1 else 0)
   + (if status_is "rejected" d then 1 else 0) <= 1)%nat.
Proof.
  unfold status_is. destruct (str_field d F_status) as [s|];
  repeat case_bool_decide; try lia; exfalso; simplify_eq;
    match goal with H : js _ = js _ |- _ => vm_compute in H; discriminate H end.
Qed.

(** X27: the [/admin] dashboard writes no document, and the pending, approved and rejected counts it shows never exceed the number of confessions. *)
Theorem admin_dashboard_counts m w :
  db (fst (admin_handler m w)) = db w
  /\ forall users pending approved rejected,
       snd (getBotStats w) = inr (users, pending, approved, rejected) ->
       0 <= pending /\ 0 <= approved /\ 0 <= rejected
       /\ pending + approved + rejected <= count_where CONFESSIONS (fun _ => true) w.
Proof.
  split.
  - revert w. change (keeps db (admin_handler m)). unfold admin_handler, getBotStats, send, sendMessage.
    frame0.
  - intros users pending approved rejected H. unfold getBotStats in H. cbn [snd] in H. injection H as _ <- <- <-.
    unfold count_where. split; [lia|]. split; [lia|]. split; [lia|].
    rewrite <- !Nat2Z.inj_add. apply Nat2Z.inj_le. apply filter_three_le.
    intros [[c id] d]. cbn [fst snd]. pose proof (status_exclusive d).
    case_bool_decide; cbn [andb]; lia.
Qed.

(** ** Witnesses *)

Lemma isAdmin_listed_witness :
  isAdmin sample_world 8 = negb (8 =? 0) && bool_decide (8 ∈ [7; 8]).
Proof.
  apply (isAdmin_listed sample_world [([], 7, []); ([32], 8, [])] 8).
  - discriminate.
  - vm_compute. repeat constructor.
  - reflexivity.
Defined.

Lemma setCooldown_then_check_witness :
  snd (checkCooldown 42 (js "confession") 60000
         (fst (setCooldown 42 (js "confession") sample_world))) = inr false.
Proof.
  apply (setCooldown_then_check 42 (js "confession") 60000 sample_world).
  - discriminate.
  - lia.
  - intros H. vm_compute in H. discriminate.
Defined.

Lemma handleConfession_records_witness :
  field_at (CONFESSIONS, confession_id 42 100000) F_status
    (fst (handleConfession confession_msg (js "the library is too cold at night") sample_world))
  = Some (VStr (js "pending")).
Proof.
  pose proof (handleConfession_records confession_msg (js "the library is too cold at night")
                sample_world (<[js "totalConfessions" := VNum 0]> ∅)) as H.
  cbv zeta in H. apply H.
  - apply Nat.leb_le. vm_compute. reflexivity.
  - apply Nat.leb_le. vm_compute. reflexivity.
  - vm_compute. reflexivity.
  - discriminate.
Defined.

Lemma handleConfession_without_profile_witness :
  exists dc,
    db (fst (handleConfession (mkMessage 99 99 (Some (js "please fix the wifi")))
               (js "please fix the wifi") sample_world))
    = <[(CONFESSIONS, confession_id 99 100000) := dc]> sample_db
    /\ dc !! F_status = Some (VStr (js "pending")).
Proof.
  pose proof (handleConfession_without_profile (mkMessage 99 99 (Some (js "please fix the wifi")))
                (js "please fix the wifi") sample_world) as H.
  cbv zeta in H. apply H.
  - apply Nat.leb_le. vm_compute. reflexivity.
  - apply Nat.leb_le. vm_compute. reflexivity.
  - vm_compute. reflexivity.
Defined.

Lemma sanitizeInput_no_tag_witness :
  match_tag (sanitizeInput (js "hi <b>there</b>")) = None.
Proof.
  apply (sanitizeInput_no_tag (js "hi <b>there</b>") [] (sanitizeInput (js "hi <b>there</b>"))).
  reflexivity.
Defined.

Lemma recordComment_counts_witness :
  let prev := match db sample_world !! (USER_RATE_LIMITS, Z_to_js 42) with
              | Some d => match d !! F_commentTimestamps with Some (VNums l) => l | _ => [] end
              | None => [] end in
  snd (checkCommentRateLimit 42 30000 3 (fst (recordComment 42 sample_world)))
  = inr (Z.of_nat (length (filter (fun ts => bool_decide (clock sample_world - ts <= 30000)) prev))
         + (if decide (clock sample_world ∈ prev) then 0 else 1) <? 3).
Proof. apply (recordComment_counts 42 30000 3 sample_world). lia. Defined.

Lemma getUserProfile_new_witness :
  exists d, snd (getUserProfile 99 sample_world) = inr d
    /\ db (fst (getUserProfile 99 sample_world)) = <[(USERS, Z_to_js 99) := d]> (db sample_world)
    /\ d !! F_isActive = Some (VBool true) /\ d !! F_isRegistered = Some (VBool false)
    /\ d !! F_dailyStreak = Some (VNum 0) /\ d !! F_lastCheckin = Some VNull
    /\ d !! F_reputation = Some (VNum 0) /\ d !! F_totalConfessions = Some (VNum 0)
    /\ d !! F_userId = Some (VNum 99).
Proof. apply (getUserProfile_new 99 sample_world). vm_compute. reflexivity. Defined.

Lemma start_registers_witness :
  let m := mkMessage 99 99 (Some (js "/start")) in
  let w1 := fst (start_handler m sample_world) in
  (exists d, db w1 !! (USERS, Z_to_js (msg_from m)) = Some d
             /\ value_truthy (d !! F_isActive) = true
             /\ value_truthy (d !! F_isRegistered) = true)
  /\ db (fst (start_handler m w1)) = db w1.
Proof.
  pose proof (start_registers (mkMessage 99 99 (Some (js "/start"))) (js "/start") sample_world) as H.
  cbv zeta in H |- *. apply H.
  - reflexivity.
  - intros a Ha. vm_compute in Ha. discriminate Ha.
  - intros d Hd. vm_compute in Hd. discriminate Hd.
Defined.

Lemma blocked_user_no_writes_witness :
  let w := with_db sample_world (<[(USERS, js "42") := <[F_isActive := VBool false]> ∅]> sample_db) in
  let m := mkMessage 42 42 (Some (js "/checkin")) in
  checkin_handler m w = send (Z_to_js (msg_chat m)) (Msg "account_blocked" []) w
  /\ (msg_text m = Some (js "/checkin") ->
      (forall a, nth_error (split_on 32 (js "/checkin")) 1 = Some a -> starts_with (js "comments_") a = false) ->
      start_handler m w = send (Z_to_js (msg_chat m)) (Msg "account_blocked" []) w).
Proof.
  pose proof (blocked_user_no_writes (mkMessage 42 42 (Some (js "/checkin"))) (js "/checkin")
    (with_db sample_world (<[(USERS, js "42") := <[F_isActive := VBool false]> ∅]> sample_db))
    (<[F_isActive := VBool false]> ∅)) as H.
  cbv zeta. apply H.
  - vm_compute. reflexivity.
  - reflexivity.
Defined.

Lemma checkin_streak_witness :
  let d := <[F_isActive := VBool true]> (<[F_dailyStreak := VNum 3]>
             (<[F_lastCheckin := VDate (100000 - 86400000)]> ∅)) in
  let w := with_db sample_world (<[(USERS, js "42") := d]> sample_db) in
  let m := mkMessage 42 42 (Some (js "/checkin")) in
  let last := match d !! F_lastCheckin with Some (VDate ms) => Some (day_of ms) | _ => None end in
  let w' := fst (checkin_handler m w) in
  field_at (USERS, Z_to_js (msg_from m)) F_dailyStreak w'
    = Some (VNum (if bool_decide (last = Some (day_of (clock w) - 1)) then 3 + 1 else 1))
  /\ field_at (USERS, Z_to_js (msg_from m)) F_lastCheckin w' = Some (VDate (clock w))
  /\ field_at (USERS, Z_to_js (msg_from m)) F_reputation w'
     = Some (apply_fop (d !! F_reputation) (Increment 2)).
Proof.
  pose proof (checkin_streak (mkMessage 42 42 (Some (js "/checkin")))
    (with_db sample_world (<[(USERS, js "42") := <[F_isActive := VBool true]> (<[F_dailyStreak := VNum 3]>
             (<[F_lastCheckin := VDate (100000 - 86400000)]> ∅))]> sample_db))
    (<[F_isActive := VBool true]> (<[F_dailyStreak := VNum 3]>
             (<[F_lastCheckin := VDate (100000 - 86400000)]> ∅))) 3) as H.
  cbv zeta in H |- *. apply H.
  - vm_compute. reflexivity.
  - vm_compute. reflexivity.
  - vm_compute. reflexivity.
  - vm_compute. intros Hc. discriminate Hc.
Defined.

Lemma webhook_message_without_text_witness :
  webhook (fun _ _ => mret tt) (fun _ => mret tt) (fun _ => mret tt) (fun _ => mret tt)
    (fun _ => mret tt) (fun _ _ => mret tt) (UMessage (mkMessage 42 42 None)) sample_world
  = (sample_world, inr false).
Proof.
  apply (webhook_message_without_text (fun _ _ => mret tt) (fun _ => mret tt) (fun _ => mret tt)
           (fun _ => mret tt) (fun _ => mret tt) (fun _ _ => mret tt) (mkMessage 42 42 None) sample_world).
  reflexivity.
Defined.

Lemma comment_submission_counts_witness :
  let w := with_session sample_world
             (set_commentIdeaId (Some (js "i1")) (set_waitingForComment true empty_session)) in
  let idea := <[F_status := VStr (js "pending")]> (<[F_userId := VNum 42]>
                (<[F_text := VStr (js "more benches")]> ∅)) in
  let w' := fst (handleCommentSubmission member_ctx (js "nice idea") w) in
  field_at (IDEAS, js "i1") F_commentCount w'
    = Some (VNum (default 0 (num_field idea F_commentCount) + 1))
  /\ (exists c, db w' !! (COMMENTS, js "comment_" ++ Z_to_js (ctx_from member_ctx) ++ js "_" ++ Z_to_js (clock w))
                = Some c /\ c !! F_text = Some (VStr (js "nice idea")) /\ c !! js "ideaId" = Some (VStr (js "i1")))
  /\ commentIdeaId (session w') = None
  /\ waitingForComment (session w') = false.
Proof.
  pose proof (comment_submission_counts member_ctx (js "nice idea")
    (with_session sample_world (set_commentIdeaId (Some (js "i1")) (set_waitingForComment true empty_session)))
    (js "i1") (<[F_status := VStr (js "pending")]> (<[F_userId := VNum 42]>
                (<[F_text := VStr (js "more benches")]> ∅)))) as H.
  cbv zeta in H |- *. apply H.
  - reflexivity.
  - discriminate.
  - split; apply Nat.leb_le; vm_compute; reflexivity.
  - vm_compute. reflexivity.
Defined.

Lemma comment_submission_refused_witness :
  db (fst (handleCommentSubmission member_ctx (js "ok") sample_world)) = db sample_world
  /\ session (fst (handleCommentSubmission member_ctx (js "ok") sample_world)) = session sample_world.
Proof. apply (comment_submission_refused member_ctx (js "ok") sample_world). exact I. Defined.

Lemma admin_message_clears_target_witness :
  db (fst (handleAdminMessage admin_ctx (js "please check your idea") sample_world)) = db sample_world
  /\ session (fst (handleAdminMessage admin_ctx (js "please check your idea") sample_world))
     = set_messagingUser None (session sample_world).
Proof.
  apply (admin_message_clears_target admin_ctx (js "please check your idea") sample_world).
  reflexivity.
Defined.

Lemma initializeCounter_then_next_witness :
  let n := default 0 (list_max (approved_confession_numbers sample_world)) + 1 in
  snd ((initializeCounter;; getNextConfessionNumber) sample_world) = inr n
  /\ forall k, k ∈ approved_confession_numbers sample_world -> k < n.
Proof.
  pose proof (initializeCounter_then_next sample_world) as H.
  cbv zeta in H |- *. apply H. vm_compute. reflexivity.
Defined.

Lemma initializeIdeaCounter_then_approve_witness :
  let n := default (ideaCounter sample_world) (list_max (approved_idea_numbers sample_world)) + 1 in
  number_of IDEAS (js "i1") (fst (approveIdea admin_ctx (js "i1") (fst (initializeIdeaCounter sample_world))))
    = Some n
  /\ forall k, k ∈ approved_idea_numbers sample_world -> k < n.
Proof.
  pose proof (initializeIdeaCounter_then_approve admin_ctx (js "i1")
    (<[F_status := VStr (js "pending")]> (<[F_userId := VNum 42]> (<[F_text := VStr (js "more benches")]> ∅)))
    (js "boss") sample_world) as H.
  cbv zeta in H |- *. apply H.
  - vm_compute. reflexivity.
  - reflexivity.
Defined.

Lemma idea_submission_stored_witness :
  let w' := fst (handleIdeaSubmission member_ctx (js "more benches please") sample_world) in
  (exists d, db w' = <[(IDEAS, js "idea_" ++ Z_to_js (ctx_from member_ctx) ++ js "_" ++ Z_to_js (clock sample_world)) := d]> (db sample_world)
             /\ d !! F_status = Some (VStr (js "pending"))
             /\ d !! F_text = Some (VStr (js "more benches please"))
             /\ d !! F_userId = Some (VNum (ctx_from member_ctx))
             /\ d !! F_commentCount = Some (VNum 0))
  /\ session w' = set_waitingForIdea false (session sample_world).
Proof.
  pose proof (idea_submission_stored member_ctx (js "more benches please") sample_world) as H.
  cbv zeta in H |- *. apply H. split; apply Nat.leb_le; vm_compute; reflexivity.
Defined.

Lemma rejection_of_missing_idea_witness :
  let w := with_session sample_world (set_rejectingIdea (Some (js "zz")) empty_session) in
  handleIdeaRejection admin_ctx (js "duplicate") w
  = (with_session w (set_rejectingIdea None (session w)), inr tt).
Proof.
  pose proof (rejection_of_missing_idea admin_ctx (js "duplicate")
    (with_session sample_world (set_rejectingIdea (Some (js "zz")) empty_session)) (js "zz")) as H.
  cbv zeta. apply H.
  - reflexivity.
  - discriminate.
  - vm_compute. reflexivity.
Defined.
